(** * Subscription lifecycle and usage gating of the nutrition bot

    A shallow embedding of
      - [models/database.py]           (User, UserSubscription, UserUsage),
      - [database/subscription_repository.py],
      - [database/repository.py]       (get_by_telegram_id),
      - [services/payment_service.py],
      - [services/subscription_renewal_service.py],
      - [handlers/callback_handlers.py] (the payment and subscription
        callbacks),
    and the properties of the subscription engine checked on it.

    Conventions.
      - A naive UTC [datetime] is an integer number of microseconds, a
        [timedelta] likewise; Python integers are [Z].
      - The two tables are lists of rows, in insertion order.  An ORM object
        is identified with the row carrying its primary key: committing a
        mutated object rewrites that row.
      - Every [datetime.utcnow()] is one reading of a clock; the n-th
        reading made by the program is [utc_clock n].
      - The payment gateway is an oracle whose answer may depend on the
        whole history of external calls; each call is logged in the trace.
      - Exceptions are values: a computation returns an [Outcome] together
        with the world it leaves behind (mutations made before a raise
        stay).
      - A relationship attribute that the session has not loaded is read
        by a query; the sessions are [AsyncSession]s, which refuse such a
        query outside an awaited call ([MissingGreenlet]).
      - Left out: the wording of messages and of log lines (a log line
        counts only for what it evaluates), the replies of
        [handle_cancel_payment], and the state of a session after a failed
        commit.

    The file has four parts: the program, the vocabulary of the properties,
    the concrete worlds used in examples, and the properties. *)

From Stdlib Require Import ZArith List String Ascii Bool Lia DecimalString.
Import ListNotations.

#[local] Open Scope string_scope.
#[local] Open Scope list_scope.
#[local] Open Scope Z_scope.

(** ** Time *)

Definition datetime := Z.
Definition timedelta := Z.

Definition timedelta_days (d : Z) : timedelta := d * 86400000000.
Definition timedelta_hours (h : Z) : timedelta := h * 3600000000.

(** ** models/database.py *)

(** [UserSubscription]: one row per payment attempt.  [amount] is a Float
    column that the program only copies around; it is kept as a number of
    minor units. *)
Record UserSubscription : Type := mkSubscription {
  sub_id : Z;
  sub_user_id : Z;
  sub_payment_id : string;
  sub_amount : Z;
  sub_currency : string;
  sub_status : string;
  sub_start_date : option datetime;
  sub_end_date : option datetime;
  sub_created_at : datetime;
  sub_is_auto_renewal : bool;
  sub_parent_payment_id : option string;
  sub_next_payment_date : option datetime;
  sub_renewal_attempts : Z;
  sub_last_renewal_attempt : option datetime
}.

(** [UserUsage]: one row per user. *)
Record UserUsage : Type := mkUsage {
  usage_id : Z;
  usage_user_id : Z;
  photos_used : Z;
  questions_used : Z;
  last_reset : datetime
}.

(** [User]: the columns the engine reads. *)
Record User : Type := mkUser {
  user_id : Z;
  user_telegram_id : Z
}.

(** ** config/config.py (the constants the engine reads) *)

Record Config : Type := mkConfig {
  SUBSCRIPTION_PRICE : Z;
  SUBSCRIPTION_DAYS : Z;
  FREE_PHOTO_LIMIT : Z;
  FREE_QUESTION_LIMIT : Z
}.

(** The defaults of [config.py] when the environment sets nothing. *)
Definition default_config : Config :=
  {| SUBSCRIPTION_PRICE := 399; SUBSCRIPTION_DAYS := 30;
     FREE_PHOTO_LIMIT := 5; FREE_QUESTION_LIMIT := 10 |}.

(** ** The outside world: gateway objects, messages, trace *)

Inductive MetaValue : Type :=
| MInt (n : Z)
| MBool (b : bool).

Definition Metadata := list (string * MetaValue).

(** The dictionary handed to [Payment.create]. *)
Record PaymentData : Type := mkPaymentData {
  pd_amount : Z;
  pd_return_url : option string;      (* "confirmation": redirect *)
  pd_payment_method_id : option string;
  pd_save_payment_method : bool;
  pd_description : string;
  pd_metadata : option Metadata
}.

(** What the gateway SDK hands back: a payment object. *)
Record PaymentObject : Type := mkPaymentObject {
  po_id : string;
  po_status : string;
  po_confirmation_url : option string;   (* [payment.confirmation] *)
  po_payment_method : option string      (* [payment.payment_method.id] *)
}.

(** The dictionary returned by [create_payment] / [create_recurrent_payment]. *)
Record PaymentInfo : Type := mkPaymentInfo {
  pi_id : string;
  pi_status : string;
  pi_confirmation_url : option string;
  pi_amount : Z
}.

(** Texts sent by the renewal service, by kind and by the values they print. *)
Inductive Notice : Type :=
| RenewalSuccess (new_end_date : datetime)
| RenewalPending (end_date : datetime) (amount : Z) (payment : PaymentInfo)
| RenewalFailed (end_date : datetime).

(** Replies of the payment callback to the user. *)
Inductive Reply : Type :=
| SubscriptionActivated (end_date : option datetime)
| PaymentStillProcessing
| PaymentNotPassed
| PaymentCheckError.

Inductive Event : Type :=
| PaymentFindOne (payment_id : string)
| PaymentCreate (data : PaymentData)
| BotGetMe
| BotSendMessage (user_id : Z) (text : Notice)
| CallbackReply (r : Reply).

Inductive exn : Type :=
| MultipleResultsFound
| IntegrityError
| MissingGreenlet
| AttributeError
| TypeError
| IndexError
| NameError
| GatewayError
| TelegramError.

Inductive Outcome (A : Type) : Type :=
| Ok (a : A)
| Raise (e : exn).
Arguments Ok {A} a.
Arguments Raise {A} e.

(** The [yookassa] SDK as an oracle over the history of external calls. *)
Record Gateway : Type := mkGateway {
  gw_find_one : list Event -> string -> Outcome (option PaymentObject);
  gw_create : list Event -> PaymentData -> Outcome PaymentObject
}.

(** The messaging handle given to the renewal service by [set_bot]. *)
Record Bot : Type := mkBot {
  bot_get_me : Outcome string     (* username, or the call raises *)
}.

(** [SubscriptionRenewalService] instance state. *)
Record RenewalService : Type := mkService {
  is_running : bool;
  check_interval : Z;
  bot : option Bot
}.

(** [SubscriptionRenewalService.__init__] and [set_bot]. *)
Definition new_service : RenewalService :=
  {| is_running := false; check_interval := 3600; bot := None |}.

Definition set_bot (self : RenewalService) (b : Bot) : RenewalService :=
  {| is_running := is_running self; check_interval := check_interval self;
     bot := Some b |}.

(** ** World and the computation monad *)

Record World : Type := mkWorld {
  subscriptions : list UserSubscription;
  usages : list UserUsage;
  ticks : nat;                 (* clock readings made so far *)
  trace : list Event           (* external calls, oldest first *)
}.

Definition M (A : Type) : Type := World -> Outcome A * World.

Definition ret {A} (a : A) : M A := fun w => (Ok a, w).

Definition bind {A B} (m : M A) (k : A -> M B) : M B :=
  fun w =>
    match m w with
    | (Ok a, w') => k a w'
    | (Raise e, w') => (Raise e, w')
    end.

Definition raise {A} (e : exn) : M A := fun w => (Raise e, w).

(** [try: m except Exception as e: ...] hands the outcome to the handler. *)
Definition try_ {A} (m : M A) : M (Outcome A) :=
  fun w => let (r, w') := m w in (Ok r, w').

Definition gets {A} (f : World -> A) : M A := fun w => (Ok (f w), w).

Definition modify (f : World -> World) : M unit := fun w => (Ok tt, f w).

Declare Scope m_scope.
Delimit Scope m_scope with m.
Notation "x <- c ;; k" := (bind c (fun x => k))
  (at level 61, c at next level, right associativity) : m_scope.
Notation "c ;; k" := (bind c (fun _ => k))
  (at level 61, right associativity) : m_scope.
#[local] Open Scope m_scope.

Fixpoint for_each {A} (l : list A) (body : A -> M unit) : M unit :=
  match l with
  | [] => ret tt
  | x :: rest => body x ;; for_each rest body
  end.

Definition set_subscriptions (w : World) (l : list UserSubscription) : World :=
  {| subscriptions := l; usages := usages w; ticks := ticks w; trace := trace w |}.

Definition set_usages (w : World) (l : list UserUsage) : World :=
  {| subscriptions := subscriptions w; usages := l; ticks := ticks w;
     trace := trace w |}.

Definition emit (e : Event) : M unit :=
  modify (fun w => {| subscriptions := subscriptions w; usages := usages w;
                      ticks := ticks w; trace := trace w ++ [e] |}).

(** ** Query helpers (SQLAlchemy) *)

(** [Result.scalar_one_or_none()]: no row gives [None], one row gives it,
    more than one raises [MultipleResultsFound]. *)
Definition scalar_one_or_none {A} (rows : list A) : M (option A) :=
  match rows with
  | [] => ret None
  | [r] => ret (Some r)
  | _ :: _ :: _ => raise MultipleResultsFound
  end.

(** [Result.scalars().first()]. *)
Definition scalars_first {A} (rows : list A) : option A :=
  match rows with
  | [] => None
  | r :: _ => Some r
  end.

(** [ORDER BY key DESC], as a stable insertion sort. *)
Fixpoint insert_desc {A} (key : A -> Z) (x : A) (l : list A) : list A :=
  match l with
  | [] => [x]
  | y :: rest =>
      if key y <? key x then x :: y :: rest
      else y :: insert_desc key x rest
  end.

Definition order_by_desc {A} (key : A -> Z) (l : list A) : list A :=
  fold_right (insert_desc key) [] l.

(** A comparison with a NULL column is not true. *)
Definition date_gt (d : option datetime) (t : datetime) : bool :=
  match d with Some e => t <? e | None => false end.

Definition date_le (d : option datetime) (t : datetime) : bool :=
  match d with Some e => e <=? t | None => false end.

Definition date_key (d : option datetime) : Z :=
  match d with Some e => e | None => 0 end.

(** Autoincrement primary key. *)
Definition next_id (ids : list Z) : Z := 1 + fold_right Z.max 0 ids.

(** ** Attribute assignment on ORM objects *)

Definition set_status (s : UserSubscription) (st : string) : UserSubscription :=
  mkSubscription (sub_id s) (sub_user_id s) (sub_payment_id s) (sub_amount s)
    (sub_currency s) st (sub_start_date s) (sub_end_date s) (sub_created_at s)
    (sub_is_auto_renewal s) (sub_parent_payment_id s) (sub_next_payment_date s)
    (sub_renewal_attempts s) (sub_last_renewal_attempt s).

Definition set_start_date (s : UserSubscription) (d : option datetime)
  : UserSubscription :=
  mkSubscription (sub_id s) (sub_user_id s) (sub_payment_id s) (sub_amount s)
    (sub_currency s) (sub_status s) d (sub_end_date s) (sub_created_at s)
    (sub_is_auto_renewal s) (sub_parent_payment_id s) (sub_next_payment_date s)
    (sub_renewal_attempts s) (sub_last_renewal_attempt s).

Definition set_end_date (s : UserSubscription) (d : option datetime)
  : UserSubscription :=
  mkSubscription (sub_id s) (sub_user_id s) (sub_payment_id s) (sub_amount s)
    (sub_currency s) (sub_status s) (sub_start_date s) d (sub_created_at s)
    (sub_is_auto_renewal s) (sub_parent_payment_id s) (sub_next_payment_date s)
    (sub_renewal_attempts s) (sub_last_renewal_attempt s).

Definition set_next_payment_date (s : UserSubscription) (d : option datetime)
  : UserSubscription :=
  mkSubscription (sub_id s) (sub_user_id s) (sub_payment_id s) (sub_amount s)
    (sub_currency s) (sub_status s) (sub_start_date s) (sub_end_date s)
    (sub_created_at s) (sub_is_auto_renewal s) (sub_parent_payment_id s) d
    (sub_renewal_attempts s) (sub_last_renewal_attempt s).

Definition set_is_auto_renewal (s : UserSubscription) (b : bool)
  : UserSubscription :=
  mkSubscription (sub_id s) (sub_user_id s) (sub_payment_id s) (sub_amount s)
    (sub_currency s) (sub_status s) (sub_start_date s) (sub_end_date s)
    (sub_created_at s) b (sub_parent_payment_id s) (sub_next_payment_date s)
    (sub_renewal_attempts s) (sub_last_renewal_attempt s).

Definition set_renewal_attempts (s : UserSubscription) (n : Z)
  : UserSubscription :=
  mkSubscription (sub_id s) (sub_user_id s) (sub_payment_id s) (sub_amount s)
    (sub_currency s) (sub_status s) (sub_start_date s) (sub_end_date s)
    (sub_created_at s) (sub_is_auto_renewal s) (sub_parent_payment_id s)
    (sub_next_payment_date s) n (sub_last_renewal_attempt s).

Definition set_last_renewal_attempt (s : UserSubscription) (d : option datetime)
  : UserSubscription :=
  mkSubscription (sub_id s) (sub_user_id s) (sub_payment_id s) (sub_amount s)
    (sub_currency s) (sub_status s) (sub_start_date s) (sub_end_date s)
    (sub_created_at s) (sub_is_auto_renewal s) (sub_parent_payment_id s)
    (sub_next_payment_date s) (sub_renewal_attempts s) d.

Definition set_photos_used (u : UserUsage) (n : Z) : UserUsage :=
  mkUsage (usage_id u) (usage_user_id u) n (questions_used u) (last_reset u).

Definition set_questions_used (u : UserUsage) (n : Z) : UserUsage :=
  mkUsage (usage_id u) (usage_user_id u) (photos_used u) n (last_reset u).

Definition set_last_reset (u : UserUsage) (d : datetime) : UserUsage :=
  mkUsage (usage_id u) (usage_user_id u) (photos_used u) (questions_used u) d.

(** [db.commit()] after mutating an object: the row with that primary key
    now holds the object's attributes. *)
Definition replace_subscription (s : UserSubscription)
  (rows : list UserSubscription) : list UserSubscription :=
  map (fun r => if sub_id r =? sub_id s then s else r) rows.

Definition replace_usage (u : UserUsage) (rows : list UserUsage)
  : list UserUsage :=
  map (fun r => if usage_id r =? usage_id u then u else r) rows.

Definition commit_subscription (s : UserSubscription) : M unit :=
  modify (fun w => set_subscriptions w (replace_subscription s (subscriptions w))).

Definition commit_usage (u : UserUsage) : M unit :=
  modify (fun w => set_usages w (replace_usage u (usages w))).

Section Engine.

Variable config : Config.
Variable utc_clock : nat -> datetime.
Variable yookassa : Gateway.

(** [datetime.utcnow()] *)
Definition utcnow : M datetime :=
  fun w => (Ok (utc_clock (ticks w)),
            {| subscriptions := subscriptions w; usages := usages w;
               ticks := S (ticks w); trace := trace w |}).

(** ** database/subscription_repository.py: SubscriptionRepository *)

(** [db.add(row); db.commit()] for a subscription: [created_at] takes its
    column default, the unique constraint on [payment_id] is enforced. *)
Definition insert_subscription (row : Z -> datetime -> UserSubscription)
  : M UserSubscription :=
  created <- utcnow ;;
  rows <- gets subscriptions ;;
  let s := row (next_id (map sub_id rows)) created in
  if existsb (fun r => String.eqb (sub_payment_id r) (sub_payment_id s)) rows
  then raise IntegrityError
  else modify (fun w => set_subscriptions w (subscriptions w ++ [s])) ;; ret s.

Definition create_subscription (user_id : Z) (payment_id : string) (amount : Z)
  : M UserSubscription :=
  insert_subscription (fun new_id created =>
    {| sub_id := new_id; sub_user_id := user_id; sub_payment_id := payment_id;
       sub_amount := amount; sub_currency := "RUB"; sub_status := "pending";
       sub_start_date := None; sub_end_date := None; sub_created_at := created;
       sub_is_auto_renewal := true; sub_parent_payment_id := None;
       sub_next_payment_date := None; sub_renewal_attempts := 0;
       sub_last_renewal_attempt := None |}).

Definition select_by_payment_id (payment_id : string) : M (option UserSubscription) :=
  rows <- gets subscriptions ;;
  scalar_one_or_none
    (filter (fun r => String.eqb (sub_payment_id r) payment_id) rows).

Definition select_by_id (subscription_id : Z) : M (option UserSubscription) :=
  rows <- gets subscriptions ;;
  scalar_one_or_none (filter (fun r => sub_id r =? subscription_id) rows).

Definition activate_subscription (payment_id : string)
  : M (option UserSubscription) :=
  subscription <- select_by_payment_id payment_id ;;
  match subscription with
  | Some s =>
      let s := set_status s "succeeded" in
      t_start <- utcnow ;;
      let s := set_start_date s (Some t_start) in
      t_end <- utcnow ;;
      let s := set_end_date s
                 (Some (t_end + timedelta_days (SUBSCRIPTION_DAYS config))) in
      let s := set_next_payment_date s (sub_end_date s) in
      commit_subscription s ;;
      ret (Some s)
  | None => ret None
  end.

Definition is_active (user_id : Z) (now : datetime) (r : UserSubscription) : bool :=
  (sub_user_id r =? user_id)
  && String.eqb (sub_status r) "succeeded"
  && date_gt (sub_end_date r) now.

Definition get_active_subscription (user_id : Z) : M (option UserSubscription) :=
  now <- utcnow ;;
  rows <- gets subscriptions ;;
  scalar_one_or_none
    (order_by_desc (fun r => date_key (sub_end_date r))
       (filter (is_active user_id now) rows)).

Definition cancel_subscription (subscription_id : Z) : M bool :=
  subscription <- select_by_id subscription_id ;;
  match subscription with
  | Some s =>
      let s := set_status s "canceled" in
      let s := set_is_auto_renewal s false in
      commit_subscription s ;;
      ret true
  | None => ret false
  end.

Definition toggle_auto_renewal (user_id : Z) (enable : bool)
  : M (option UserSubscription) :=
  subscription <- get_active_subscription user_id ;;
  match subscription with
  | Some s =>
      let s := set_is_auto_renewal s enable in
      commit_subscription s ;;
      ret (Some s)
  | None => ret None
  end.

Definition is_expiring (check_date now : datetime) (r : UserSubscription) : bool :=
  String.eqb (sub_status r) "succeeded"
  && Bool.eqb (sub_is_auto_renewal r) true
  && date_le (sub_end_date r) check_date
  && date_gt (sub_end_date r) now.

Definition get_expiring_subscriptions (days_before : Z)
  : M (list UserSubscription) :=
  t <- utcnow ;;
  let check_date := t + timedelta_days days_before in
  now <- utcnow ;;
  rows <- gets subscriptions ;;
  ret (filter (is_expiring check_date now) rows).

Definition create_renewal_subscription (old_subscription : UserSubscription)
  (payment_id : string) : M UserSubscription :=
  insert_subscription (fun new_id created =>
    {| sub_id := new_id; sub_user_id := sub_user_id old_subscription;
       sub_payment_id := payment_id;
       sub_amount := sub_amount old_subscription;
       sub_currency := sub_currency old_subscription;
       sub_status := "pending";
       sub_start_date := None; sub_end_date := None; sub_created_at := created;
       sub_is_auto_renewal := sub_is_auto_renewal old_subscription;
       sub_parent_payment_id := Some (sub_payment_id old_subscription);
       sub_next_payment_date := None; sub_renewal_attempts := 0;
       sub_last_renewal_attempt := None |}).

Definition update_renewal_attempt (subscription_id : Z) : M unit :=
  subscription <- select_by_id subscription_id ;;
  match subscription with
  | Some s =>
      let s := set_renewal_attempts s (sub_renewal_attempts s + 1) in
      now <- utcnow ;;
      let s := set_last_renewal_attempt s (Some now) in
      commit_subscription s
  | None => ret tt
  end.

Definition get_last_subscription (user_id : Z) : M (option UserSubscription) :=
  rows <- gets subscriptions ;;
  ret (scalars_first
         (order_by_desc sub_created_at
            (filter (fun r => sub_user_id r =? user_id) rows))).

(** ** database/subscription_repository.py: UsageRepository *)

Definition get_or_create_usage (user_id : Z) : M UserUsage :=
  rows <- gets usages ;;
  usage <- scalar_one_or_none (filter (fun r => usage_user_id r =? user_id) rows) ;;
  match usage with
  | Some u => ret u
  | None =>
      stamp <- utcnow ;;
      rows <- gets usages ;;
      let u := {| usage_id := next_id (map usage_id rows);
                  usage_user_id := user_id; photos_used := 0;
                  questions_used := 0; last_reset := stamp |} in
      modify (fun w => set_usages w (usages w ++ [u])) ;;
      ret u
  end.

Definition increment_photos (user_id : Z) : M UserUsage :=
  usage <- get_or_create_usage user_id ;;
  let usage := set_photos_used usage (photos_used usage + 1) in
  commit_usage usage ;;
  ret usage.

Definition increment_questions (user_id : Z) : M UserUsage :=
  usage <- get_or_create_usage user_id ;;
  let usage := set_questions_used usage (questions_used usage + 1) in
  commit_usage usage ;;
  ret usage.

Definition reset_usage (user_id : Z) : M UserUsage :=
  usage <- get_or_create_usage user_id ;;
  let usage := set_photos_used usage 0 in
  let usage := set_questions_used usage 0 in
  now <- utcnow ;;
  let usage := set_last_reset usage now in
  commit_usage usage ;;
  ret usage.

Definition can_use_photo (user_id : Z) : M bool :=
  active_sub <- get_active_subscription user_id ;;
  match active_sub with
  | Some _ => ret true
  | None =>
      usage <- get_or_create_usage user_id ;;
      ret (photos_used usage <? FREE_PHOTO_LIMIT config)
  end.

Definition can_ask_question (user_id : Z) : M bool :=
  active_sub <- get_active_subscription user_id ;;
  match active_sub with
  | Some _ => ret true
  | None =>
      usage <- get_or_create_usage user_id ;;
      ret (questions_used usage <? FREE_QUESTION_LIMIT config)
  end.

(** ** services/payment_service.py *)

(** A call of the gateway SDK: logged, then answered by the oracle. *)
Definition external {A} (e : Event) (answer : list Event -> Outcome A) : M A :=
  emit e ;;
  fun w => (answer (trace w), w).

Definition Payment_find_one (payment_id : string) : M (option PaymentObject) :=
  external (PaymentFindOne payment_id)
           (fun history => gw_find_one yookassa history payment_id).

Definition Payment_create (data : PaymentData) : M PaymentObject :=
  external (PaymentCreate data) (fun history => gw_create yookassa history data).

(** [if metadata: payment_data["metadata"] = metadata] *)
Definition metadata_entry (metadata : option Metadata) : option Metadata :=
  match metadata with
  | Some (_ :: _) => metadata
  | _ => None
  end.

(** The request always carries ["capture": True] and currency RUB; the
    idempotency key is a fresh UUID on every call. *)
Definition create_payment (amount : Z) (description return_url : string)
  (metadata : option Metadata) : M (option PaymentInfo) :=
  let payment_data :=
    {| pd_amount := amount; pd_return_url := Some return_url;
       pd_payment_method_id := None; pd_save_payment_method := false;
       pd_description := description;
       pd_metadata := metadata_entry metadata |} in
  r <- try_ (Payment_create payment_data) ;;
  match r with
  | Ok payment =>
      match po_confirmation_url payment with
      | Some url =>
          ret (Some {| pi_id := po_id payment; pi_status := po_status payment;
                       pi_confirmation_url := Some url; pi_amount := amount |})
      | None => ret None      (* attribute access on None, caught below *)
      end
  | Raise _ => ret None
  end.

Definition create_recurrent_payment (amount : Z) (description return_url : string)
  (parent_payment_id : string) (metadata : option Metadata)
  : M (option PaymentInfo) :=
  found <- try_ (Payment_find_one parent_payment_id) ;;
  match found with
  | Raise _ => create_payment amount description return_url metadata
  | Ok None => ret None
  | Ok (Some parent_payment) =>
      match po_payment_method parent_payment with
      | None => ret None
      | Some method_id =>
          let payment_data :=
            {| pd_amount := amount; pd_return_url := None;
               pd_payment_method_id := Some method_id;
               pd_save_payment_method := true;
               pd_description := description;
               pd_metadata := metadata_entry metadata |} in
          r <- try_ (Payment_create payment_data) ;;
          match r with
          | Ok payment =>
              ret (Some {| pi_id := po_id payment;
                           pi_status := po_status payment;
                           pi_confirmation_url := po_confirmation_url payment;
                           pi_amount := amount |})
          | Raise _ => create_payment amount description return_url metadata
          end
      end
  end.

(** The status of the payment, [None] when anything in the body raises:
    the lookup, the read of [payment.status], and, for a canceled payment,
    the log line, which calls [details.get(...)] on the cancellation
    details, an object without that method. *)
Definition check_payment_status (payment_id : string) : M (option string) :=
  r <- try_ (
    payment <- Payment_find_one payment_id ;;
    match payment with
    | Some p =>
        if String.eqb (po_status p) "canceled"
        then raise AttributeError        (* [details.get("reason")] *)
        else ret (po_status p)
    | None => raise AttributeError       (* [payment.status] on [None] *)
    end) ;;
  match r with
  | Ok status => ret (Some status)
  | Raise _ => ret None
  end.

(** ** services/subscription_renewal_service.py *)

(** [subscription.user].  The relationship is declared without a loading
    strategy (models/database.py, [UserSubscription.user]), so it is read
    from the database on first access.  The rows the service handles come
    from [get_expiring_subscriptions] in the session that
    [check_and_renew_subscriptions] has just opened, into which no [User]
    is ever loaded: the access needs a query, and the [AsyncSession]
    refuses it ([MissingGreenlet]). *)
Definition subscription_user (subscription : UserSubscription) : M User :=
  raise MissingGreenlet.

(** [except Exception as e: logger.error(f"... {subscription.user.telegram_id}: {e}")]:
    the handler of the three notifications reads the relationship again
    to build its log line. *)
Definition log_notification_error (subscription : UserSubscription) : M unit :=
  user <- subscription_user subscription ;;
  ret tt.

(** [bot.send_message]: the message is logged in the trace. *)
Definition send_message (chat_id : Z) (text : Notice) : M unit :=
  emit (BotSendMessage chat_id text).

Definition notify_user_renewal_success (self : RenewalService)
  (subscription : UserSubscription) : M unit :=
  r <- try_ (
    match sub_end_date subscription with
    | None => raise TypeError                  (* [None + timedelta] *)
    | Some end_date =>
        let new_end_date :=
          end_date + timedelta_days (SUBSCRIPTION_DAYS config) in
        match bot self with
        | None => raise AttributeError         (* [self.bot.send_message] *)
        | Some _ =>
            user <- subscription_user subscription ;;
            send_message (user_telegram_id user) (RenewalSuccess new_end_date)
        end
    end) ;;
  match r with
  | Ok _ => ret tt
  | Raise _ => log_notification_error subscription
  end.

Definition notify_user_renewal_pending (self : RenewalService)
  (subscription : UserSubscription) (payment_info : PaymentInfo) : M unit :=
  r <- try_ (
    match bot self with
    | None => raise AttributeError             (* [self.bot.send_message] *)
    | Some _ =>
        user <- subscription_user subscription ;;
        match sub_end_date subscription with
        | None => raise AttributeError         (* [end_date.strftime] *)
        | Some end_date =>
            send_message (user_telegram_id user)
              (RenewalPending end_date (sub_amount subscription) payment_info)
        end
    end) ;;
  match r with
  | Ok _ => ret tt
  | Raise _ => log_notification_error subscription
  end.

Definition notify_user_renewal_failed (self : RenewalService)
  (subscription : UserSubscription) : M unit :=
  r <- try_ (
    match bot self with
    | None => raise AttributeError             (* [self.bot.send_message] *)
    | Some _ =>
        user <- subscription_user subscription ;;
        match sub_end_date subscription with
        | None => raise AttributeError         (* [end_date.strftime] *)
        | Some end_date =>
            send_message (user_telegram_id user) (RenewalFailed end_date)
        end
    end) ;;
  match r with
  | Ok _ => ret tt
  | Raise _ => log_notification_error subscription
  end.

Definition renewal_description : string := "Продление подписки на ИИ Нутрициолог".

Definition renewal_metadata (subscription : UserSubscription) (user : User)
  : Metadata :=
  [ ("user_id", MInt (sub_user_id subscription));
    ("telegram_id", MInt (user_telegram_id user));
    ("is_renewal", MBool true) ].

Definition get_me (b : Bot) : M string :=
  emit BotGetMe ;; fun w => (bot_get_me b, w).

(** The arguments of [create_recurrent_payment], the metadata dictionary
    with [subscription.user.telegram_id] among them, are evaluated before
    the call is made. *)
Definition process_renewal (self : RenewalService)
  (subscription : UserSubscription) : M unit :=
  if 3 <=? sub_renewal_attempts subscription then
    notify_user_renewal_failed self subscription
  else
    too_early <-
      match sub_last_renewal_attempt subscription with
      | Some last =>
          now <- utcnow ;;
          let time_since_last := now - last in
          ret (time_since_last <? timedelta_hours 6)
      | None => ret false
      end ;;
    if too_early : bool then ret tt
    else
      match bot self with
      | None => ret tt
      | Some b =>
          username <- get_me b ;;
          let return_url := String.append "https://t.me/" username in
          user <- subscription_user subscription ;;
          payment_info <-
            create_recurrent_payment (sub_amount subscription)
              renewal_description return_url (sub_payment_id subscription)
              (Some (renewal_metadata subscription user)) ;;
          match payment_info with
          | Some info =>
              new_subscription <-
                create_renewal_subscription subscription (pi_id info) ;;
              if String.eqb (pi_status info) "succeeded" then
                activate_subscription (pi_id info) ;;
                notify_user_renewal_success self subscription
              else
                notify_user_renewal_pending self subscription info
          | None => update_renewal_attempt (sub_id subscription)
          end
      end.

(** One scan, in a session of its own.  The rows of [expiring_subs] are
    live objects; processing one of them touches only its own row, so each
    is still equal to its row when its turn comes. *)
Definition check_and_renew_subscriptions (self : RenewalService) : M unit :=
  expiring_subs <- get_expiring_subscriptions 1 ;;
  for_each expiring_subs (fun subscription =>
    r <- try_ (process_renewal self subscription) ;;
    match r with
    | Ok _ => ret tt
    | Raise _ => update_renewal_attempt (sub_id subscription)
    end).

(** [start]: the first [n] turns of the polling loop (the sleeps show only
    in the clock). *)
Fixpoint start (n : nat) (self : RenewalService) : M unit :=
  match n with
  | O => ret tt
  | S k => try_ (check_and_renew_subscriptions self) ;; start k self
  end.

(** ** handlers/callback_handlers.py: the payment callback *)

(** [payment_id] is the third [_]-separated field of the callback data. *)
Definition handle_check_payment (payment_id : string) : M unit :=
  r <- try_ (
    status <- check_payment_status payment_id ;;
    match status with
    | Some st =>
        if String.eqb st "succeeded" then
          subscription <- activate_subscription payment_id ;;
          match subscription with
          | Some s =>
              reset_usage (sub_user_id s) ;;
              emit (CallbackReply (SubscriptionActivated (sub_end_date s)))
          | None => ret tt
          end
        else if String.eqb st "pending" || String.eqb st "waiting_for_capture"
        then emit (CallbackReply PaymentStillProcessing)
        else emit (CallbackReply PaymentNotPassed)
    | None => emit (CallbackReply PaymentNotPassed)
    end) ;;
  match r with
  | Ok _ => ret tt
  | Raise _ => emit (CallbackReply PaymentCheckError)
  end.

(** [handle_cancel_payment]: an abandoned pending payment is canceled. *)
Definition handle_cancel_payment (payment_id : string) : M unit :=
  r <- try_ (
    subscription <- select_by_payment_id payment_id ;;
    match subscription with
    | Some s =>
        if String.eqb (sub_status s) "pending"
        then commit_subscription (set_status s "canceled")
        else ret tt
    | None => ret tt
    end) ;;
  ret tt.

(** [handle_confirm_cancel_subscription] for the user with this id. *)
Definition handle_confirm_cancel_subscription (user_id : Z) : M unit :=
  r <- try_ (
    active_sub <- get_active_subscription user_id ;;
    match active_sub with
    | Some s => commit_subscription (set_status s "canceled")
    | None => ret tt
    end) ;;
  ret tt.

End Engine.

(** * More of the program *)

(** ** Callback data

    The buttons carry the payment reference in their callback data
    ([check_payment_<id>], [cancel_payment_<id>], [cancel_renewal_<id>]);
    the callbacks read it back with [callback.data.split("_")[2]]. *)

(** [str.split(sep)] for a one-character separator. *)
Fixpoint split_on (sep : ascii) (s : string) : list string :=
  match s with
  | EmptyString => [EmptyString]
  | String c rest =>
      if Ascii.eqb c sep then EmptyString :: split_on sep rest
      else
        match split_on sep rest with
        | [] => [String c EmptyString]
        | piece :: pieces => String c piece :: pieces
        end
  end.

(** [callback.data.split("_")[2]]; [None] stands for the [IndexError]. *)
Definition callback_payment_id (data : string) : option string :=
  nth_error (split_on "_"%char data) 2.

(** The callback data put on the three buttons. *)
Definition check_payment_data (payment_id : string) : string :=
  String.append "check_payment_" payment_id.

Definition cancel_payment_data (payment_id : string) : string :=
  String.append "cancel_payment_" payment_id.

Definition cancel_renewal_data (payment_id : string) : string :=
  String.append "cancel_renewal_" payment_id.

(** What a callback shows to the user (the text, by kind). *)
Inductive CancelRenewalReply : Type :=
| AutoRenewalCanceled
| RenewalNotCanceled
| CancelRenewalError.

Inductive ToggleReply : Type :=
| ToggleUserNotFound
| ToggleNoActiveSubscription
| AutoRenewalSwitched (enabled : bool) (end_date : datetime)
| SettingsNotChanged
| ToggleError.

Inductive ConfirmCancelReply : Type :=
| CancelUserNotFound
| CancelNoActiveSubscription
| SubscriptionCanceled (end_date : datetime)
| ConfirmCancelError.

Inductive SubscribeReply : Type :=
| SubscribeUserNotFound
| AlreadySubscribed (end_date : datetime)
| PaymentOffer (remaining_photos remaining_questions : Z) (renewing : bool)
    (confirmation_url : option string) (check_data cancel_data : string)
| PaymentNotCreated
| SubscribeError.

(** [except Exception: answer(error text)] around a callback body. *)
Definition or_reply {A} (error : A) (body : M A) : M A :=
  r <- try_ body ;;
  match r with
  | Ok reply => ret reply
  | Raise _ => ret error
  end.

(** A string is true unless it is empty. *)
Definition nonempty (s : string) : bool :=
  match s with
  | EmptyString => false
  | String _ _ => true
  end.

Section Callbacks.

Variable config : Config.
Variable utc_clock : nat -> datetime.
Variable yookassa : Gateway.
(** The users table; the callbacks below only read it. *)
Variable users : list User.

(** database/repository.py: [UserRepository.get_by_telegram_id] *)
Definition get_by_telegram_id (telegram_id : Z) : M (option User) :=
  scalar_one_or_none (filter (fun u => user_telegram_id u =? telegram_id) users).

(** handlers/callback_handlers.py: [handle_cancel_renewal].  The handler
    builds its two queries with [select], a name that the module does not
    import and that the function does not bind (only
    [handle_cancel_payment] imports it, locally): evaluating the name
    raises before anything is sent to the database. *)
Definition unbound_select {A} (query : M A) : M A := raise NameError.

Definition handle_cancel_renewal (data : string) : M CancelRenewalReply :=
  or_reply CancelRenewalError (
    match callback_payment_id data with
    | None => raise IndexError          (* [split("_")[2]] *)
    | Some payment_id =>
        subscription <- unbound_select (select_by_payment_id payment_id) ;;
        match subscription with
        | Some s =>
            if String.eqb (sub_status s) "pending" then
              let s := set_status s "canceled" in
              commit_subscription s ;;
              match sub_parent_payment_id s with
              | Some parent_id =>
                  if nonempty parent_id then
                    parent_sub <-
                      unbound_select (select_by_payment_id parent_id) ;;
                    match parent_sub with
                    | Some p => commit_subscription (set_is_auto_renewal p false)
                    | None => ret tt
                    end
                  else ret tt
              | None => ret tt
              end ;;
              ret AutoRenewalCanceled
            else ret RenewalNotCanceled
        | None => ret RenewalNotCanceled
        end
    end).

(** handlers/callback_handlers.py: [handle_toggle_auto_renewal], for the
    Telegram user who pressed the button. *)
Definition handle_toggle_auto_renewal (from_user : Z) : M ToggleReply :=
  or_reply ToggleError (
    user <- get_by_telegram_id from_user ;;
    match user with
    | None => ret ToggleUserNotFound
    | Some u =>
        active_sub <- get_active_subscription utc_clock (user_id u) ;;
        match active_sub with
        | None => ret ToggleNoActiveSubscription
        | Some s =>
            let new_status := negb (sub_is_auto_renewal s) in
            updated_sub <- toggle_auto_renewal utc_clock (user_id u) new_status ;;
            match updated_sub with
            | Some s' =>
                match sub_end_date s' with
                | Some end_date => ret (AutoRenewalSwitched new_status end_date)
                | None => raise AttributeError
                end
            | None => ret SettingsNotChanged
            end
        end
    end).

(** handlers/callback_handlers.py: [handle_confirm_cancel_subscription],
    with the lookup of the user and the reply. *)
Definition confirm_cancel_subscription (from_user : Z) : M ConfirmCancelReply :=
  or_reply ConfirmCancelError (
    user <- get_by_telegram_id from_user ;;
    match user with
    | None => ret CancelUserNotFound
    | Some u =>
        active_sub <- get_active_subscription utc_clock (user_id u) ;;
        match active_sub with
        | None => ret CancelNoActiveSubscription
        | Some s =>
            let s := set_status s "canceled" in
            commit_subscription s ;;
            match sub_end_date s with
            | Some end_date => ret (SubscriptionCanceled end_date)
            | None => raise AttributeError
            end
        end
    end).

(** [f"Подписка на ИИ Нутрициолог на {config.SUBSCRIPTION_DAYS} дней"] *)
Definition subscription_description : string :=
  String.append "Подписка на ИИ Нутрициолог на "
    (String.append (NilZero.string_of_int (Z.to_int (SUBSCRIPTION_DAYS config)))
       " дней").

(** handlers/callback_handlers.py: [handle_subscribe], for the Telegram
    user who pressed the button; [callback_bot] is [callback.bot]. *)
Definition handle_subscribe (callback_bot : Bot) (from_user : Z)
  : M SubscribeReply :=
  or_reply SubscribeError (
    user <- get_by_telegram_id from_user ;;
    match user with
    | None => ret SubscribeUserNotFound
    | Some u =>
        active_sub <- get_active_subscription utc_clock (user_id u) ;;
        match active_sub with
        | Some s =>
            match sub_end_date s with
            | Some end_date => ret (AlreadySubscribed end_date)
            | None => raise AttributeError
            end
        | None =>
            usage <- get_or_create_usage utc_clock (user_id u) ;;
            let remaining_photos :=
              Z.max 0 (FREE_PHOTO_LIMIT config - photos_used usage) in
            let remaining_questions :=
              Z.max 0 (FREE_QUESTION_LIMIT config - questions_used usage) in
            username <- get_me callback_bot ;;
            let return_url := String.append "https://t.me/" username in
            payment_info <-
              create_payment yookassa (SUBSCRIPTION_PRICE config)
                subscription_description return_url
                (Some [ ("user_id", MInt (user_id u));
                        ("telegram_id", MInt (user_telegram_id u)) ]) ;;
            match payment_info with
            | Some info =>
                create_subscription utc_clock (user_id u) (pi_id info)
                  (pi_amount info) ;;
                last_sub <- get_last_subscription (user_id u) ;;
                let renewing :=
                  match last_sub with None => false | Some _ => true end in
                ret (PaymentOffer remaining_photos remaining_questions renewing
                       (pi_confirmation_url info)
                       (check_payment_data (pi_id info))
                       (cancel_payment_data (pi_id info)))
            | None => ret PaymentNotCreated
            end
        end
    end).

End Callbacks.

(** * Vocabulary of the properties *)

(** ** Observations on a world *)

(** The usage record of a user, the subscription row with a given id, and
    the one with a given payment reference. *)
Definition lookup_usage (user_id : Z) (rows : list UserUsage) : option UserUsage :=
  find (fun r => usage_user_id r =? user_id) rows.

Definition row_of (subscription_id : Z) (rows : list UserSubscription)
  : option UserSubscription :=
  find (fun r => sub_id r =? subscription_id) rows.

Definition row_of_payment (payment_id : string) (rows : list UserSubscription)
  : option UserSubscription :=
  find (fun r => String.eqb (sub_payment_id r) payment_id) rows.

(** The calls made to the payment gateway, among the logged events. *)
Definition is_gateway_call (e : Event) : bool :=
  match e with
  | PaymentFindOne _ | PaymentCreate _ => true
  | _ => false
  end.

Definition gateway_calls (tr : list Event) : list Event :=
  filter is_gateway_call tr.

(** How many final-failure notifications were sent. *)
Definition is_failure_notice (e : Event) : bool :=
  match e with
  | BotSendMessage _ (RenewalFailed _) => true
  | _ => false
  end.

Definition failure_notices (tr : list Event) : nat :=
  List.length (filter is_failure_notice tr).

(** Schema constraints: primary keys, and the [unique=True] columns. *)
Definition wf_subscriptions (rows : list UserSubscription) : Prop :=
  NoDup (map sub_id rows) /\ NoDup (map sub_payment_id rows).

Definition wf_usages (rows : list UserUsage) : Prop :=
  NoDup (map usage_id rows) /\ NoDup (map usage_user_id rows).

(** The clock advanced by one reading. *)
Definition tick (w : World) : World :=
  {| subscriptions := subscriptions w; usages := usages w;
     ticks := S (ticks w); trace := trace w |}.

(** The world after one more external call has been logged. *)
Definition logged (w : World) (e : Event) : World :=
  {| subscriptions := subscriptions w; usages := usages w;
     ticks := ticks w; trace := trace w ++ [e] |}.

(** The row as [activate_subscription] leaves it, given its two clock
    readings. *)
Definition stamped (config : Config) (r : UserSubscription)
  (t_start t_end : datetime) : UserSubscription :=
  let end_date := Some (t_end + timedelta_days (SUBSCRIPTION_DAYS config)) in
  set_next_payment_date
    (set_end_date (set_start_date (set_status r "succeeded") (Some t_start))
       end_date)
    end_date.

(** A computation respects a relation when every run, returning or
    raising, takes a world to a related one. *)
Definition respects (R : World -> World -> Prop) {A} (m : M A) : Prop :=
  forall w, R w (snd (m w)).

(** One such relation: the usage table is the same. *)
Definition same_usages (w w' : World) : Prop := usages w' = usages w.

(** The parent payment has no stored payment method: either the lookup
    returned nothing, or the payment it returned has none. *)
Definition no_stored_method (found : Outcome (option PaymentObject)) : Prop :=
  found = Ok None
  \/ exists p, found = Ok (Some p) /\ po_payment_method p = None.

(** The messages sent to users, among the logged events. *)
Definition is_message (e : Event) : bool :=
  match e with
  | BotSendMessage _ _ => true
  | _ => false
  end.

Definition messages (tr : list Event) : list Event := filter is_message tr.

(** The world with its trace replaced. *)
Definition with_trace (w : World) (tr : list Event) : World :=
  {| subscriptions := subscriptions w; usages := usages w;
     ticks := ticks w; trace := tr |}.

(** ** Vocabulary of the further properties *)

(** [m] run [n] times in a row. *)
Fixpoint times {A} (n : nat) (m : M A) : M unit :=
  match n with
  | O => ret tt
  | S k => m ;; times k m
  end.

(** The counters on record for a user; zero when the user has no record. *)
Definition photos_of (user_id : Z) (w : World) : Z :=
  match lookup_usage user_id (usages w) with
  | Some u => photos_used u
  | None => 0
  end.

Definition questions_of (user_id : Z) (w : World) : Z :=
  match lookup_usage user_id (usages w) with
  | Some u => questions_used u
  | None => 0
  end.

(** A list in descending order of [key]. *)
Fixpoint sorted_desc {A} (key : A -> Z) (l : list A) : Prop :=
  match l with
  | [] => True
  | h :: t => (forall y, In y t -> key y <= key h) /\ sorted_desc key t
  end.

(** A string without the character [c]. *)
Fixpoint free_of (c : ascii) (s : string) : Prop :=
  match s with
  | EmptyString => True
  | String a rest => a <> c /\ free_of c rest
  end.

(** A computation keeps a property of the world when every run from a world
    that has it, returning or raising, ends in a world that has it. *)
Definition keeps (P : World -> Prop) {A} (m : M A) : Prop :=
  forall w, P w -> P (snd (m w)).

(** Primary keys of the subscription table are unique. *)
Definition unique_ids (w : World) : Prop := NoDup (map sub_id (subscriptions w)).

(** The request [create_payment] sends to the gateway. *)
Definition payment_request (amount : Z) (description return_url : string)
  (metadata : option Metadata) : PaymentData :=
  {| pd_amount := amount; pd_return_url := Some return_url;
     pd_payment_method_id := None; pd_save_payment_method := false;
     pd_description := description;
     pd_metadata := metadata_entry metadata |}.

(** The request [create_recurrent_payment] sends for a stored method. *)
Definition recurrent_request (amount : Z) (description method_id : string)
  (metadata : option Metadata) : PaymentData :=
  {| pd_amount := amount; pd_return_url := None;
     pd_payment_method_id := Some method_id;
     pd_save_payment_method := true;
     pd_description := description;
     pd_metadata := metadata_entry metadata |}.

(** What [create_payment] makes of the gateway's answer. *)
Definition payment_info_of (amount : Z) (answer : Outcome PaymentObject)
  : option PaymentInfo :=
  match answer with
  | Ok payment =>
      match po_confirmation_url payment with
      | Some url =>
          Some {| pi_id := po_id payment; pi_status := po_status payment;
                  pi_confirmation_url := Some url; pi_amount := amount |}
      | None => None
      end
  | Raise _ => None
  end.

(** The request [handle_subscribe] sends for a user. *)
Definition subscribe_request (config : Config) (u : User) (username : string)
  : PaymentData :=
  payment_request (SUBSCRIPTION_PRICE config) (subscription_description config)
    (String.append "https://t.me/" username)
    (Some [ ("user_id", MInt (user_id u));
            ("telegram_id", MInt (user_telegram_id u)) ]).

(** The world [process_renewal] is in once the attempt gate and the
    cooldown gate have let a row through: the cooldown check has read the
    clock once if a last attempt is on record. *)
Definition past_gates (utc_clock : nat -> datetime) (s : UserSubscription)
  (w w1 : World) : Prop :=
  sub_renewal_attempts s < 3
  /\ match sub_last_renewal_attempt s with
     | Some last =>
         timedelta_hours 6 <= utc_clock (ticks w) - last /\ w1 = tick w
     | None => w1 = w
     end.

(** The row as [update_renewal_attempt] leaves it. *)
Definition attempt_recorded (r : UserSubscription) (now : datetime)
  : UserSubscription :=
  set_last_renewal_attempt
    (set_renewal_attempts r (sub_renewal_attempts r + 1)) (Some now).

(** [r'] is [r] with, at most, another attempt counter and another last
    attempt. *)
Definition attempts_only (r r' : UserSubscription) : Prop :=
  set_last_renewal_attempt
    (set_renewal_attempts r (sub_renewal_attempts r'))
    (sub_last_renewal_attempt r') = r'.

(** What a scan of the renewal service may do to the world: rewrite
    attempt counters and last attempts, ask the bot its name, read the
    clock. *)
Definition attempts_and_names (w w' : World) : Prop :=
  Forall2 attempts_only (subscriptions w) (subscriptions w')
  /\ usages w' = usages w
  /\ exists n, trace w' = trace w ++ repeat BotGetMe n.

(** * Concrete worlds *)

Definition w_empty : World :=
  {| subscriptions := []; usages := []; ticks := 0; trace := [] |}.


(** A clock that advances ten minutes per reading. *)
Definition clock_10min (n : nat) : datetime := Z.of_nat n * 600000000.

Definition service_with_bot : RenewalService :=
  set_bot new_service {| bot_get_me := Ok "nutribot" |}.

(** A gateway on which the stored method is charged at once. *)
Definition gw_charges : Gateway :=
  {| gw_find_one := fun _ payment_id =>
       Ok (Some {| po_id := payment_id; po_status := "succeeded";
                   po_confirmation_url := None;
                   po_payment_method := Some "pm-1" |});
     gw_create := fun _ _ =>
       Ok {| po_id := "pay-2"; po_status := "succeeded";
             po_confirmation_url := None;
             po_payment_method := Some "pm-1" |} |}.

(** A gateway that knows the parent payment but holds no payment method
    for it; an ordinary payment can be created. *)
Definition gw_no_method : Gateway :=
  {| gw_find_one := fun _ payment_id =>
       Ok (Some {| po_id := payment_id; po_status := "succeeded";
                   po_confirmation_url := None;
                   po_payment_method := None |});
     gw_create := fun _ _ =>
       Ok {| po_id := "pay-3"; po_status := "pending";
             po_confirmation_url := Some "https://pay.example/3";
             po_payment_method := None |} |}.

(** A gateway whose lookup raises; an ordinary payment can be created. *)
Definition gw_lookup_raises : Gateway :=
  {| gw_find_one := fun _ _ => Raise GatewayError;
     gw_create := gw_create gw_no_method |}.

(** *** A pending payment, confirmed twice *)

Definition pending_row : UserSubscription :=
  {| sub_id := 1; sub_user_id := 1; sub_payment_id := "pay-1";
     sub_amount := 39900; sub_currency := "RUB"; sub_status := "pending";
     sub_start_date := None; sub_end_date := None; sub_created_at := 0;
     sub_is_auto_renewal := true; sub_parent_payment_id := None;
     sub_next_payment_date := None; sub_renewal_attempts := 0;
     sub_last_renewal_attempt := None |}.

(** The world after [create_subscription] for user 1. *)
Definition w_pending : World :=
  snd (create_subscription clock_10min 1 "pay-1" 39900 w_empty).

(** *** An abandoned payment *)

(** The user backs out of the pending payment ([handle_cancel_payment]). *)
Definition w_canceled : World := snd (handle_cancel_payment "pay-1" w_pending).

Definition canceled_row : UserSubscription := set_status pending_row "canceled".

(** *** One user, from the free tier to the scan before the end date *)






(** *** A subscription that cannot be renewed *)

(** The scheduler's clock: the first scan is made twenty-nine days and four
    hours after the epoch (readings 0 to 3), the second an hour later
    (readings 4 and 5), the third another hour later. *)
Definition first_scan_time : datetime := timedelta_days 29 + timedelta_hours 4.

Definition scan_clock (n : nat) : datetime :=
  first_scan_time
  + (if (n <? 4)%nat then 0
     else if (n <? 6)%nat then timedelta_hours 1
     else timedelta_hours 2)
  + Z.of_nat n.

(** A paid subscription that ends in twenty hours. *)
Definition expiring_row (attempts : Z) (last : option datetime)
  : UserSubscription :=
  {| sub_id := 1; sub_user_id := 1; sub_payment_id := "pay-1";
     sub_amount := 39900; sub_currency := "RUB"; sub_status := "succeeded";
     sub_start_date := Some 0; sub_end_date := Some (timedelta_days 30);
     sub_created_at := 0; sub_is_auto_renewal := true;
     sub_parent_payment_id := None;
     sub_next_payment_date := Some (timedelta_days 30);
     sub_renewal_attempts := attempts; sub_last_renewal_attempt := last |}.

Definition w_with (row : UserSubscription) : World :=
  {| subscriptions := [row]; usages := []; ticks := 0; trace := [] |}.




(** *** The cooldown gate at two and at seven hours *)

Definition attempted_hours_ago (h : Z) : UserSubscription :=
  expiring_row 1 (Some (first_scan_time - timedelta_hours h)).

(** *** A scan among rows of every kind *)

Definition row_with (row_id : Z) (payment_id status : string)
  (end_date : datetime) (auto : bool) : UserSubscription :=
  {| sub_id := row_id; sub_user_id := row_id; sub_payment_id := payment_id;
     sub_amount := 39900; sub_currency := "RUB"; sub_status := status;
     sub_start_date := Some 0; sub_end_date := Some end_date;
     sub_created_at := 0; sub_is_auto_renewal := auto;
     sub_parent_payment_id := None; sub_next_payment_date := Some end_date;
     sub_renewal_attempts := 0; sub_last_renewal_attempt := None |}.

Definition row_due : UserSubscription :=
  row_with 1 "pay-1" "succeeded" (timedelta_days 30) true.
Definition row_canceled : UserSubscription :=
  row_with 2 "pay-2" "canceled" (timedelta_days 30) true.
Definition row_expired : UserSubscription :=
  row_with 3 "pay-3" "succeeded" (timedelta_days 29) true.
Definition row_later : UserSubscription :=
  row_with 4 "pay-4" "succeeded" (timedelta_days 40) true.
Definition row_manual : UserSubscription :=
  row_with 5 "pay-5" "succeeded" (timedelta_days 30) false.

Definition w_mixed : World :=
  {| subscriptions := [row_due; row_canceled; row_expired; row_later; row_manual];
     usages := []; ticks := 0; trace := [] |}.


(** *** Counting one photo and one question *)

Definition usage_row : UserUsage :=
  {| usage_id := 1; usage_user_id := 7; photos_used := 3;
     questions_used := 4; last_reset := 100 |}.

Definition w_usage : World :=
  {| subscriptions := []; usages := [usage_row]; ticks := 0; trace := [] |}.

(** *** A paid month in progress *)

(** User 1 with a paid row that ends in twenty hours, seen by the
    scheduler's clock. *)
Definition active_row : UserSubscription := expiring_row 0 None.

Definition w_active : World := w_with active_row.

(** The users table: user 1 writes from chat 1001. *)
Definition registered_users : list User :=
  [{| user_id := 1; user_telegram_id := 1001 |}].

Definition nutribot : Bot := {| bot_get_me := Ok "nutribot" |}.

(** *** Two invoices, both paid *)

(** A shop that numbers its invoices (the first one ["pay-1"], the next
    ["pay-2"]) and reports every invoice as paid. *)
Definition gw_two_invoices : Gateway :=
  {| gw_find_one := fun _ payment_id =>
       Ok (Some {| po_id := payment_id; po_status := "succeeded";
                   po_confirmation_url := None;
                   po_payment_method := Some "pm-1" |});
     gw_create := fun history _ =>
       Ok {| po_id := if (List.length (gateway_calls history) <=? 1)%nat
                      then "pay-1" else "pay-2";
             po_status := "pending";
             po_confirmation_url := Some "https://pay.example/invoice";
             po_payment_method := None |} |}.

(** User 1 presses "Subscribe" twice, pays both invoices and presses
    "I paid" under each. *)
Definition w_paid_twice : World :=
  snd ((handle_subscribe default_config clock_10min gw_two_invoices
          registered_users nutribot 1001 ;;
        handle_subscribe default_config clock_10min gw_two_invoices
          registered_users nutribot 1001 ;;
        handle_check_payment default_config clock_10min gw_two_invoices
          "pay-1" ;;
        handle_check_payment default_config clock_10min gw_two_invoices
          "pay-2") w_empty).

(** * Properties *)

(** ** Lists keyed by a unique column *)

Section UniqueKey.

Context {A K : Type}.
Variable key : A -> K.
Variable eqb : K -> K -> bool.
Hypothesis eqb_spec : forall a b, eqb a b = true <-> a = b.

Lemma filter_key_absent (k : K) (rows : list A) :
  ~ In k (map key rows) ->
  filter (fun r => eqb (key r) k) rows = [].
Proof.
  induction rows as [|x rows IH]; simpl; intros Hn; [reflexivity|].
  destruct (eqb (key x) k) eqn:E.
  - apply eqb_spec in E. exfalso. apply Hn. now left.
  - apply IH. intros Hin. apply Hn. now right.
Qed.

Lemma filter_key_unique (r : A) (rows : list A) :
  NoDup (map key rows) -> In r rows ->
  filter (fun x => eqb (key x) (key r)) rows = [r].
Proof.
  induction rows as [|x rows IH]; simpl; intros Hnd Hin; [contradiction|].
  inversion Hnd as [|? ? Hx Hrest]; subst.
  destruct Hin as [-> | Hin].
  - assert (E : eqb (key r) (key r) = true) by now apply eqb_spec.
    rewrite E. f_equal. now apply filter_key_absent.
  - destruct (eqb (key x) (key r)) eqn:E.
    + apply eqb_spec in E. exfalso. apply Hx. rewrite E. now apply in_map.
    + now apply IH.
Qed.

Lemma find_key_unique (r : A) (rows : list A) :
  NoDup (map key rows) -> In r rows ->
  find (fun x => eqb (key x) (key r)) rows = Some r.
Proof.
  induction rows as [|x rows IH]; simpl; intros Hnd Hin; [contradiction|].
  inversion Hnd as [|? ? Hx Hrest]; subst.
  destruct Hin as [-> | Hin].
  - assert (E : eqb (key r) (key r) = true) by now apply eqb_spec.
    now rewrite E.
  - destruct (eqb (key x) (key r)) eqn:E.
    + apply eqb_spec in E. exfalso. apply Hx. rewrite E. now apply in_map.
    + now apply IH.
Qed.

Lemma key_present_or_absent (k : K) (rows : list A) :
  (exists r, In r rows /\ key r = k) \/ ~ In k (map key rows).
Proof.
  induction rows as [|x rows IH]; simpl.
  - right. tauto.
  - destruct (eqb (key x) k) eqn:E.
    + apply eqb_spec in E. left. exists x. auto.
    + destruct IH as [[r [Hin Hk]] | Hn].
      * left. exists r. auto.
      * right. intros [H | H]; [|contradiction].
        apply eqb_spec in H. congruence.
Qed.

Lemma filter_key_cases (k : K) (rows : list A) :
  NoDup (map key rows) ->
  filter (fun x => eqb (key x) k) rows = [] /\ ~ In k (map key rows)
  \/ exists r, In r rows /\ key r = k
               /\ filter (fun x => eqb (key x) k) rows = [r].
Proof.
  intros Hnd.
  destruct (key_present_or_absent k rows) as [[r [Hin Hk]] | Hn].
  - right. exists r. repeat split; auto. subst k. now apply filter_key_unique.
  - left. split; auto. now apply filter_key_absent.
Qed.

Lemma key_injective_on (a b : A) (rows : list A) :
  NoDup (map key rows) -> In a rows -> In b rows -> key a = key b -> a = b.
Proof.
  induction rows as [|x rows IH]; simpl; intros Hnd Ha Hb E; [contradiction|].
  inversion Hnd as [|? ? Hx Hrest]; subst.
  destruct Ha as [-> | Ha], Hb as [-> | Hb]; auto.
  - exfalso. apply Hx. rewrite E. now apply in_map.
  - exfalso. apply Hx. rewrite <- E. now apply in_map.
Qed.

End UniqueKey.

Lemma string_eqb_spec (a b : string) : String.eqb a b = true <-> a = b.
Proof. apply String.eqb_eq. Qed.

Lemma z_eqb_spec (a b : Z) : (a =? b) = true <-> a = b.
Proof. apply Z.eqb_eq. Qed.

(** ** Sorting does not change how many rows a query returns *)

Lemma length_insert_desc {A} (key : A -> Z) (x : A) (l : list A) :
  List.length (insert_desc key x l) = S (List.length l).
Proof.
  induction l as [|y l IH]; simpl; [reflexivity|].
  destruct (key y <? key x); simpl; [reflexivity|]. now rewrite IH.
Qed.

Lemma length_order_by_desc {A} (key : A -> Z) (l : list A) :
  List.length (order_by_desc key l) = List.length l.
Proof.
  induction l as [|x l IH]; simpl; [reflexivity|].
  unfold order_by_desc in *. simpl. now rewrite length_insert_desc, IH.
Qed.

Lemma scalar_one_or_none_sorted {A} (key : A -> Z) (l : list A) :
  scalar_one_or_none (order_by_desc key l) = scalar_one_or_none l.
Proof.
  destruct l as [|x [|y rest]]; try reflexivity.
  pose proof (length_order_by_desc key (x :: y :: rest)) as L.
  destruct (order_by_desc key (x :: y :: rest)) as [|a [|b r]];
    simpl in L; try discriminate; reflexivity.
Qed.

(** ** Rewriting one row *)

Lemma map_sub_id_replace (s : UserSubscription) (rows : list UserSubscription) :
  map sub_id (replace_subscription s rows) = map sub_id rows.
Proof.
  induction rows as [|x rows IH]; simpl; [reflexivity|].
  rewrite IH. destruct (sub_id x =? sub_id s) eqn:E; [|reflexivity].
  apply Z.eqb_eq in E. now rewrite E.
Qed.

Lemma row_of_replace_same (s r : UserSubscription) (rows : list UserSubscription) :
  In r rows -> sub_id s = sub_id r ->
  row_of (sub_id r) (replace_subscription s rows) = Some s.
Proof.
  unfold row_of. intros Hin Hid. rewrite <- Hid.
  induction rows as [|x rows IH]; simpl; [contradiction|].
  destruct (sub_id x =? sub_id s) eqn:E; simpl.
  - rewrite Z.eqb_refl. reflexivity.
  - rewrite E. apply IH. destruct Hin as [-> | Hin]; [|assumption].
    rewrite Hid, Z.eqb_refl in E. discriminate.
Qed.

Lemma row_of_replace_other (s : UserSubscription) (k : Z)
  (rows : list UserSubscription) :
  k <> sub_id s ->
  row_of k (replace_subscription s rows) = row_of k rows.
Proof.
  unfold row_of. intros Hk.
  induction rows as [|x rows IH]; simpl; [reflexivity|].
  destruct (sub_id x =? sub_id s) eqn:E; simpl.
  - apply Z.eqb_eq in E.
    destruct (sub_id s =? k) eqn:E1; [apply Z.eqb_eq in E1; congruence|].
    destruct (sub_id x =? k) eqn:E2; [apply Z.eqb_eq in E2; congruence|].
    exact IH.
  - destruct (sub_id x =? k); [reflexivity | exact IH].
Qed.

Lemma In_replace_other (s x : UserSubscription) (rows : list UserSubscription) :
  In x rows -> sub_id x <> sub_id s -> In x (replace_subscription s rows).
Proof.
  intros Hin Hne. unfold replace_subscription.
  apply in_map_iff. exists x. split; [|assumption].
  destruct (sub_id x =? sub_id s) eqn:E; [|reflexivity].
  apply Z.eqb_eq in E. contradiction.
Qed.

Lemma row_of_In (r : UserSubscription) (rows : list UserSubscription) :
  NoDup (map sub_id rows) -> In r rows -> row_of (sub_id r) rows = Some r.
Proof. intros. unfold row_of. now apply (find_key_unique sub_id Z.eqb z_eqb_spec). Qed.

Lemma lookup_replace_usage (u u' : UserUsage) (rows : list UserUsage) :
  wf_usages rows -> In u rows ->
  usage_id u' = usage_id u -> usage_user_id u' = usage_user_id u ->
  lookup_usage (usage_user_id u) (replace_usage u' rows) = Some u'.
Proof.
  unfold lookup_usage, wf_usages. intros [Hid Huser] Hin Eid Euser.
  induction rows as [|x rows IH]; simpl; [contradiction|].
  simpl in Hid, Huser.
  inversion Hid as [|? ? Hx1 Hr1]; inversion Huser as [|? ? Hx2 Hr2]; subst.
  destruct Hin as [-> | Hin].
  - rewrite Eid, Z.eqb_refl. simpl. now rewrite Euser, Z.eqb_refl.
  - destruct (usage_id x =? usage_id u') eqn:E.
    + apply Z.eqb_eq in E. exfalso. apply Hx1. rewrite E, Eid.
      now apply in_map.
    + simpl. destruct (usage_user_id x =? usage_user_id u) eqn:E2.
      * apply Z.eqb_eq in E2. exfalso. apply Hx2. rewrite E2.
        now apply in_map.
      * now apply IH.
Qed.

Lemma replace_usage_absent (u : UserUsage) (rows : list UserUsage) :
  ~ In (usage_id u) (map usage_id rows) -> replace_usage u rows = rows.
Proof.
  induction rows as [|x rows IH]; simpl; intros Hn; [reflexivity|].
  destruct (usage_id x =? usage_id u) eqn:E.
  - apply Z.eqb_eq in E. exfalso. apply Hn. now left.
  - f_equal. apply IH. intros H. apply Hn. now right.
Qed.

Lemma lookup_replace_usage_other (u u' : UserUsage) (other : Z)
  (rows : list UserUsage) :
  wf_usages rows -> In u rows ->
  usage_id u' = usage_id u -> usage_user_id u' = usage_user_id u ->
  other <> usage_user_id u ->
  lookup_usage other (replace_usage u' rows) = lookup_usage other rows.
Proof.
  unfold lookup_usage, wf_usages. intros [Hid Huser] Hin Eid Euser Hne.
  induction rows as [|x rows IH]; simpl; [reflexivity|].
  simpl in Hid, Huser.
  inversion Hid as [|? ? Hx1 Hr1]; inversion Huser as [|? ? Hx2 Hr2]; subst.
  destruct Hin as [-> | Hin].
  - rewrite Eid, Z.eqb_refl. simpl. rewrite Euser.
    destruct (usage_user_id u =? other) eqn:E1;
      [apply Z.eqb_eq in E1; congruence|].
    rewrite replace_usage_absent; [reflexivity|]. now rewrite Eid.
  - destruct (usage_id x =? usage_id u') eqn:E.
    + apply Z.eqb_eq in E. exfalso. apply Hx1. rewrite E, Eid.
      now apply in_map.
    + simpl. destruct (usage_user_id x =? other); [reflexivity|].
      now apply IH.
Qed.

Lemma map_usage_id_replace (u : UserUsage) (rows : list UserUsage) :
  map usage_id (replace_usage u rows) = map usage_id rows.
Proof.
  induction rows as [|x rows IH]; simpl; [reflexivity|].
  rewrite IH. destruct (usage_id x =? usage_id u) eqn:E; [|reflexivity].
  apply Z.eqb_eq in E. now rewrite E.
Qed.

(** ** Fresh primary keys *)

Lemma next_id_above (ids : list Z) (k : Z) : In k ids -> k < next_id ids.
Proof.
  unfold next_id. induction ids as [|x ids IH]; [contradiction|].
  change (fold_right Z.max 0 (x :: ids)) with (Z.max x (fold_right Z.max 0 ids)).
  intros [-> | Hin]; [lia|]. specialize (IH Hin). lia.
Qed.

Lemma next_id_fresh (ids : list Z) : ~ In (next_id ids) ids.
Proof. intros H. apply next_id_above in H. lia. Qed.

Lemma find_snoc {A} (f : A -> bool) (l : list A) (x : A) :
  find f (l ++ [x])
  = match find f l with
    | Some y => Some y
    | None => if f x then Some x else None
    end.
Proof.
  induction l as [|y l IH]; simpl; [reflexivity|].
  destruct (f y); [reflexivity | exact IH].
Qed.

Lemma NoDup_snoc {K} (l : list K) (k : K) :
  NoDup l -> ~ In k l -> NoDup (l ++ [k]).
Proof.
  intros Hnd Hn. apply NoDup_app; [assumption | repeat constructor; auto |].
  intros a Ha [<- | []]. contradiction.
Qed.

(** ** Usage Ledger *)

Section UsageLedger.

Variable utc_clock : nat -> datetime.

(** [get_or_create_usage] returns the user's row, creating it with zero
    counters when the user has none; the table stays well formed. *)
Lemma get_or_create_usage_spec (user_id : Z) (w : World) :
  wf_usages (usages w) ->
  exists u w1,
    get_or_create_usage utc_clock user_id w = (Ok u, w1)
    /\ wf_usages (usages w1)
    /\ In u (usages w1)
    /\ usage_user_id u = user_id
    /\ subscriptions w1 = subscriptions w
    /\ trace w1 = trace w
    /\ (forall x, In x (usages w) -> usage_user_id x = user_id ->
                  x = u /\ w1 = w)
    /\ ((forall x, In x (usages w) -> usage_user_id x <> user_id) ->
        photos_used u = 0 /\ questions_used u = 0
        /\ usages w1 = usages w ++ [u]).
Proof.
  intros [Hid Huser].
  unfold get_or_create_usage, bind, gets.
  destruct (filter_key_cases usage_user_id Z.eqb z_eqb_spec user_id (usages w) Huser)
    as [[E Hn] | [u [Hin [Hu E]]]]; rewrite E; simpl.
  - eexists; eexists. split; [reflexivity|]. simpl.
    assert (Hfresh : forall x, In x (usages w) -> usage_user_id x <> user_id).
    { intros x Hx Ex. apply Hn. rewrite <- Ex. now apply in_map. }
    split.
    { split; rewrite map_app; simpl; apply NoDup_snoc; auto.
      apply next_id_fresh. }
    split; [apply in_or_app; right; now left|].
    do 3 (split; [reflexivity|]).
    split; [intros x Hx Ex; exfalso; now apply (Hfresh x)|].
    intros _. auto.
  - exists u, w. unfold ret. split; [reflexivity|].
    split; [now split|].
    do 2 (split; [assumption|]).
    do 2 (split; [reflexivity|]).
    split.
    + intros x Hx Ex. split; [|reflexivity].
      apply (key_injective_on usage_user_id) with (rows := usages w); auto.
      congruence.
    + intros Hnone. exfalso. now apply (Hnone u).
Qed.

Lemma increment_photos_spec (user_id : Z) (w : World) :
  wf_usages (usages w) ->
  exists u w1,
    get_or_create_usage utc_clock user_id w = (Ok u, w1)
    /\ increment_photos utc_clock user_id w
       = (Ok (set_photos_used u (photos_used u + 1)),
          set_usages w1
            (replace_usage (set_photos_used u (photos_used u + 1)) (usages w1)))
    /\ wf_usages (usages w1) /\ In u (usages w1) /\ usage_user_id u = user_id.
Proof.
  intros Hwf.
  destruct (get_or_create_usage_spec user_id w Hwf)
    as (u & w1 & Hrun & Hwf1 & Hin & Hu & _).
  exists u, w1. unfold increment_photos, bind. rewrite Hrun. simpl.
  repeat split; auto; apply Hwf1.
Qed.

Lemma increment_questions_spec (user_id : Z) (w : World) :
  wf_usages (usages w) ->
  exists u w1,
    get_or_create_usage utc_clock user_id w = (Ok u, w1)
    /\ increment_questions utc_clock user_id w
       = (Ok (set_questions_used u (questions_used u + 1)),
          set_usages w1
            (replace_usage (set_questions_used u (questions_used u + 1))
               (usages w1)))
    /\ wf_usages (usages w1) /\ In u (usages w1) /\ usage_user_id u = user_id.
Proof.
  intros Hwf.
  destruct (get_or_create_usage_spec user_id w Hwf)
    as (u & w1 & Hrun & Hwf1 & Hin & Hu & _).
  exists u, w1. unfold increment_questions, bind. rewrite Hrun. simpl.
  repeat split; auto; apply Hwf1.
Qed.

(** C10.  On a well-formed usage table, [increment_photos] returns and
    stores the user's record (as [get_or_create_usage] yields it) with
    [photos_used] one higher and [questions_used], [last_reset] unchanged;
    [increment_questions] does the same with the two counters exchanged.
    Records of other users are not touched. *)
Theorem increment_counters_frame (user_id : Z) (w : World) :
  wf_usages (usages w) ->
  exists before w1,
    get_or_create_usage utc_clock user_id w = (Ok before, w1)
    /\ (forall x, In x (usages w) -> usage_user_id x = user_id -> x = before)
    /\ (exists after w',
          increment_photos utc_clock user_id w = (Ok after, w')
          /\ lookup_usage user_id (usages w') = Some after
          /\ photos_used after = photos_used before + 1
          /\ questions_used after = questions_used before
          /\ last_reset after = last_reset before
          /\ (forall other, other <> user_id ->
                lookup_usage other (usages w') = lookup_usage other (usages w)))
    /\ (exists after w',
          increment_questions utc_clock user_id w = (Ok after, w')
          /\ lookup_usage user_id (usages w') = Some after
          /\ questions_used after = questions_used before + 1
          /\ photos_used after = photos_used before
          /\ last_reset after = last_reset before
          /\ (forall other, other <> user_id ->
                lookup_usage other (usages w') = lookup_usage other (usages w))).
Proof.
  intros Hwf.
  destruct (get_or_create_usage_spec user_id w Hwf)
    as (u & w1 & Hrun & Hwf1 & Hin & Hu & _ & _ & Hold & Hnew).
  assert (Hother : forall other, other <> user_id ->
            lookup_usage other (usages w1) = lookup_usage other (usages w)).
  { intros other Hne.
    destruct (key_present_or_absent usage_user_id Z.eqb z_eqb_spec user_id (usages w))
      as [[x [Hx Ex]] | Hn].
    - destruct (Hold x Hx Ex) as [_ ->]. reflexivity.
    - destruct Hnew as (_ & _ & ->).
      { intros x Hx Ex. apply Hn. rewrite <- Ex. now apply in_map. }
      unfold lookup_usage. rewrite find_snoc.
      destruct (find _ (usages w)); [reflexivity|].
      destruct (usage_user_id u =? other) eqn:E; [|reflexivity].
      apply Z.eqb_eq in E. congruence. }
  exists u, w1. split; [exact Hrun|]. split.
  { intros x Hx Ex. now destruct (Hold x Hx Ex). }
  split.
  - destruct (increment_photos_spec user_id w Hwf)
      as (u' & w1' & Hrun' & Hinc & _).
    rewrite Hrun in Hrun'. inversion Hrun'; subst u' w1'. clear Hrun'.
    eexists; eexists. split; [exact Hinc|]. simpl.
    repeat split.
    + rewrite <- Hu. now apply lookup_replace_usage.
    + intros other Hne. rewrite <- Hother by assumption.
      apply lookup_replace_usage_other with (u := u); auto. congruence.
  - destruct (increment_questions_spec user_id w Hwf)
      as (u' & w1' & Hrun' & Hinc & _).
    rewrite Hrun in Hrun'. inversion Hrun'; subst u' w1'. clear Hrun'.
    eexists; eexists. split; [exact Hinc|]. simpl.
    repeat split.
    + rewrite <- Hu. now apply lookup_replace_usage.
    + intros other Hne. rewrite <- Hother by assumption.
      apply lookup_replace_usage_other with (u := u); auto. congruence.
Qed.

End UsageLedger.

(** ** Subscription Store *)

Lemma map_replace_subscription {B} (f : UserSubscription -> B)
  (s : UserSubscription) (rows : list UserSubscription) :
  (forall x, In x rows -> sub_id x = sub_id s -> f x = f s) ->
  map f (replace_subscription s rows) = map f rows.
Proof.
  induction rows as [|x rows IH]; simpl; intros H; [reflexivity|].
  rewrite IH by (intros; apply H; auto).
  destruct (sub_id x =? sub_id s) eqn:E; [|reflexivity].
  apply Z.eqb_eq in E. f_equal. symmetry. apply H; auto.
Qed.

Lemma In_replace_same (s r : UserSubscription) (rows : list UserSubscription) :
  In r rows -> sub_id s = sub_id r -> In s (replace_subscription s rows).
Proof.
  intros Hin Hid. unfold replace_subscription. apply in_map_iff.
  exists r. split; [|assumption]. now rewrite Hid, Z.eqb_refl.
Qed.

(** Rewriting a row without touching its keys keeps the table well formed. *)
Lemma wf_replace_subscription (s r : UserSubscription)
  (rows : list UserSubscription) :
  wf_subscriptions rows -> In r rows ->
  sub_id s = sub_id r -> sub_payment_id s = sub_payment_id r ->
  wf_subscriptions (replace_subscription s rows).
Proof.
  intros [Hid Hpay] Hin Eid Epay. split.
  - now rewrite map_sub_id_replace.
  - rewrite map_replace_subscription; [assumption|].
    intros x Hx Ex. rewrite Epay. f_equal.
    apply (key_injective_on sub_id) with (rows := rows); auto. congruence.
Qed.

Lemma distinct_rows_distinct_ids (a b : UserSubscription)
  (rows : list UserSubscription) :
  NoDup (map sub_id rows) -> In a rows -> In b rows -> a <> b ->
  sub_id a <> sub_id b.
Proof.
  intros Hnd Ha Hb Hne E. apply Hne.
  now apply (key_injective_on sub_id) with (rows := rows).
Qed.

Section SubscriptionStore.

Variable config : Config.
Variable utc_clock : nat -> datetime.

Lemma select_by_payment_id_found (r : UserSubscription) (w : World) :
  wf_subscriptions (subscriptions w) -> In r (subscriptions w) ->
  select_by_payment_id (sub_payment_id r) w = (Ok (Some r), w).
Proof.
  intros [_ Hpay] Hin. unfold select_by_payment_id, bind, gets.
  now rewrite (filter_key_unique sub_payment_id String.eqb string_eqb_spec).
Qed.

Lemma select_by_payment_id_cases (payment_id : string) (w : World) :
  wf_subscriptions (subscriptions w) ->
  select_by_payment_id payment_id w = (Ok None, w)
  \/ exists r, In r (subscriptions w) /\ sub_payment_id r = payment_id
               /\ select_by_payment_id payment_id w = (Ok (Some r), w).
Proof.
  intros [_ Hpay]. unfold select_by_payment_id, bind, gets.
  destruct (filter_key_cases sub_payment_id String.eqb string_eqb_spec
              payment_id (subscriptions w) Hpay)
    as [[E _] | [r [Hin [Hr E]]]]; rewrite E.
  - now left.
  - right. now exists r.
Qed.

Lemma select_by_id_cases (subscription_id : Z) (w : World) :
  wf_subscriptions (subscriptions w) ->
  select_by_id subscription_id w = (Ok None, w)
  \/ exists r, In r (subscriptions w) /\ sub_id r = subscription_id
               /\ select_by_id subscription_id w = (Ok (Some r), w).
Proof.
  intros [Hid _]. unfold select_by_id, bind, gets.
  destruct (filter_key_cases sub_id Z.eqb z_eqb_spec
              subscription_id (subscriptions w) Hid)
    as [[E _] | [r [Hin [Hr E]]]]; rewrite E.
  - now left.
  - right. now exists r.
Qed.

(** [activate_subscription] looks at nothing but the payment reference: the
    row found is stamped whatever its status. *)
Lemma activate_subscription_found (r : UserSubscription) (w : World) :
  wf_subscriptions (subscriptions w) -> In r (subscriptions w) ->
  activate_subscription config utc_clock (sub_payment_id r) w
  = (let r' := stamped config r (utc_clock (ticks w)) (utc_clock (S (ticks w))) in
     (Ok (Some r'),
      {| subscriptions := replace_subscription r' (subscriptions w);
         usages := usages w; ticks := S (S (ticks w)); trace := trace w |})).
Proof.
  intros Hwf Hin. unfold activate_subscription, bind.
  rewrite select_by_payment_id_found by assumption. reflexivity.
Qed.

Lemma activate_subscription_missing (payment_id : string) (w : World) :
  select_by_payment_id payment_id w = (Ok None, w) ->
  activate_subscription config utc_clock payment_id w = (Ok None, w).
Proof. intros H. unfold activate_subscription, bind. now rewrite H. Qed.

Lemma get_active_subscription_unfold (user_id : Z) (w : World) :
  get_active_subscription utc_clock user_id w
  = scalar_one_or_none
      (filter (is_active user_id (utc_clock (ticks w))) (subscriptions w))
      (tick w).
Proof.
  unfold get_active_subscription, bind, utcnow, gets. simpl.
  now rewrite scalar_one_or_none_sorted.
Qed.

Lemma is_active_true (user_id : Z) (now : datetime) (r : UserSubscription) :
  is_active user_id now r = true <->
  sub_user_id r = user_id /\ sub_status r = "succeeded"
  /\ exists e, sub_end_date r = Some e /\ now < e.
Proof.
  unfold is_active, date_gt.
  rewrite !andb_true_iff, Z.eqb_eq, String.eqb_eq.
  destruct (sub_end_date r) as [e|].
  - rewrite Z.ltb_lt. split.
    + intros [[? ?] ?]. repeat split; auto. now exists e.
    + intros (? & ? & e' & He & ?). inversion He; subst. auto.
  - split.
    + intros [_ H]. discriminate.
    + intros (_ & _ & e & He & _). discriminate.
Qed.


(** The scan, with its two clock readings kept apart: the upper bound uses
    the first, the lower bound the second. *)
Lemma get_expiring_subscriptions_window (days_before : Z) (w : World) :
  get_expiring_subscriptions utc_clock days_before w
  = (Ok (filter (is_expiring
                   (utc_clock (ticks w) + timedelta_days days_before)
                   (utc_clock (S (ticks w))))
           (subscriptions w)),
     tick (tick w)).
Proof. reflexivity. Qed.


End SubscriptionStore.

Section Activation.

Variable config : Config.
Variable utc_clock : nat -> datetime.

Lemma row_of_payment_In (r : UserSubscription) (rows : list UserSubscription) :
  NoDup (map sub_payment_id rows) -> In r rows ->
  row_of_payment (sub_payment_id r) rows = Some r.
Proof.
  intros. unfold row_of_payment.
  now apply (find_key_unique sub_payment_id String.eqb string_eqb_spec).
Qed.

Lemma activate_subscription_keeps_wf (r : UserSubscription) (w : World)
  (t1 t2 : datetime) :
  wf_subscriptions (subscriptions w) -> In r (subscriptions w) ->
  wf_subscriptions
    (replace_subscription (stamped config r t1 t2) (subscriptions w))
  /\ In (stamped config r t1 t2)
        (replace_subscription (stamped config r t1 t2) (subscriptions w)).
Proof.
  intros Hwf Hin. split.
  - now apply wf_replace_subscription with (r := r).
  - now apply In_replace_same with (r := r).
Qed.

(** C1 (as the code has it).  [activate_subscription] does not look at the
    current status.  For a stored payment reference, whatever the row's
    status, the first call stamps [end_date] from the clock at that call,
    and a second call with the same reference stamps it again from the
    clock at the second call: after two calls the row has
    [start_date] = third reading and [end_date] = fourth reading + duration,
    and this is the [end_date] of a single call exactly when the two
    readings used for [end_date] are equal. *)
Theorem activate_twice_restamps_end_date (payment_id : string)
  (r : UserSubscription) (w : World) :
  wf_subscriptions (subscriptions w) ->
  In r (subscriptions w) ->
  sub_payment_id r = payment_id ->
  let duration := timedelta_days (SUBSCRIPTION_DAYS config) in
  let t := ticks w in
  exists once w1 twice w2,
    activate_subscription config utc_clock payment_id w = (Ok (Some once), w1)
    /\ activate_subscription config utc_clock payment_id w1
       = (Ok (Some twice), w2)
    /\ row_of_payment payment_id (subscriptions w1) = Some once
    /\ row_of_payment payment_id (subscriptions w2) = Some twice
    /\ sub_status once = "succeeded"
    /\ sub_status twice = "succeeded"
    /\ sub_end_date once = Some (utc_clock (S t) + duration)
    /\ sub_start_date twice = Some (utc_clock (S (S t)))
    /\ sub_end_date twice = Some (utc_clock (S (S (S t))) + duration)
    /\ (sub_end_date twice = sub_end_date once
        <-> utc_clock (S (S (S t))) = utc_clock (S t)).
Proof.
  intros Hwf Hin <-. cbv zeta.
  set (r1 := stamped config r (utc_clock (ticks w)) (utc_clock (S (ticks w)))).
  set (w1 := {| subscriptions := replace_subscription r1 (subscriptions w);
                usages := usages w; ticks := S (S (ticks w));
                trace := trace w |}).
  destruct (activate_subscription_keeps_wf r w (utc_clock (ticks w))
              (utc_clock (S (ticks w))) Hwf Hin) as [Hwf1 Hin1].
  fold r1 in Hwf1, Hin1.
  set (r2 := stamped config r1 (utc_clock (ticks w1)) (utc_clock (S (ticks w1)))).
  destruct (activate_subscription_keeps_wf r1 w1 (utc_clock (ticks w1))
              (utc_clock (S (ticks w1))) Hwf1 Hin1) as [Hwf2 Hin2].
  fold r2 in Hwf2, Hin2.
  exists r1, w1, r2.
  exists {| subscriptions := replace_subscription r2 (subscriptions w1);
            usages := usages w1; ticks := S (S (ticks w1));
            trace := trace w1 |}.
  split; [exact (activate_subscription_found config utc_clock r w Hwf Hin)|].
  split; [exact (activate_subscription_found config utc_clock r1 w1 Hwf1 Hin1)|].
  split; [exact (row_of_payment_In r1 _ (proj2 Hwf1) Hin1)|].
  split; [exact (row_of_payment_In r2 _ (proj2 Hwf2) Hin2)|].
  do 5 (split; [reflexivity|]).
  simpl. split.
  - intros H. inversion H. lia.
  - intros ->. reflexivity.
Qed.

End Activation.

Section CanceledRows.

Variable config : Config.
Variable utc_clock : nat -> datetime.

Lemma select_by_id_found (r : UserSubscription) (w : World) :
  wf_subscriptions (subscriptions w) -> In r (subscriptions w) ->
  select_by_id (sub_id r) w = (Ok (Some r), w).
Proof.
  intros [Hid _] Hin. unfold select_by_id, bind, gets.
  now rewrite (filter_key_unique sub_id Z.eqb z_eqb_spec).
Qed.

(** [toggle_auto_renewal] writes at most to a row with status succeeded. *)
Lemma toggle_auto_renewal_keeps_row (user_id : Z) (enable : bool)
  (r : UserSubscription) (w : World) :
  wf_subscriptions (subscriptions w) -> In r (subscriptions w) ->
  sub_status r <> "succeeded" ->
  row_of (sub_id r)
    (subscriptions (snd (toggle_auto_renewal utc_clock user_id enable w)))
  = Some r.
Proof.
  intros Hwf Hin Hst. unfold toggle_auto_renewal, bind.
  rewrite get_active_subscription_unfold.
  destruct (filter (is_active user_id (utc_clock (ticks w))) (subscriptions w))
    as [|s [|s2 rest]] eqn:F; simpl.
  - apply row_of_In; [apply Hwf | assumption].
  - assert (Hs : In s (filter (is_active user_id (utc_clock (ticks w)))
                              (subscriptions w))) by (rewrite F; now left).
    apply filter_In in Hs. destruct Hs as [Hs Hact].
    apply is_active_true in Hact. destruct Hact as (_ & Hsucc & _).
    rewrite row_of_replace_other.
    + apply row_of_In; [apply Hwf | assumption].
    + simpl. apply distinct_rows_distinct_ids with (rows := subscriptions w);
        auto; [apply Hwf | congruence].
  - apply row_of_In; [apply Hwf | assumption].
Qed.

Lemma cancel_subscription_keeps_other (subscription_id : Z)
  (r : UserSubscription) (w : World) :
  wf_subscriptions (subscriptions w) -> In r (subscriptions w) ->
  subscription_id <> sub_id r ->
  row_of (sub_id r)
    (subscriptions (snd (cancel_subscription subscription_id w)))
  = Some r.
Proof.
  intros Hwf Hin Hne. unfold cancel_subscription, bind.
  destruct (select_by_id_cases subscription_id w Hwf)
    as [E | [s [Hs [Eid E]]]]; rewrite E; simpl.
  - apply row_of_In; [apply Hwf | assumption].
  - rewrite row_of_replace_other by (simpl; congruence).
    apply row_of_In; [apply Hwf | assumption].
Qed.

Lemma activate_subscription_keeps_other (payment_id : string)
  (r : UserSubscription) (w : World) :
  wf_subscriptions (subscriptions w) -> In r (subscriptions w) ->
  payment_id <> sub_payment_id r ->
  row_of (sub_id r)
    (subscriptions (snd (activate_subscription config utc_clock payment_id w)))
  = Some r.
Proof.
  intros Hwf Hin Hne.
  destruct (select_by_payment_id_cases payment_id w Hwf)
    as [E | [s [Hs [Epay E]]]].
  - rewrite activate_subscription_missing by assumption.
    apply row_of_In; [apply Hwf | assumption].
  - subst payment_id. rewrite activate_subscription_found by assumption.
    simpl. rewrite row_of_replace_other.
    + apply row_of_In; [apply Hwf | assumption].
    + simpl. apply distinct_rows_distinct_ids with (rows := subscriptions w);
        auto; [apply Hwf | congruence].
Qed.

(** C6 (as the code has it).  For a stored row with status canceled:
    [toggle_auto_renewal] never changes it; [cancel_subscription] and
    [activate_subscription] aimed at another row never change it;
    [cancel_subscription] on its own id keeps status and dates and forces
    the auto-renewal flag off; [activate_subscription] on its own payment
    reference is not guarded by the status and turns it into a succeeded
    row with fresh dates. *)
Theorem canceled_row_frame (r : UserSubscription) (w : World) :
  wf_subscriptions (subscriptions w) ->
  In r (subscriptions w) ->
  sub_status r = "canceled" ->
  (forall user_id enable,
      row_of (sub_id r)
        (subscriptions (snd (toggle_auto_renewal utc_clock user_id enable w)))
      = Some r)
  /\ (forall subscription_id, subscription_id <> sub_id r ->
        row_of (sub_id r)
          (subscriptions (snd (cancel_subscription subscription_id w)))
        = Some r)
  /\ (forall payment_id, payment_id <> sub_payment_id r ->
        row_of (sub_id r)
          (subscriptions
             (snd (activate_subscription config utc_clock payment_id w)))
        = Some r)
  /\ (exists r' w',
        cancel_subscription (sub_id r) w = (Ok true, w')
        /\ row_of (sub_id r) (subscriptions w') = Some r'
        /\ r' = set_is_auto_renewal r false
        /\ sub_status r' = "canceled"
        /\ sub_start_date r' = sub_start_date r
        /\ sub_end_date r' = sub_end_date r
        /\ sub_next_payment_date r' = sub_next_payment_date r
        /\ sub_is_auto_renewal r' = false)
  /\ (exists r' w',
        activate_subscription config utc_clock (sub_payment_id r) w
        = (Ok (Some r'), w')
        /\ row_of (sub_id r) (subscriptions w') = Some r'
        /\ sub_status r' = "succeeded"
        /\ sub_start_date r' = Some (utc_clock (ticks w))
        /\ sub_end_date r'
           = Some (utc_clock (S (ticks w))
                   + timedelta_days (SUBSCRIPTION_DAYS config))).
Proof.
  intros Hwf Hin Hst.
  split.
  { intros. apply toggle_auto_renewal_keeps_row; auto.
    rewrite Hst. discriminate. }
  split; [intros; now apply cancel_subscription_keeps_other|].
  split; [intros; now apply activate_subscription_keeps_other|].
  split.
  - assert (E : set_status r "canceled" = r).
    { destruct r; simpl in *. now subst. }
    unfold cancel_subscription, bind.
    rewrite select_by_id_found by assumption. rewrite E. simpl.
    eexists; eexists. split; [reflexivity|]. simpl.
    split; [now apply row_of_replace_same|].
    repeat split; auto.
  - rewrite activate_subscription_found by assumption. cbv zeta.
    eexists; eexists. split; [reflexivity|]. simpl.
    split; [now apply row_of_replace_same|].
    repeat split.
Qed.

End CanceledRows.

(** ** Running a computation step by step *)

Lemma try_Payment_find_one (yookassa : Gateway) (payment_id : string)
  (w : World) :
  try_ (Payment_find_one yookassa payment_id) w
  = (Ok (gw_find_one yookassa (trace w ++ [PaymentFindOne payment_id])
           payment_id),
     logged w (PaymentFindOne payment_id)).
Proof. reflexivity. Qed.

Lemma bind_run {A B} (m : M A) (k : A -> M B) (w : World) (a : A)
  (w' : World) :
  m w = (Ok a, w') -> bind m k w = k a w'.
Proof. intros H. unfold bind. now rewrite H. Qed.

Lemma bind_assoc {A B C} (m : M A) (k : A -> M B) (c : B -> M C) (w : World) :
  bind (bind m k) c w = bind m (fun a => bind (k a) c) w.
Proof.
  unfold bind. destruct (m w) as [[a|e] w1]; [|reflexivity].
  reflexivity.
Qed.

(** ** What the renewal path can change

    A relation between the world before and after is respected by the
    renewal path as soon as it is a preorder that allows rewriting the
    subscription table, reading the clock and logging an external call.
    "The usage table is the same" is such a relation. *)

Create HintDb respects.

Section Respects.

Variable R : World -> World -> Prop.
Hypothesis R_refl : forall w, R w w.
Hypothesis R_trans : forall a b c, R a b -> R b c -> R a c.
Hypothesis R_store : forall w rows n,
  R w {| subscriptions := rows; usages := usages w; ticks := n;
         trace := trace w |}.
Hypothesis R_emit : forall w e,
  R w {| subscriptions := subscriptions w; usages := usages w;
         ticks := ticks w; trace := trace w ++ [e] |}.

Lemma respects_ret {A} (a : A) : respects R (ret a).
Proof. intros w. apply R_refl. Qed.

Lemma respects_raise {A} (e : exn) : respects R (@raise A e).
Proof. intros w. apply R_refl. Qed.

Lemma respects_gets {A} (f : World -> A) : respects R (gets f).
Proof. intros w. apply R_refl. Qed.

Lemma respects_bind {A B} (m : M A) (k : A -> M B) :
  respects R m -> (forall a, respects R (k a)) -> respects R (bind m k).
Proof.
  intros Hm Hk w. unfold bind. specialize (Hm w).
  destruct (m w) as [[a|e] w1]; simpl in *.
  - apply R_trans with w1; [assumption | apply Hk].
  - assumption.
Qed.

Lemma respects_try {A} (m : M A) : respects R m -> respects R (try_ m).
Proof.
  intros Hm w. unfold try_. specialize (Hm w).
  destruct (m w) as [r w1]. exact Hm.
Qed.

Lemma respects_for_each {A} (l : list A) (body : A -> M unit) :
  (forall x, respects R (body x)) -> respects R (for_each l body).
Proof.
  intros Hb. induction l as [|x l IH]; simpl.
  - apply respects_ret.
  - apply respects_bind; auto.
Qed.

Lemma respects_scalar_one_or_none {A} (rows : list A) :
  respects R (scalar_one_or_none rows).
Proof.
  destruct rows as [|a [|b rest]]; simpl;
    auto using respects_ret, respects_raise.
Qed.

Lemma respects_emit (e : Event) : respects R (emit e).
Proof. intros w. apply R_emit. Qed.

Lemma respects_commit_subscription (s : UserSubscription) :
  respects R (commit_subscription s).
Proof. intros w. apply R_store. Qed.

Variable config : Config.
Variable utc_clock : nat -> datetime.
Variable yookassa : Gateway.

Lemma respects_utcnow : respects R (utcnow utc_clock).
Proof. intros w. apply R_store. Qed.

Lemma respects_external {A} (e : Event) (answer : list Event -> Outcome A) :
  respects R (external e answer).
Proof.
  unfold external. apply respects_bind; [apply respects_emit|].
  intros _ w. apply R_refl.
Qed.

Lemma respects_get_me (b : Bot) : respects R (get_me b).
Proof.
  unfold get_me. apply respects_bind; [apply respects_emit|].
  intros _ w. apply R_refl.
Qed.

#[local] Hint Resolve respects_ret respects_raise respects_gets respects_try
  respects_scalar_one_or_none respects_emit respects_commit_subscription
  respects_utcnow respects_external respects_get_me : respects.

Ltac respects_step :=
  match goal with
  | |- respects _ (bind _ _) => apply respects_bind; [|intros ?]
  | |- respects _ (try_ _) => apply respects_try
  | |- respects _ (match ?x with _ => _ end) => destruct x
  | |- respects _ _ => solve [auto with respects]
  end.

Ltac respects_auto := repeat respects_step.

Lemma respects_insert_subscription (row : Z -> datetime -> UserSubscription) :
  respects R (insert_subscription utc_clock row).
Proof.
  unfold insert_subscription. respects_auto.
  intros w. apply R_store.
Qed.

Lemma respects_select_by_payment_id (payment_id : string) :
  respects R (select_by_payment_id payment_id).
Proof. unfold select_by_payment_id. respects_auto. Qed.

Lemma respects_select_by_id (subscription_id : Z) :
  respects R (select_by_id subscription_id).
Proof. unfold select_by_id. respects_auto. Qed.

#[local] Hint Resolve respects_insert_subscription respects_select_by_payment_id
  respects_select_by_id : respects.

Lemma respects_activate_subscription (payment_id : string) :
  respects R (activate_subscription config utc_clock payment_id).
Proof. unfold activate_subscription. respects_auto. Qed.

Lemma respects_create_renewal_subscription (old : UserSubscription)
  (payment_id : string) :
  respects R (create_renewal_subscription utc_clock old payment_id).
Proof. unfold create_renewal_subscription. auto with respects. Qed.

Lemma respects_update_renewal_attempt (subscription_id : Z) :
  respects R (update_renewal_attempt utc_clock subscription_id).
Proof. unfold update_renewal_attempt. respects_auto. Qed.

Lemma respects_create_payment (amount : Z) (description return_url : string)
  (metadata : option Metadata) :
  respects R (create_payment yookassa amount description return_url metadata).
Proof. unfold create_payment, Payment_create. cbv zeta. respects_auto. Qed.

#[local] Hint Resolve respects_activate_subscription
  respects_create_renewal_subscription respects_update_renewal_attempt
  respects_create_payment : respects.

Lemma respects_create_recurrent_payment (amount : Z)
  (description return_url parent_payment_id : string)
  (metadata : option Metadata) :
  respects R (create_recurrent_payment yookassa amount description return_url
                parent_payment_id metadata).
Proof.
  unfold create_recurrent_payment, Payment_find_one, Payment_create.
  cbv zeta. respects_auto.
Qed.

Lemma respects_subscription_user (s : UserSubscription) :
  respects R (subscription_user s).
Proof. apply respects_raise. Qed.

Lemma respects_send_message (chat_id : Z) (text : Notice) :
  respects R (send_message chat_id text).
Proof. apply respects_emit. Qed.

#[local] Hint Resolve respects_subscription_user respects_send_message
  : respects.

Lemma respects_log_notification_error (s : UserSubscription) :
  respects R (log_notification_error s).
Proof. unfold log_notification_error. respects_auto. Qed.

#[local] Hint Resolve respects_log_notification_error : respects.

Lemma respects_notify_user_renewal_success (self : RenewalService)
  (s : UserSubscription) :
  respects R (notify_user_renewal_success config self s).
Proof. unfold notify_user_renewal_success. cbv zeta. respects_auto. Qed.

Lemma respects_notify_user_renewal_pending (self : RenewalService)
  (s : UserSubscription) (info : PaymentInfo) :
  respects R (notify_user_renewal_pending self s info).
Proof. unfold notify_user_renewal_pending. respects_auto. Qed.

Lemma respects_notify_user_renewal_failed (self : RenewalService)
  (s : UserSubscription) :
  respects R (notify_user_renewal_failed self s).
Proof. unfold notify_user_renewal_failed. respects_auto. Qed.

#[local] Hint Resolve respects_create_recurrent_payment
  respects_notify_user_renewal_success respects_notify_user_renewal_pending
  respects_notify_user_renewal_failed : respects.

Lemma respects_process_renewal (self : RenewalService) (s : UserSubscription) :
  respects R (process_renewal config utc_clock yookassa self s).
Proof. unfold process_renewal. respects_auto. Qed.

Lemma respects_check_and_renew_subscriptions (self : RenewalService) :
  respects R
    (check_and_renew_subscriptions config utc_clock yookassa self).
Proof.
  unfold check_and_renew_subscriptions, get_expiring_subscriptions.
  cbv zeta. respects_auto.
  apply respects_for_each. intros x.
  pose proof (respects_process_renewal self x). respects_auto.
Qed.

Lemma respects_start (n : nat) (self : RenewalService) :
  respects R (start config utc_clock yookassa n self).
Proof.
  induction n as [|n IH]; simpl; [apply respects_ret|].
  pose proof (respects_check_and_renew_subscriptions self). respects_auto.
Qed.

End Respects.

(** The renewal service never writes to the usage table. *)
Lemma process_renewal_same_usages config utc_clock yookassa (self : RenewalService) (s : UserSubscription) (w : World) :
  usages (snd (process_renewal config utc_clock yookassa self s w))
  = usages w.
Proof.
  apply (respects_process_renewal same_usages); unfold same_usages;
    auto; congruence.
Qed.

Lemma check_and_renew_subscriptions_same_usages config utc_clock yookassa (self : RenewalService) (w : World) :
  usages (snd (check_and_renew_subscriptions config utc_clock yookassa self w))
  = usages w.
Proof.
  apply (respects_check_and_renew_subscriptions same_usages);
    unfold same_usages; auto; congruence.
Qed.

(** ** Payment Gateway Adapter *)

Section PaymentService.

Variable yookassa : Gateway.

Lemma try_Payment_create (data : PaymentData) (w : World) :
  try_ (Payment_create yookassa data) w
  = (Ok (gw_create yookassa (trace w ++ [PaymentCreate data]) data),
     logged w (PaymentCreate data)).
Proof. reflexivity. Qed.

(** C7 (as the code has it).  When the lookup of the parent payment finds
    no stored payment method, [create_recurrent_payment] reports failure
    ([None]) after that single lookup, without calling [create_payment].
    The fallback to a non-recurrent [create_payment] is taken when the
    lookup itself raises. *)
Theorem create_recurrent_payment_without_method (amount : Z)
  (description return_url parent_payment_id : string)
  (metadata : option Metadata) (w : World) :
  let w1 := logged w (PaymentFindOne parent_payment_id) in
  let found := gw_find_one yookassa (trace w1) parent_payment_id in
  (no_stored_method found ->
   create_recurrent_payment yookassa amount description return_url
     parent_payment_id metadata w
   = (Ok None, w1))
  /\ (forall e, found = Raise e ->
      create_recurrent_payment yookassa amount description return_url
        parent_payment_id metadata w
      = create_payment yookassa amount description return_url metadata w1).
Proof.
  cbv zeta. split.
  - intros Hno. unfold create_recurrent_payment, bind.
    rewrite try_Payment_find_one.
    change (trace (logged w (PaymentFindOne parent_payment_id)))
      with (trace w ++ [PaymentFindOne parent_payment_id]) in Hno.
    destruct Hno as [-> | [p [-> Hp]]]; [reflexivity|].
    now rewrite Hp.
  - intros e He. unfold create_recurrent_payment, bind.
    rewrite try_Payment_find_one.
    change (trace (logged w (PaymentFindOne parent_payment_id)))
      with (trace w ++ [PaymentFindOne parent_payment_id]) in He.
    now rewrite He.
Qed.

End PaymentService.

(** ** Renewal Scheduler *)

Lemma failure_notices_app (a b : list Event) :
  failure_notices (a ++ b) = (failure_notices a + failure_notices b)%nat.
Proof. unfold failure_notices. now rewrite filter_app, length_app. Qed.

Lemma gateway_calls_app (a b : list Event) :
  gateway_calls (a ++ b) = gateway_calls a ++ gateway_calls b.
Proof. unfold gateway_calls. now rewrite filter_app. Qed.

Lemma messages_app (a b : list Event) :
  messages (a ++ b) = messages a ++ messages b.
Proof. unfold messages. now rewrite filter_app. Qed.

Lemma gateway_calls_names (n : nat) : gateway_calls (repeat BotGetMe n) = [].
Proof. induction n as [|n IH]; [reflexivity | exact IH]. Qed.

Lemma messages_names (n : nat) : messages (repeat BotGetMe n) = [].
Proof. induction n as [|n IH]; [reflexivity | exact IH]. Qed.

(** *** Rows that differ in their attempts only *)

Lemma attempts_only_refl (r : UserSubscription) : attempts_only r r.
Proof. now destruct r. Qed.

Lemma attempts_only_trans (a b c : UserSubscription) :
  attempts_only a b -> attempts_only b c -> attempts_only a c.
Proof.
  unfold attempts_only, set_last_renewal_attempt, set_renewal_attempts.
  destruct a, b, c. cbn. intros H1 H2.
  injection H1 as -> -> -> -> -> -> -> -> -> -> -> ->.
  injection H2 as -> -> -> -> -> -> -> -> -> -> -> ->.
  reflexivity.
Qed.

Lemma attempts_only_recorded (r : UserSubscription) (now : datetime) :
  attempts_only r (attempt_recorded r now).
Proof. now destruct r. Qed.

Lemma Forall2_refl {A} (R : A -> A -> Prop) (l : list A) :
  (forall x, R x x) -> Forall2 R l l.
Proof. intros H. induction l; constructor; auto. Qed.

Lemma Forall2_trans {A} (R : A -> A -> Prop) (a b c : list A) :
  (forall x y z, R x y -> R y z -> R x z) ->
  Forall2 R a b -> Forall2 R b c -> Forall2 R a c.
Proof.
  intros Ht Hab. revert c. induction Hab as [|x y a b Hxy Hab IH]; intros c Hbc.
  - inversion Hbc. constructor.
  - inversion Hbc as [|y' z b' c' Hyz Hbc']; subst.
    constructor; [now apply Ht with y | now apply IH].
Qed.

Lemma Forall2_map_r {A} (R : A -> A -> Prop) (f : A -> A) (l : list A) :
  (forall x, In x l -> R x (f x)) -> Forall2 R l (map f l).
Proof.
  induction l as [|x l IH]; intros H; cbn; constructor.
  - apply H. now left.
  - apply IH. intros y Hy. apply H. now right.
Qed.

Lemma attempts_and_names_refl (w : World) : attempts_and_names w w.
Proof.
  split; [apply Forall2_refl, attempts_only_refl|].
  split; [reflexivity|]. exists 0%nat. cbn. now rewrite app_nil_r.
Qed.

Lemma attempts_and_names_trans (a b c : World) :
  attempts_and_names a b -> attempts_and_names b c -> attempts_and_names a c.
Proof.
  intros (Hs1 & Hu1 & n1 & Ht1) (Hs2 & Hu2 & n2 & Ht2).
  split; [exact (Forall2_trans _ _ _ _ attempts_only_trans Hs1 Hs2)|].
  split; [congruence|].
  exists (n1 + n2)%nat. now rewrite Ht2, Ht1, <- app_assoc, repeat_app.
Qed.

Lemma attempts_and_names_tick (w : World) : attempts_and_names w (tick w).
Proof.
  split; [apply Forall2_refl, attempts_only_refl|].
  split; [reflexivity|]. exists 0%nat. cbn. now rewrite app_nil_r.
Qed.

Lemma attempts_and_names_name (w : World) :
  attempts_and_names w (logged w BotGetMe).
Proof.
  split; [apply Forall2_refl, attempts_only_refl|].
  split; [reflexivity|]. now exists 1%nat.
Qed.

Section RenewalGates.

Variable config : Config.
Variable utc_clock : nat -> datetime.
Variable yookassa : Gateway.

(** Reading [subscription.user] raises in the body of a notification and
    again in its handler: each of the three raises, having sent nothing. *)
Lemma notify_user_renewal_failed_raises (self : RenewalService)
  (s : UserSubscription) (w : World) :
  notify_user_renewal_failed self s w = (Raise MissingGreenlet, w).
Proof.
  unfold notify_user_renewal_failed.
  destruct (bot self), (sub_end_date s); reflexivity.
Qed.

Lemma notify_user_renewal_success_raises (self : RenewalService)
  (s : UserSubscription) (w : World) :
  notify_user_renewal_success config self s w = (Raise MissingGreenlet, w).
Proof.
  unfold notify_user_renewal_success.
  destruct (sub_end_date s), (bot self); reflexivity.
Qed.

Lemma notify_user_renewal_pending_raises (self : RenewalService)
  (s : UserSubscription) (info : PaymentInfo) (w : World) :
  notify_user_renewal_pending self s info w = (Raise MissingGreenlet, w).
Proof.
  unfold notify_user_renewal_pending.
  destruct (bot self), (sub_end_date s); reflexivity.
Qed.

(** The attempt gate: with three attempts on record the call is the call
    of the notification and nothing else. *)
Lemma process_renewal_exhausted (self : RenewalService)
  (s : UserSubscription) (w : World) :
  3 <= sub_renewal_attempts s ->
  process_renewal config utc_clock yookassa self s w
  = notify_user_renewal_failed self s w.
Proof.
  intros H. unfold process_renewal. apply Z.leb_le in H. now rewrite H.
Qed.

(** The cooldown gate, closed. *)
Lemma process_renewal_cooling (self : RenewalService) (s : UserSubscription)
  (last : datetime) (w : World) :
  sub_renewal_attempts s < 3 ->
  sub_last_renewal_attempt s = Some last ->
  utc_clock (ticks w) - last < timedelta_hours 6 ->
  process_renewal config utc_clock yookassa self s w = (Ok tt, tick w).
Proof.
  intros Hatt Hlast Hearly. unfold process_renewal.
  assert (E3 : (3 <=? sub_renewal_attempts s) = false)
    by (apply Z.leb_gt; lia).
  rewrite E3, Hlast. unfold bind, utcnow, ret. cbv beta iota.
  assert (E : (utc_clock (ticks w) - last <? timedelta_hours 6) = true)
    by (apply Z.ltb_lt; lia).
  now rewrite E.
Qed.

Lemma cooldown_check_passed {B} (s : UserSubscription) (w w1 : World)
  (k : bool -> M B) :
  past_gates utc_clock s w w1 ->
  (too_early <-
     match sub_last_renewal_attempt s with
     | Some last =>
         now <- utcnow utc_clock ;;
         ret (now - last <? timedelta_hours 6)
     | None => ret false
     end ;;
   k too_early) w = k false w1.
Proof.
  intros [_ Hgate]. destruct (sub_last_renewal_attempt s) as [last|].
  - destruct Hgate as [Hge ->]. unfold bind, utcnow, ret. cbv beta iota.
    assert (E : (utc_clock (ticks w) - last <? timedelta_hours 6) = false)
      by (apply Z.ltb_ge; lia).
    now rewrite E.
  - subst w1. reflexivity.
Qed.

Lemma get_me_run (b : Bot) (w : World) :
  get_me b w = (bot_get_me b, logged w BotGetMe).
Proof. reflexivity. Qed.

(** Both gates open: without a bot handle the call returns; with one, the
    bot is asked its name and the call ends in an exception, the bot's own
    or the one raised by reading [subscription.user]. *)
Lemma process_renewal_past_gates (self : RenewalService)
  (s : UserSubscription) (w w1 : World) :
  past_gates utc_clock s w w1 ->
  process_renewal config utc_clock yookassa self s w
  = match bot self with
    | None => (Ok tt, w1)
    | Some b =>
        (Raise match bot_get_me b with
               | Ok _ => MissingGreenlet
               | Raise e => e
               end,
         logged w1 BotGetMe)
    end.
Proof.
  intros Hgates. unfold process_renewal.
  assert (E3 : (3 <=? sub_renewal_attempts s) = false)
    by (apply Z.leb_gt; apply Hgates).
  rewrite E3, (cooldown_check_passed s w w1) by assumption.
  destruct (bot self) as [b|]; [|reflexivity].
  unfold bind at 1. rewrite get_me_run.
  destruct (bot_get_me b); reflexivity.
Qed.

Lemma past_gates_world (s : UserSubscription) (w w1 : World) :
  past_gates utc_clock s w w1 -> w1 = w \/ w1 = tick w.
Proof.
  intros [_ H]. destruct (sub_last_renewal_attempt s); [right | left]; tauto.
Qed.

(** Whatever the row, the gateway and the bot: a call changes neither
    table and logs at most the question to the bot. *)
Lemma process_renewal_frame (self : RenewalService) (s : UserSubscription)
  (w : World) :
  attempts_and_names w
    (snd (process_renewal config utc_clock yookassa self s w)).
Proof.
  destruct (Z.le_gt_cases 3 (sub_renewal_attempts s)) as [H3|H3].
  - rewrite process_renewal_exhausted, notify_user_renewal_failed_raises
      by assumption.
    apply attempts_and_names_refl.
  - assert (Hopen : forall w1, past_gates utc_clock s w w1 ->
              attempts_and_names w
                (snd (process_renewal config utc_clock yookassa self s w))).
    { intros w1 Hg. rewrite (process_renewal_past_gates self s w w1 Hg).
      assert (Hw1 : attempts_and_names w w1).
      { destruct (past_gates_world s w w1 Hg) as [-> | ->];
          [apply attempts_and_names_refl | apply attempts_and_names_tick]. }
      destruct (bot self); cbn [snd]; [|exact Hw1].
      apply attempts_and_names_trans with w1;
        [exact Hw1 | apply attempts_and_names_name]. }
    destruct (sub_last_renewal_attempt s) as [last|] eqn:Hlast.
    + destruct (Z.lt_ge_cases (utc_clock (ticks w) - last) (timedelta_hours 6))
        as [Hearly|Hlate].
      * rewrite (process_renewal_cooling self s last w) by (assumption || lia).
        apply attempts_and_names_tick.
      * apply (Hopen (tick w)). split; [lia|]. rewrite Hlast. now split.
    + apply (Hopen w). split; [lia|]. now rewrite Hlast.
Qed.

(** Recording an attempt rewrites the attempt columns of one row. *)
Lemma update_renewal_attempt_frame (subscription_id : Z) (w : World) :
  attempts_and_names w (snd (update_renewal_attempt utc_clock subscription_id w)).
Proof.
  unfold update_renewal_attempt, select_by_id, bind, gets.
  destruct (filter (fun r => sub_id r =? subscription_id) (subscriptions w))
    as [|s [|s2 rest]] eqn:F; cbn.
  - apply attempts_and_names_refl.
  - split; [|split; [reflexivity | exists 0%nat; cbn; now rewrite app_nil_r]].
    cbn. unfold replace_subscription. apply Forall2_map_r.
    intros x Hx. cbn.
    destruct (sub_id x =? sub_id s) eqn:E; [|apply attempts_only_refl].
    assert (Hs : In s (filter (fun r => sub_id r =? subscription_id)
                         (subscriptions w))) by (rewrite F; now left).
    apply filter_In in Hs. destruct Hs as [_ Hs]. apply Z.eqb_eq in Hs.
    assert (Hxs : In x (filter (fun r => sub_id r =? subscription_id)
                          (subscriptions w))).
    { apply filter_In. split; [assumption|].
      apply Z.eqb_eq in E. apply Z.eqb_eq. congruence. }
    rewrite F in Hxs. destruct Hxs as [<- | []].
    apply (attempts_only_recorded s).
  - apply attempts_and_names_refl.
Qed.

(** One candidate of a scan. *)
Lemma renew_one_frame (self : RenewalService) (s : UserSubscription)
  (w : World) :
  attempts_and_names w
    (snd ((r <- try_ (process_renewal config utc_clock yookassa self s) ;;
           match r with
           | Ok _ => ret tt
           | Raise _ => update_renewal_attempt utc_clock (sub_id s)
           end) w)).
Proof.
  unfold bind, try_.
  pose proof (process_renewal_frame self s w) as Hp.
  destruct (process_renewal config utc_clock yookassa self s w)
    as [[[]|e] w1]; cbn [snd] in *; [exact Hp|].
  apply attempts_and_names_trans with w1; [exact Hp|].
  apply update_renewal_attempt_frame.
Qed.

Lemma for_each_frame {A} (l : list A) (body : A -> M unit) :
  (forall x w, attempts_and_names w (snd (body x w))) ->
  forall w, attempts_and_names w (snd (for_each l body w)).
Proof.
  intros Hb. induction l as [|x l IH]; intros w; cbn [for_each].
  - apply attempts_and_names_refl.
  - unfold bind. pose proof (Hb x w) as Hx.
    destruct (body x w) as [[[]|e] w1]; cbn [snd] in *; [|exact Hx].
    apply attempts_and_names_trans with w1; [exact Hx | apply IH].
Qed.

Lemma check_and_renew_subscriptions_frame (self : RenewalService) (w : World) :
  attempts_and_names w
    (snd (check_and_renew_subscriptions config utc_clock yookassa self w)).
Proof.
  unfold check_and_renew_subscriptions. unfold bind at 1.
  rewrite get_expiring_subscriptions_window.
  apply attempts_and_names_trans with (tick (tick w)).
  - apply attempts_and_names_trans with (tick w);
      apply attempts_and_names_tick.
  - apply for_each_frame. intros x w0. apply renew_one_frame.
Qed.

Lemma start_frame (n : nat) (self : RenewalService) (w : World) :
  attempts_and_names w (snd (start config utc_clock yookassa n self w)).
Proof.
  revert w. induction n as [|n IH]; intros w; cbn [start].
  - apply attempts_and_names_refl.
  - unfold bind, try_.
    pose proof (check_and_renew_subscriptions_frame self w) as Hs.
    destruct (check_and_renew_subscriptions config utc_clock yookassa self w)
      as [r w1]. cbn [snd] in Hs.
    apply attempts_and_names_trans with w1; [exact Hs | apply IH].
Qed.

Lemma attempts_and_names_quiet (w w' : World) :
  attempts_and_names w w' ->
  gateway_calls (trace w') = gateway_calls (trace w)
  /\ messages (trace w') = messages (trace w)
  /\ failure_notices (trace w') = failure_notices (trace w).
Proof.
  intros (_ & _ & n & ->).
  rewrite gateway_calls_app, messages_app, failure_notices_app.
  rewrite gateway_calls_names, messages_names, !app_nil_r.
  repeat split. unfold failure_notices.
  assert (E : filter is_failure_notice (repeat BotGetMe n) = [])
    by (induction n as [|n IH]; [reflexivity | exact IH]).
  rewrite E. cbn. lia.
Qed.

End RenewalGates.

Section SchedulerClaims.

Variable config : Config.
Variable utc_clock : nat -> datetime.
Variable yookassa : Gateway.


(** C9, on the code.  The cooldown gate of [process_renewal], for a row
    below the attempt limit with a last attempt on record.  If less than
    six hours have passed since then, the call returns having only read
    the clock.  If six hours or more have passed and the bot answers, the
    gate lets the row through, the bot is asked its name, and the call
    raises [MissingGreenlet] before any gateway call: the renewal is not
    attempted.  The row attempted two hours ago is skipped; for the row
    attempted seven hours ago the scan makes no gateway call either and
    counts the aborted call as one more attempt. *)
Theorem cooldown_retry_aborts_before_gateway :
  (forall (self : RenewalService) (s : UserSubscription) (last : datetime)
          (w : World),
     sub_renewal_attempts s < 3 ->
     sub_last_renewal_attempt s = Some last ->
     (utc_clock (ticks w) - last < timedelta_hours 6 ->
      process_renewal config utc_clock yookassa self s w = (Ok tt, tick w))
     /\ (timedelta_hours 6 <= utc_clock (ticks w) - last ->
         forall b username,
           bot self = Some b -> bot_get_me b = Ok username ->
           process_renewal config utc_clock yookassa self s w
           = (Raise MissingGreenlet, logged (tick w) BotGetMe)))
  /\ process_renewal default_config scan_clock gw_charges service_with_bot
       (attempted_hours_ago 2) (w_with (attempted_hours_ago 2))
     = (Ok tt, tick (w_with (attempted_hours_ago 2)))
  /\ process_renewal default_config scan_clock gw_charges service_with_bot
       (attempted_hours_ago 7) (w_with (attempted_hours_ago 7))
     = (Raise MissingGreenlet, logged (tick (w_with (attempted_hours_ago 7)))
                                 BotGetMe)
  /\ (let scanned :=
        check_and_renew_subscriptions default_config scan_clock gw_charges
          service_with_bot (w_with (attempted_hours_ago 7)) in
      fst scanned = Ok tt
      /\ trace (snd scanned) = [BotGetMe]
      /\ gateway_calls (trace (snd scanned)) = []
      /\ subscriptions (snd scanned)
         = [expiring_row 2 (Some (scan_clock 3))]).
Proof.
  split.
  - intros self s last w Hatt Hlast. split.
    + intros Hearly. now apply process_renewal_cooling with last.
    + intros Hlate b username Hbot Hme.
      rewrite (process_renewal_past_gates config utc_clock yookassa self s w
                 (tick w)).
      * now rewrite Hbot, Hme.
      * split; [assumption|]. rewrite Hlast. now split.
  - vm_compute. repeat split.
Qed.

End SchedulerClaims.

(** ** Entitlement Gate *)

Section EntitlementGate.

Variable config : Config.
Variable utc_clock : nat -> datetime.

(** With exactly one active row the gate opens, whatever the counters. *)
Lemma can_use_photo_subscribed (user_id : Z) (s : UserSubscription) (w : World) :
  filter (is_active user_id (utc_clock (ticks w))) (subscriptions w) = [s] ->
  can_use_photo config utc_clock user_id w = (Ok true, tick w)
  /\ can_ask_question config utc_clock user_id w = (Ok true, tick w).
Proof.
  intros H. unfold can_use_photo, can_ask_question, bind.
  rewrite get_active_subscription_unfold, H. now split.
Qed.

(** With no active row the gate compares the counter with the free limit. *)
Lemma can_use_photo_free (user_id : Z) (w : World) :
  filter (is_active user_id (utc_clock (ticks w))) (subscriptions w) = [] ->
  wf_usages (usages w) ->
  exists u w1,
    get_or_create_usage utc_clock user_id (tick w) = (Ok u, w1)
    /\ can_use_photo config utc_clock user_id w
       = (Ok (photos_used u <? FREE_PHOTO_LIMIT config), w1)
    /\ can_ask_question config utc_clock user_id w
       = (Ok (questions_used u <? FREE_QUESTION_LIMIT config), w1).
Proof.
  intros H Hwf.
  destruct (get_or_create_usage_spec utc_clock user_id (tick w) Hwf)
    as (u & w1 & Hrun & _).
  exists u, w1. split; [assumption|].
  unfold can_use_photo, can_ask_question, bind.
  rewrite get_active_subscription_unfold, H. simpl.
  now rewrite Hrun.
Qed.

(** With two or more active rows the query behind the gate raises. *)
Lemma can_use_photo_overlap (user_id : Z) (a b : UserSubscription)
  (rest : list UserSubscription) (w : World) :
  filter (is_active user_id (utc_clock (ticks w))) (subscriptions w)
  = a :: b :: rest ->
  get_active_subscription utc_clock user_id w
  = (Raise MultipleResultsFound, tick w)
  /\ can_use_photo config utc_clock user_id w
     = (Raise MultipleResultsFound, tick w)
  /\ can_ask_question config utc_clock user_id w
     = (Raise MultipleResultsFound, tick w).
Proof.
  intros H. unfold can_use_photo, can_ask_question, bind.
  rewrite get_active_subscription_unfold, H. now repeat split.
Qed.

End EntitlementGate.

(** With the default limit of five free photos the comparison holds for the
    counter values 0 to 4 and fails at 5. *)
Lemma free_photo_limit_boundary (n : Z) :
  0 <= n ->
  ((n <? FREE_PHOTO_LIMIT default_config) = true <-> n <= 4)
  /\ (5 <? FREE_PHOTO_LIMIT default_config) = false.
Proof.
  intros Hn. simpl. split; [|reflexivity]. rewrite Z.ltb_lt. lia.
Qed.

(** *** A pending payment, confirmed twice *)

Example w_pending_rows : subscriptions w_pending = [pending_row].
Proof. reflexivity. Qed.

Lemma wf_w_pending : wf_subscriptions (subscriptions w_pending).
Proof.
  split; simpl; (constructor; [intros [] | constructor]).
Defined.

(** C1, counterexample.  The same payment is confirmed twice, the second
    confirmation arriving twenty minutes after the first: the end date
    after two calls is not the end date after one call. *)
Lemma activate_twice_end_date_differs :
  let once :=
    snd (activate_subscription default_config clock_10min "pay-1" w_pending) in
  let twice :=
    snd (activate_subscription default_config clock_10min "pay-1" once) in
  option_map sub_end_date (row_of_payment "pay-1" (subscriptions once))
  = Some (Some 2593200000000)
  /\ option_map sub_end_date (row_of_payment "pay-1" (subscriptions twice))
     = Some (Some 2594400000000)
  /\ option_map sub_end_date (row_of_payment "pay-1" (subscriptions twice))
     <> option_map sub_end_date (row_of_payment "pay-1" (subscriptions once)).
Proof. vm_compute. repeat split. discriminate. Qed.

(** The amended C1 at the twice-confirmed payment. *)
Lemma activate_twice_restamps_end_date_witness :
  wf_subscriptions (subscriptions w_pending)
  /\ In pending_row (subscriptions w_pending)
  /\ sub_payment_id pending_row = "pay-1"
  /\ exists once w1 twice w2,
       activate_subscription default_config clock_10min "pay-1" w_pending
       = (Ok (Some once), w1)
       /\ activate_subscription default_config clock_10min "pay-1" w1
          = (Ok (Some twice), w2)
       /\ sub_end_date once = Some (clock_10min 2 + timedelta_days 30)
       /\ sub_end_date twice = Some (clock_10min 4 + timedelta_days 30).
Proof.
  split; [exact wf_w_pending|].
  split; [left; reflexivity|].
  split; [reflexivity|].
  destruct (activate_twice_restamps_end_date default_config clock_10min
              "pay-1" pending_row w_pending wf_w_pending
              (or_introl eq_refl) eq_refl)
    as (once & w1 & twice & w2 & H1 & H2 & _ & _ & _ & _ & E1 & _ & E2 & _).
  exists once, w1, twice, w2. repeat split; assumption.
Defined.

(** *** An abandoned payment *)

Example w_canceled_rows : subscriptions w_canceled = [canceled_row].
Proof. reflexivity. Qed.

(** C6, counterexample.  The canceled row of the abandoned payment is
    changed by [activate_subscription] (status and dates) and by
    [cancel_subscription] (auto-renewal flag). *)
Lemma canceled_row_is_mutated :
  let activated :=
    snd (activate_subscription default_config clock_10min "pay-1" w_canceled) in
  let canceled_again := snd (cancel_subscription 1 w_canceled) in
  option_map sub_status (row_of 1 (subscriptions w_canceled)) = Some "canceled"
  /\ option_map sub_status (row_of 1 (subscriptions activated))
     = Some "succeeded"
  /\ option_map sub_end_date (row_of 1 (subscriptions activated))
     = Some (Some 2593200000000)
  /\ option_map sub_is_auto_renewal (row_of 1 (subscriptions w_canceled))
     = Some true
  /\ option_map sub_is_auto_renewal (row_of 1 (subscriptions canceled_again))
     = Some false
  /\ row_of 1 (subscriptions activated) <> row_of 1 (subscriptions w_canceled)
  /\ row_of 1 (subscriptions canceled_again)
     <> row_of 1 (subscriptions w_canceled).
Proof. vm_compute. repeat split; discriminate. Qed.

(** The amended C6 at the abandoned payment. *)
Lemma canceled_row_frame_witness :
  wf_subscriptions (subscriptions w_canceled)
  /\ In canceled_row (subscriptions w_canceled)
  /\ sub_status canceled_row = "canceled"
  /\ row_of 1 (subscriptions (snd (toggle_auto_renewal clock_10min 1 true
                                     w_canceled)))
     = Some canceled_row
  /\ row_of 1 (subscriptions (snd (cancel_subscription 2 w_canceled)))
     = Some canceled_row.
Proof.
  assert (Hwf : wf_subscriptions (subscriptions w_canceled)).
  { split; simpl; (constructor; [intros [] | constructor]). }
  split; [exact Hwf|].
  split; [left; reflexivity|].
  split; [reflexivity|].
  destruct (canceled_row_frame default_config clock_10min canceled_row
              w_canceled Hwf (or_introl eq_refl) eq_refl)
    as (Htoggle & Hcancel & _).
  split.
  - exact (Htoggle 1 true).
  - apply (Hcancel 2). discriminate.
Defined.

(** *** A renewal without a stored payment method *)

(** C7, counterexample.  The gateway holds no payment method for the parent
    payment: [create_recurrent_payment] reports failure after the lookup
    alone, although [create_payment] at that point would have returned a
    payment. *)
Lemma no_stored_method_reports_failure :
  let request :=
    create_recurrent_payment gw_no_method 39900 "renewal" "https://t.me/bot"
      "pay-1" None w_empty in
  let fallback :=
    create_payment gw_no_method 39900 "renewal" "https://t.me/bot" None
      (logged w_empty (PaymentFindOne "pay-1")) in
  no_stored_method (gw_find_one gw_no_method [PaymentFindOne "pay-1"] "pay-1")
  /\ fst request = Ok None
  /\ trace (snd request) = [PaymentFindOne "pay-1"]
  /\ fst fallback
     = Ok (Some {| pi_id := "pay-3"; pi_status := "pending";
                   pi_confirmation_url := Some "https://pay.example/3";
                   pi_amount := 39900 |})
  /\ request <> fallback.
Proof.
  cbv zeta. split.
  - right. eexists. split; reflexivity.
  - vm_compute. repeat split. discriminate.
Qed.

(** The amended C7 on a gateway without stored method and on one whose
    lookup raises. *)
Lemma create_recurrent_payment_without_method_witness :
  no_stored_method (gw_find_one gw_no_method [PaymentFindOne "pay-1"] "pay-1")
  /\ create_recurrent_payment gw_no_method 39900 "renewal" "https://t.me/bot"
       "pay-1" None w_empty
     = (Ok None, logged w_empty (PaymentFindOne "pay-1"))
  /\ gw_find_one gw_lookup_raises [PaymentFindOne "pay-1"] "pay-1"
     = Raise GatewayError
  /\ create_recurrent_payment gw_lookup_raises 39900 "renewal"
       "https://t.me/bot" "pay-1" None w_empty
     = create_payment gw_lookup_raises 39900 "renewal" "https://t.me/bot" None
         (logged w_empty (PaymentFindOne "pay-1")).
Proof.
  assert (Hno : no_stored_method
                  (gw_find_one gw_no_method [PaymentFindOne "pay-1"] "pay-1")).
  { right. eexists. split; reflexivity. }
  split; [exact Hno|].
  split.
  - exact (proj1 (create_recurrent_payment_without_method gw_no_method 39900
                    "renewal" "https://t.me/bot" "pay-1" None w_empty) Hno).
  - split; [reflexivity|].
    exact (proj2 (create_recurrent_payment_without_method gw_lookup_raises
                    39900 "renewal" "https://t.me/bot" "pay-1" None w_empty)
             GatewayError eq_refl).
Defined.

(** *** Two invoices, both paid *)

Example w_paid_twice_rows :
  map sub_id (subscriptions w_paid_twice) = [1; 2]
  /\ map sub_user_id (subscriptions w_paid_twice) = [1; 1]
  /\ map sub_payment_id (subscriptions w_paid_twice) = ["pay-1"; "pay-2"]
  /\ map sub_status (subscriptions w_paid_twice) = ["succeeded"; "succeeded"]
  /\ map sub_end_date (subscriptions w_paid_twice)
     = [Some (clock_10min 6 + timedelta_days 30);
        Some (clock_10min 9 + timedelta_days 30)]
  /\ clock_10min (ticks w_paid_twice) = clock_10min 11.
Proof. vm_compute. repeat split. Qed.

(** C2, on the code.  The user asked for an invoice twice, paid both and
    confirmed both: two rows of the user have status succeeded and an end
    date in the future.  [get_active_subscription] then does not return
    the row with the latest end date: it raises [MultipleResultsFound].
    Taking the first row of the same ordered query would have given the
    row of the second payment. *)
Theorem double_payment_get_active_raises :
  let now := clock_10min (ticks w_paid_twice) in
  let active := filter (is_active 1 now) (subscriptions w_paid_twice) in
  map sub_payment_id active = ["pay-1"; "pay-2"]
  /\ fst (get_active_subscription clock_10min 1 w_paid_twice)
     = Raise MultipleResultsFound
  /\ option_map sub_payment_id
       (scalars_first
          (order_by_desc (fun r => date_key (sub_end_date r)) active))
     = Some "pay-2".
Proof. vm_compute. repeat split. Qed.

(** C3, on the code.  In the same state an active subscription exists for
    the user, and both gate functions raise instead of returning true. *)
Theorem double_payment_gate_raises :
  existsb (is_active 1 (clock_10min (ticks w_paid_twice)))
    (subscriptions w_paid_twice) = true
  /\ fst (can_use_photo default_config clock_10min 1 w_paid_twice)
     = Raise MultipleResultsFound
  /\ fst (can_ask_question default_config clock_10min 1 w_paid_twice)
     = Raise MultipleResultsFound.
Proof. vm_compute. repeat split. Qed.

(** *** One user, from the free tier to the scan before the end date *)


(** *** A subscription that cannot be renewed *)



(** *** A scan among rows of every kind *)


(** *** Counting one photo and one question *)

(** C10 at a user with 3 photos and 4 questions on record. *)
Lemma increment_counters_frame_witness :
  wf_usages (usages w_usage)
  /\ (exists after w',
        increment_photos clock_10min 7 w_usage = (Ok after, w')
        /\ photos_used after = 4
        /\ questions_used after = 4
        /\ last_reset after = 100)
  /\ (exists after w',
        increment_questions clock_10min 7 w_usage = (Ok after, w')
        /\ questions_used after = 5
        /\ photos_used after = 3
        /\ last_reset after = 100).
Proof.
  assert (Hwf : wf_usages (usages w_usage)).
  { split; simpl; (constructor; [intros [] | constructor]). }
  split; [exact Hwf|].
  destruct (increment_counters_frame clock_10min 7 w_usage Hwf)
    as (before & w1 & _ & Hold & Hp & Hq).
  assert (E : usage_row = before)
    by (apply Hold; [left; reflexivity | reflexivity]).
  destruct E. split.
  - destruct Hp as (after & w' & Hrun & _ & H1 & H2 & H3 & _).
    exists after, w'. repeat split; assumption.
  - destruct Hq as (after & w' & Hrun & _ & H1 & H2 & H3 & _).
    exists after, w'. repeat split; assumption.
Defined.

(** * Further properties of the code *)

(** ** Lists *)

Lemma filter_all_false {A} (f : A -> bool) (l : list A) :
  (forall x, In x l -> f x = false) -> filter f l = [].
Proof.
  induction l as [|x l IH]; simpl; intros H; [reflexivity|].
  rewrite (H x (or_introl eq_refl)). apply IH. intros y Hy. apply H. now right.
Qed.

Lemma existsb_payment_false (payment_id : string) (rows : list UserSubscription) :
  ~ In payment_id (map sub_payment_id rows) ->
  existsb (fun r => String.eqb (sub_payment_id r) payment_id) rows = false.
Proof.
  induction rows as [|x rows IH]; simpl; intros Hn; [reflexivity|].
  destruct (String.eqb (sub_payment_id x) payment_id) eqn:E.
  - apply String.eqb_eq in E. exfalso. apply Hn. now left.
  - apply IH. intros H. apply Hn. now right.
Qed.

Lemma existsb_payment_true (payment_id : string) (rows : list UserSubscription) :
  In payment_id (map sub_payment_id rows) ->
  existsb (fun r => String.eqb (sub_payment_id r) payment_id) rows = true.
Proof.
  intros H. apply existsb_exists. apply in_map_iff in H.
  destruct H as [r [E Hr]]. exists r. split; [assumption|].
  now apply String.eqb_eq.
Qed.

Lemma replace_subscription_absent (s : UserSubscription)
  (rows : list UserSubscription) :
  ~ In (sub_id s) (map sub_id rows) -> replace_subscription s rows = rows.
Proof.
  induction rows as [|x rows IH]; simpl; intros Hn; [reflexivity|].
  destruct (sub_id x =? sub_id s) eqn:E.
  - apply Z.eqb_eq in E. exfalso. apply Hn. now left.
  - f_equal. apply IH. intros H. apply Hn. now right.
Qed.

Lemma replace_subscription_app (s : UserSubscription)
  (a b : list UserSubscription) :
  replace_subscription s (a ++ b)
  = replace_subscription s a ++ replace_subscription s b.
Proof. unfold replace_subscription. apply map_app. Qed.

Lemma In_replace_inv (s x : UserSubscription) (rows : list UserSubscription) :
  In x (replace_subscription s rows) ->
  x = s \/ (In x rows /\ sub_id x <> sub_id s).
Proof.
  unfold replace_subscription. intros H. apply in_map_iff in H.
  destruct H as [y [E Hy]].
  destruct (sub_id y =? sub_id s) eqn:Eid.
  - left. now symmetry.
  - right. subst x. split; [assumption|]. now apply Z.eqb_neq.
Qed.

Lemma length_replace_subscription (s : UserSubscription)
  (rows : list UserSubscription) :
  List.length (replace_subscription s rows) = List.length rows.
Proof. unfold replace_subscription. apply length_map. Qed.

(** ** Inserting rows *)

Section Inserting.

Variable utc_clock : nat -> datetime.

Lemma insert_subscription_run (row : Z -> datetime -> UserSubscription)
  (w : World) :
  let s := row (next_id (map sub_id (subscriptions w))) (utc_clock (ticks w)) in
  insert_subscription utc_clock row w
  = if existsb (fun r => String.eqb (sub_payment_id r) (sub_payment_id s))
         (subscriptions w)
    then (Raise IntegrityError, tick w)
    else (Ok s, set_subscriptions (tick w) (subscriptions w ++ [s])).
Proof.
  cbv zeta. unfold insert_subscription, bind, utcnow, gets. cbv beta iota.
  cbn [subscriptions].
  destruct (existsb _ (subscriptions w)); reflexivity.
Qed.

Lemma wf_subscriptions_snoc (s : UserSubscription)
  (rows : list UserSubscription) :
  wf_subscriptions rows ->
  sub_id s = next_id (map sub_id rows) ->
  ~ In (sub_payment_id s) (map sub_payment_id rows) ->
  wf_subscriptions (rows ++ [s]).
Proof.
  intros [Hid Hpay] Eid Hn. split; rewrite map_app; simpl;
    apply NoDup_snoc; auto.
  rewrite Eid. apply next_id_fresh.
Qed.

Lemma create_subscription_fresh (user_id : Z) (payment_id : string)
  (amount : Z) (w : World) :
  wf_subscriptions (subscriptions w) ->
  ~ In payment_id (map sub_payment_id (subscriptions w)) ->
  exists s,
    create_subscription utc_clock user_id payment_id amount w
    = (Ok s, set_subscriptions (tick w) (subscriptions w ++ [s]))
    /\ wf_subscriptions (subscriptions w ++ [s])
    /\ sub_id s = next_id (map sub_id (subscriptions w))
    /\ sub_user_id s = user_id
    /\ sub_payment_id s = payment_id
    /\ sub_amount s = amount
    /\ sub_status s = "pending".
Proof.
  intros Hwf Hn. unfold create_subscription. rewrite insert_subscription_run.
  cbn [sub_payment_id]. rewrite existsb_payment_false by assumption.
  eexists. split; [reflexivity|].
  split; [apply wf_subscriptions_snoc; auto|]. repeat split.
Qed.

(** X1.  [create_subscription] with a payment reference that is not yet
    stored appends one pending row with a fresh primary key, auto-renewal
    on and no dates, which a lookup by the reference then finds; with a
    reference that is already stored it raises [IntegrityError] and the
    tables are as before. *)
Theorem create_subscription_unique_reference (user_id : Z)
  (payment_id : string) (amount : Z) (w : World) :
  wf_subscriptions (subscriptions w) ->
  (~ In payment_id (map sub_payment_id (subscriptions w)) ->
   exists s w',
     create_subscription utc_clock user_id payment_id amount w = (Ok s, w')
     /\ subscriptions w' = subscriptions w ++ [s]
     /\ usages w' = usages w
     /\ wf_subscriptions (subscriptions w')
     /\ row_of_payment payment_id (subscriptions w') = Some s
     /\ ~ In (sub_id s) (map sub_id (subscriptions w))
     /\ sub_user_id s = user_id
     /\ sub_payment_id s = payment_id
     /\ sub_amount s = amount
     /\ sub_status s = "pending"
     /\ sub_is_auto_renewal s = true
     /\ sub_start_date s = None
     /\ sub_end_date s = None
     /\ sub_parent_payment_id s = None
     /\ sub_renewal_attempts s = 0
     /\ sub_last_renewal_attempt s = None
     /\ sub_created_at s = utc_clock (ticks w))
  /\ (In payment_id (map sub_payment_id (subscriptions w)) ->
      exists w',
        create_subscription utc_clock user_id payment_id amount w
        = (Raise IntegrityError, w')
        /\ subscriptions w' = subscriptions w
        /\ usages w' = usages w).
Proof.
  intros Hwf. unfold create_subscription. rewrite insert_subscription_run.
  cbn [sub_payment_id]. split.
  - intros Hn. rewrite existsb_payment_false by assumption.
    eexists; eexists. split; [reflexivity|]. cbn -[next_id].
    assert (Hwf' : wf_subscriptions (subscriptions w ++
              [{| sub_id := next_id (map sub_id (subscriptions w));
                  sub_user_id := user_id; sub_payment_id := payment_id;
                  sub_amount := amount; sub_currency := "RUB";
                  sub_status := "pending"; sub_start_date := None;
                  sub_end_date := None;
                  sub_created_at := utc_clock (ticks w);
                  sub_is_auto_renewal := true; sub_parent_payment_id := None;
                  sub_next_payment_date := None; sub_renewal_attempts := 0;
                  sub_last_renewal_attempt := None |}]))
      by (apply wf_subscriptions_snoc; auto).
    split; [reflexivity|]. split; [reflexivity|]. split; [exact Hwf'|].
    split.
    { apply (row_of_payment_In
               {| sub_id := next_id (map sub_id (subscriptions w));
                  sub_user_id := user_id; sub_payment_id := payment_id;
                  sub_amount := amount; sub_currency := "RUB";
                  sub_status := "pending"; sub_start_date := None;
                  sub_end_date := None;
                  sub_created_at := utc_clock (ticks w);
                  sub_is_auto_renewal := true; sub_parent_payment_id := None;
                  sub_next_payment_date := None; sub_renewal_attempts := 0;
                  sub_last_renewal_attempt := None |});
        [apply Hwf' | apply in_or_app; right; now left]. }
    split; [apply next_id_fresh|].
    repeat split.
  - intros Hin. rewrite existsb_payment_true by assumption.
    eexists. split; [reflexivity|]. now split.
Qed.

(** X2.  [create_renewal_subscription] with a payment reference that is
    not yet stored appends one pending row that copies the user, the
    amount, the currency and the auto-renewal flag of the old row, points
    to the old row's payment reference as its parent and starts with no
    attempt on record; every row already stored is kept as it is. *)
Theorem create_renewal_subscription_links_parent (old : UserSubscription)
  (payment_id : string) (w : World) :
  wf_subscriptions (subscriptions w) ->
  ~ In payment_id (map sub_payment_id (subscriptions w)) ->
  exists s w',
    create_renewal_subscription utc_clock old payment_id w = (Ok s, w')
    /\ subscriptions w' = subscriptions w ++ [s]
    /\ usages w' = usages w
    /\ wf_subscriptions (subscriptions w')
    /\ row_of_payment payment_id (subscriptions w') = Some s
    /\ (forall r, In r (subscriptions w) ->
          row_of (sub_id r) (subscriptions w') = Some r)
    /\ sub_user_id s = sub_user_id old
    /\ sub_amount s = sub_amount old
    /\ sub_currency s = sub_currency old
    /\ sub_is_auto_renewal s = sub_is_auto_renewal old
    /\ sub_parent_payment_id s = Some (sub_payment_id old)
    /\ sub_status s = "pending"
    /\ sub_end_date s = None
    /\ sub_renewal_attempts s = 0
    /\ sub_last_renewal_attempt s = None.
Proof.
  intros Hwf Hn. unfold create_renewal_subscription.
  rewrite insert_subscription_run. cbn [sub_payment_id].
  rewrite existsb_payment_false by assumption.
  eexists; eexists. split; [reflexivity|]. cbn -[next_id].
  match goal with
  | |- _ = subscriptions w ++ [?s] /\ _ =>
      assert (Hwf' : wf_subscriptions (subscriptions w ++ [s]))
        by (apply wf_subscriptions_snoc; auto);
      assert (Hin : In s (subscriptions w ++ [s]))
        by (apply in_or_app; right; now left);
      pose proof (row_of_payment_In s _ (proj2 Hwf') Hin) as Hrow
  end.
  split; [reflexivity|]. split; [reflexivity|]. split; [exact Hwf'|].
  split; [exact Hrow|].
  split.
  { intros r Hr. apply row_of_In; [apply Hwf'|].
    apply in_or_app. now left. }
  repeat split.
Qed.

End Inserting.

(** ** Subscription Store, beyond the claims *)

Section StoreOperations.

Variable config : Config.
Variable utc_clock : nat -> datetime.

Lemma activate_subscription_unknown_reference_gen (payment_id : string)
  (w : World) :
  ~ In payment_id (map sub_payment_id (subscriptions w)) ->
  activate_subscription config utc_clock payment_id w = (Ok None, w).
Proof.
  intros Hn. apply activate_subscription_missing.
  unfold select_by_payment_id, bind, gets.
  now rewrite (filter_key_absent sub_payment_id String.eqb string_eqb_spec).
Qed.

(** X3.  [activate_subscription] with a payment reference that no row
    carries returns [None] and leaves the world as it is: no row is
    written and the clock is not read. *)
Theorem activate_subscription_unknown_reference (payment_id : string)
  (w : World) :
  ~ In payment_id (map sub_payment_id (subscriptions w)) ->
  activate_subscription config utc_clock payment_id w = (Ok None, w).
Proof.
  exact (activate_subscription_unknown_reference_gen payment_id w).
Qed.

(** The outcome of [get_active_subscription] by the number of rows of the
    user that are succeeded with an end date after the reading. *)
Lemma get_active_subscription_cases (user_id : Z) (w : World) :
  let active :=
    filter (is_active user_id (utc_clock (ticks w))) (subscriptions w) in
  get_active_subscription utc_clock user_id w
  = (match active with
     | [] => Ok None
     | [s] => Ok (Some s)
     | _ :: _ :: _ => Raise MultipleResultsFound
     end, tick w).
Proof.
  cbv zeta. rewrite get_active_subscription_unfold.
  destruct (filter _ (subscriptions w)) as [|a [|b rest]]; reflexivity.
Qed.

(** X4.  [get_active_subscription] reads the clock once and writes
    nothing.  It returns [None] exactly when no row of the user is active
    at that reading, returns a row exactly when that row is the only
    active one, and raises [MultipleResultsFound] exactly when two or more
    are; a row it returns is stored, belongs to the user, has status
    succeeded and an end date after the reading. *)
Theorem get_active_subscription_outcome (user_id : Z) (w : World) :
  let now := utc_clock (ticks w) in
  let active := filter (is_active user_id now) (subscriptions w) in
  snd (get_active_subscription utc_clock user_id w) = tick w
  /\ (fst (get_active_subscription utc_clock user_id w) = Ok None
      <-> active = [])
  /\ (forall s, fst (get_active_subscription utc_clock user_id w) = Ok (Some s)
                <-> active = [s])
  /\ (fst (get_active_subscription utc_clock user_id w)
      = Raise MultipleResultsFound
      <-> (2 <= List.length active)%nat)
  /\ (forall s, fst (get_active_subscription utc_clock user_id w) = Ok (Some s) ->
        In s (subscriptions w)
        /\ sub_user_id s = user_id
        /\ sub_status s = "succeeded"
        /\ exists e, sub_end_date s = Some e /\ now < e).
Proof.
  cbv zeta. rewrite get_active_subscription_cases. cbn [fst snd].
  split; [reflexivity|].
  destruct (filter (is_active user_id (utc_clock (ticks w))) (subscriptions w))
    as [|a [|b rest]] eqn:F.
  - split; [tauto|]. split; [split; discriminate|].
    split; [split; [discriminate | simpl; lia]|]. discriminate.
  - split; [split; discriminate|].
    split; [intros s; split; intros H; inversion H; reflexivity|].
    split; [split; [discriminate | simpl; lia]|].
    intros s H. inversion H; subst s.
    assert (Ha : In a (filter (is_active user_id (utc_clock (ticks w)))
                         (subscriptions w))) by (rewrite F; now left).
    apply filter_In in Ha. destruct Ha as [Hin Hact].
    apply is_active_true in Hact. tauto.
  - split; [split; discriminate|].
    split; [intros s; split; discriminate|].
    split; [split; [simpl; lia | reflexivity]|]. discriminate.
Qed.

(** [cancel_subscription] on a stored row. *)
Lemma cancel_subscription_found (r : UserSubscription) (w : World) :
  wf_subscriptions (subscriptions w) -> In r (subscriptions w) ->
  cancel_subscription (sub_id r) w
  = (Ok true,
     set_subscriptions w
       (replace_subscription
          (set_is_auto_renewal (set_status r "canceled") false)
          (subscriptions w))).
Proof.
  intros Hwf Hin. unfold cancel_subscription, bind.
  now rewrite select_by_id_found.
Qed.

(** X5.  [cancel_subscription] on an id that no row carries returns false
    and changes nothing.  On a stored id it returns true, and from then on
    the row is not active at any time and is not a renewal candidate for
    any scan; if no other row of its user is active at the next reading,
    [get_active_subscription] for that user returns [None] at once, before
    the end date. *)
Theorem cancel_subscription_ends_access (r : UserSubscription) (w : World) :
  wf_subscriptions (subscriptions w) ->
  (forall subscription_id,
      ~ In subscription_id (map sub_id (subscriptions w)) ->
      cancel_subscription subscription_id w = (Ok false, w))
  /\ (In r (subscriptions w) ->
      exists r' w',
        cancel_subscription (sub_id r) w = (Ok true, w')
        /\ row_of (sub_id r) (subscriptions w') = Some r'
        /\ usages w' = usages w /\ ticks w' = ticks w /\ trace w' = trace w
        /\ (forall user_id now, is_active user_id now r' = false)
        /\ (forall check_date now, is_expiring check_date now r' = false)
        /\ ((forall x, In x (subscriptions w) -> sub_id x <> sub_id r ->
                       is_active (sub_user_id r) (utc_clock (ticks w)) x = false) ->
            fst (get_active_subscription utc_clock (sub_user_id r) w')
            = Ok None)).
Proof.
  intros Hwf. split.
  - intros k Hn. unfold cancel_subscription, select_by_id, bind, gets.
    now rewrite (filter_key_absent sub_id Z.eqb z_eqb_spec).
  - intros Hin. rewrite cancel_subscription_found by assumption.
    eexists; eexists. split; [reflexivity|]. cbn [subscriptions usages ticks trace set_subscriptions].
    split; [now apply row_of_replace_same|].
    do 3 (split; [reflexivity|]).
    split; [intros; unfold is_active; cbn; now rewrite andb_false_r|].
    split; [intros; unfold is_expiring; now cbn|].
    intros Hothers. rewrite get_active_subscription_cases. cbn [fst].
    cbn [subscriptions ticks set_subscriptions].
    rewrite filter_all_false; [reflexivity|].
    intros x Hx. apply In_replace_inv in Hx.
    destruct Hx as [-> | [Hx Hne]].
    + unfold is_active. cbn. now rewrite andb_false_r.
    + apply Hothers; assumption.
Qed.

(** X6.  [toggle_auto_renewal] when exactly one row of the user is active
    at the reading: the row gets the requested flag and keeps every other
    attribute, it is returned, and no other row changes.  When no row is
    active it returns [None] and writes nothing. *)
Theorem toggle_auto_renewal_sets_flag (user_id : Z) (enable : bool)
  (w : World) :
  let active :=
    filter (is_active user_id (utc_clock (ticks w))) (subscriptions w) in
  wf_subscriptions (subscriptions w) ->
  (forall s, active = [s] ->
     exists w',
       toggle_auto_renewal utc_clock user_id enable w
       = (Ok (Some (set_is_auto_renewal s enable)), w')
       /\ row_of (sub_id s) (subscriptions w')
          = Some (set_is_auto_renewal s enable)
       /\ (forall x, In x (subscriptions w) -> sub_id x <> sub_id s ->
             row_of (sub_id x) (subscriptions w') = Some x)
       /\ usages w' = usages w /\ trace w' = trace w)
  /\ (active = [] ->
      toggle_auto_renewal utc_clock user_id enable w = (Ok None, tick w)).
Proof.
  cbv zeta. intros Hwf. unfold toggle_auto_renewal, bind.
  rewrite get_active_subscription_cases. cbv zeta. split.
  - intros s F. rewrite F.
    assert (Hs : In s (subscriptions w)).
    { assert (H : In s (filter (is_active user_id (utc_clock (ticks w)))
                          (subscriptions w))) by (rewrite F; now left).
      now apply filter_In in H. }
    eexists. split; [reflexivity|].
    cbn [subscriptions usages trace set_subscriptions tick].
    split; [now apply row_of_replace_same|].
    split; [|now split].
    intros x Hx Hne. rewrite row_of_replace_other by (cbn; congruence).
    apply row_of_In; [apply Hwf | assumption].
  - intros F. now rewrite F.
Qed.

(** X7.  [update_renewal_attempt] on a stored id adds one to the row's
    attempt counter and stamps its last attempt with the clock reading,
    leaving its other attributes and all other rows as they are; on an id
    that no row carries it does nothing, not even read the clock. *)
Theorem update_renewal_attempt_records (r : UserSubscription) (w : World) :
  wf_subscriptions (subscriptions w) ->
  (forall subscription_id,
      ~ In subscription_id (map sub_id (subscriptions w)) ->
      update_renewal_attempt utc_clock subscription_id w = (Ok tt, w))
  /\ (In r (subscriptions w) ->
      exists r' w',
        update_renewal_attempt utc_clock (sub_id r) w = (Ok tt, w')
        /\ row_of (sub_id r) (subscriptions w') = Some r'
        /\ sub_renewal_attempts r' = sub_renewal_attempts r + 1
        /\ sub_last_renewal_attempt r' = Some (utc_clock (ticks w))
        /\ sub_status r' = sub_status r
        /\ sub_end_date r' = sub_end_date r
        /\ sub_is_auto_renewal r' = sub_is_auto_renewal r
        /\ sub_payment_id r' = sub_payment_id r
        /\ (forall x, In x (subscriptions w) -> sub_id x <> sub_id r ->
              row_of (sub_id x) (subscriptions w') = Some x)
        /\ List.length (subscriptions w') = List.length (subscriptions w)
        /\ usages w' = usages w /\ trace w' = trace w).
Proof.
  intros Hwf. split.
  - intros k Hn. unfold update_renewal_attempt, select_by_id, bind, gets.
    now rewrite (filter_key_absent sub_id Z.eqb z_eqb_spec).
  - intros Hin. unfold update_renewal_attempt, bind.
    rewrite select_by_id_found by assumption.
    eexists; eexists. split; [reflexivity|].
    cbn [subscriptions usages trace set_subscriptions].
    split; [now apply row_of_replace_same|].
    do 6 (split; [reflexivity|]).
    split.
    { intros x Hx Hne. rewrite row_of_replace_other by (cbn; congruence).
      apply row_of_In; [apply Hwf | assumption]. }
    split; [apply length_replace_subscription|]. now split.
Qed.

End StoreOperations.

Section RoundTrip.

Variable config : Config.
Variable utc_clock : nat -> datetime.

(** X8.  [create_subscription], [activate_subscription] and
    [get_active_subscription] in a row, for a payment reference not yet
    stored and a user with no other active row: provided the clock has not
    run past the new end date by the last reading, the query returns the
    new row, with status succeeded, [next_payment_date] equal to
    [end_date], and [end_date - start_date] equal to the configured
    duration plus the time between the two readings made by the
    activation. *)
Theorem create_activate_get_active (user_id : Z) (payment_id : string)
  (amount : Z) (w : World) :
  let t := ticks w in
  let duration := timedelta_days (SUBSCRIPTION_DAYS config) in
  wf_subscriptions (subscriptions w) ->
  ~ In payment_id (map sub_payment_id (subscriptions w)) ->
  (forall x, In x (subscriptions w) ->
             is_active user_id (utc_clock (S (S (S t)))) x = false) ->
  utc_clock (S (S (S t))) < utc_clock (S (S t)) + duration ->
  exists s w',
    (create_subscription utc_clock user_id payment_id amount ;;
     activate_subscription config utc_clock payment_id ;;
     get_active_subscription utc_clock user_id) w = (Ok (Some s), w')
    /\ In s (subscriptions w')
    /\ sub_payment_id s = payment_id
    /\ sub_user_id s = user_id
    /\ sub_status s = "succeeded"
    /\ sub_start_date s = Some (utc_clock (S t))
    /\ sub_end_date s = Some (utc_clock (S (S t)) + duration)
    /\ sub_next_payment_date s = sub_end_date s
    /\ (forall a b, sub_start_date s = Some a -> sub_end_date s = Some b ->
          b - a = duration + (utc_clock (S (S t)) - utc_clock (S t))).
Proof.
  cbv zeta. intros Hwf Hn Hothers Hclock.
  destruct (create_subscription_fresh utc_clock user_id payment_id amount w
              Hwf Hn)
    as (s0 & Hcreate & Hwf1' & Eid0 & Huser0 & Hpay0 & _).
  set (w1 := set_subscriptions (tick w) (subscriptions w ++ [s0])) in *.
  assert (Hrows1 : subscriptions w1 = subscriptions w ++ [s0]) by reflexivity.
  assert (Hwf1 : wf_subscriptions (subscriptions w1)) by exact Hwf1'.
  assert (Hid0 : ~ In (sub_id s0) (map sub_id (subscriptions w)))
    by (rewrite Eid0; apply next_id_fresh).
  assert (Hin1 : In s0 (subscriptions w1))
    by (rewrite Hrows1; apply in_or_app; right; now left).
  assert (Hticks1 : ticks w1 = S (ticks w)) by reflexivity.
  rewrite (bind_run _ _ _ _ _ Hcreate). rewrite <- Hpay0.
  rewrite (bind_run _ _ _ _ _
             (activate_subscription_found config utc_clock s0 w1 Hwf1 Hin1)).
  rewrite get_active_subscription_cases. cbv zeta.
  cbn [subscriptions ticks]. rewrite Hticks1, Hrows1.
  rewrite replace_subscription_app.
  rewrite replace_subscription_absent by (cbn; exact Hid0).
  rewrite filter_app, filter_all_false by assumption.
  cbn [replace_subscription map app]. cbn [stamped sub_id set_next_payment_date
    set_end_date set_start_date set_status]. rewrite Z.eqb_refl.
  cbn [filter].
  assert (Hact : is_active user_id (utc_clock (S (S (S (ticks w)))))
            (stamped config s0 (utc_clock (S (ticks w)))
               (utc_clock (S (S (ticks w))))) = true).
  { apply is_active_true. cbn. repeat split; auto.
    eexists. split; [reflexivity | exact Hclock]. }
  rewrite Hact.
  eexists; eexists. split; [reflexivity|].
  split; [apply in_or_app; right; now left|].
  cbn. repeat split; auto.
  intros a b Ha Hb. inversion Ha; inversion Hb; subst. lia.
Qed.

End RoundTrip.

(** ** Ordering by a column *)

Lemma In_insert_desc {A} (key : A -> Z) (x y : A) (l : list A) :
  In y (insert_desc key x l) <-> y = x \/ In y l.
Proof.
  induction l as [|h l IH]; simpl; [intuition congruence|].
  destruct (key h <? key x); simpl; [intuition congruence|].
  rewrite IH. intuition congruence.
Qed.

Lemma In_order_by_desc {A} (key : A -> Z) (y : A) (l : list A) :
  In y (order_by_desc key l) <-> In y l.
Proof.
  unfold order_by_desc. induction l as [|x l IH]; simpl; [tauto|].
  rewrite In_insert_desc, IH. intuition congruence.
Qed.

Lemma sorted_insert_desc {A} (key : A -> Z) (x : A) (l : list A) :
  sorted_desc key l -> sorted_desc key (insert_desc key x l).
Proof.
  induction l as [|h l IH]; simpl; intros Hs.
  - split; [intros y []|exact I].
  - destruct Hs as [Hh Hl]. destruct (key h <? key x) eqn:E; simpl.
    + apply Z.ltb_lt in E. split; [|split; assumption].
      intros y [<- | Hy]; [lia|]. specialize (Hh y Hy). lia.
    + apply Z.ltb_ge in E. split; [|now apply IH].
      intros y Hy. apply In_insert_desc in Hy.
      destruct Hy as [-> | Hy]; [assumption | now apply Hh].
Qed.

Lemma sorted_order_by_desc {A} (key : A -> Z) (l : list A) :
  sorted_desc key (order_by_desc key l).
Proof.
  unfold order_by_desc. induction l as [|x l IH]; simpl; [exact I|].
  now apply sorted_insert_desc.
Qed.

(** X9.  [get_last_subscription] writes nothing and never raises.  It
    returns [None] exactly when the user has no row; otherwise it returns
    a row of that user, of any status, whose [created_at] is the latest
    among the user's rows. *)
Theorem get_last_subscription_latest (user_id : Z) (w : World) :
  exists result,
    get_last_subscription user_id w = (Ok result, w)
    /\ (result = None <->
        forall r, In r (subscriptions w) -> sub_user_id r <> user_id)
    /\ (forall s, result = Some s ->
          In s (subscriptions w)
          /\ sub_user_id s = user_id
          /\ forall r, In r (subscriptions w) -> sub_user_id r = user_id ->
                       sub_created_at r <= sub_created_at s).
Proof.
  unfold get_last_subscription, bind, gets, ret. eexists.
  split; [reflexivity|].
  set (mine := filter (fun r => sub_user_id r =? user_id) (subscriptions w)).
  pose proof (sorted_order_by_desc sub_created_at mine) as Hsorted.
  assert (Hin : forall y, In y (order_by_desc sub_created_at mine) <->
                          In y (subscriptions w) /\ sub_user_id y = user_id).
  { intros y. rewrite In_order_by_desc. unfold mine.
    rewrite filter_In, Z.eqb_eq. tauto. }
  destruct (order_by_desc sub_created_at mine) as [|h t]; simpl.
  - split.
    + split; [|reflexivity]. intros _ r Hr E.
      apply (proj2 (Hin r)); auto.
    + discriminate.
  - split.
    + split; [discriminate|]. intros Hnone. exfalso.
      destruct (proj1 (Hin h) (or_introl eq_refl)) as [Hh Eh].
      now apply (Hnone h).
    + intros s Hs. inversion Hs; subst s.
      destruct (proj1 (Hin h) (or_introl eq_refl)) as [Hh Eh].
      split; [assumption|]. split; [assumption|].
      intros r Hr Er. destruct (proj2 (Hin r) (conj Hr Er)) as [<- | Hrt].
      * lia.
      * destruct Hsorted as [Hmax _]. now apply Hmax.
Qed.

(** ** Usage Ledger, beyond the claims *)

Section LedgerOperations.

Variable config : Config.
Variable utc_clock : nat -> datetime.

Lemma lookup_usage_absent (user_id : Z) (rows : list UserUsage) :
  (forall x, In x rows -> usage_user_id x <> user_id) ->
  lookup_usage user_id rows = None.
Proof.
  unfold lookup_usage. induction rows as [|x rows IH]; simpl; intros H;
    [reflexivity|].
  destruct (usage_user_id x =? user_id) eqn:E.
  - apply Z.eqb_eq in E. exfalso. now apply (H x (or_introl eq_refl)).
  - apply IH. intros y Hy. apply H. now right.
Qed.

Lemma lookup_usage_present (u : UserUsage) (rows : list UserUsage) :
  wf_usages rows -> In u rows ->
  lookup_usage (usage_user_id u) rows = Some u.
Proof.
  intros [_ Huser] Hin. unfold lookup_usage.
  now apply (find_key_unique usage_user_id Z.eqb z_eqb_spec).
Qed.

Lemma get_or_create_usage_existing (u : UserUsage) (w : World) :
  wf_usages (usages w) -> In u (usages w) ->
  get_or_create_usage utc_clock (usage_user_id u) w = (Ok u, w).
Proof.
  intros [_ Huser] Hin. unfold get_or_create_usage, bind, gets.
  now rewrite (filter_key_unique usage_user_id Z.eqb z_eqb_spec).
Qed.

Lemma get_or_create_usage_new (user_id : Z) (w : World) :
  (forall x, In x (usages w) -> usage_user_id x <> user_id) ->
  let u := {| usage_id := next_id (map usage_id (usages w));
              usage_user_id := user_id; photos_used := 0;
              questions_used := 0; last_reset := utc_clock (ticks w) |} in
  get_or_create_usage utc_clock user_id w
  = (Ok u, set_usages (tick w) (usages w ++ [u])).
Proof.
  intros Hnone. cbv zeta. unfold get_or_create_usage, bind, gets.
  rewrite filter_all_false; [reflexivity|].
  intros x Hx. apply Z.eqb_neq. now apply Hnone.
Qed.

Lemma user_row_or_none (user_id : Z) (rows : list UserUsage) :
  (exists u, In u rows /\ usage_user_id u = user_id)
  \/ (forall x, In x rows -> usage_user_id x <> user_id).
Proof.
  destruct (key_present_or_absent usage_user_id Z.eqb z_eqb_spec user_id rows)
    as [H | Hn]; [now left | right].
  intros x Hx E. apply Hn. rewrite <- E. now apply in_map.
Qed.

(** The record [get_or_create_usage] returns carries the counters on
    record for the user. *)
Lemma get_or_create_usage_counters (user_id : Z) (w w1 : World) (u : UserUsage) :
  wf_usages (usages w) ->
  get_or_create_usage utc_clock user_id w = (Ok u, w1) ->
  photos_used u = photos_of user_id w
  /\ questions_used u = questions_of user_id w
  /\ subscriptions w1 = subscriptions w
  /\ wf_usages (usages w1)
  /\ lookup_usage user_id (usages w1) = Some u.
Proof.
  intros Hwf Hrun. unfold photos_of, questions_of.
  destruct (get_or_create_usage_spec utc_clock user_id w Hwf)
    as (u' & w1' & Hrun' & Hwf1 & Hin1 & Hu & Hsubs & _).
  rewrite Hrun in Hrun'. inversion Hrun'; subst u' w1'. clear Hrun'.
  assert (Hlook1 : lookup_usage user_id (usages w1) = Some u)
    by (rewrite <- Hu; now apply lookup_usage_present).
  cut (photos_used u
       = match lookup_usage user_id (usages w) with
         | Some u0 => photos_used u0 | None => 0 end
       /\ questions_used u
          = match lookup_usage user_id (usages w) with
            | Some u0 => questions_used u0 | None => 0 end); [tauto|].
  destruct (user_row_or_none user_id (usages w)) as [[x [Hx Ex]] | Hnone].
  - rewrite <- Ex in Hrun. rewrite get_or_create_usage_existing in Hrun
      by assumption.
    inversion Hrun; subst x w1.
    rewrite <- Ex, lookup_usage_present by assumption. auto.
  - rewrite lookup_usage_absent by assumption.
    rewrite get_or_create_usage_new in Hrun by assumption.
    inversion Hrun. now split.
Qed.

(** X10.  [get_or_create_usage] is idempotent: the first call returns the
    user's record, creating it with zero counters if the user has none; a
    second call returns the same record and changes nothing, so no user
    ever gets a second record. *)
Theorem get_or_create_usage_idempotent (user_id : Z) (w : World) :
  wf_usages (usages w) ->
  exists u w1,
    get_or_create_usage utc_clock user_id w = (Ok u, w1)
    /\ get_or_create_usage utc_clock user_id w1 = (Ok u, w1)
    /\ usage_user_id u = user_id
    /\ filter (fun r => usage_user_id r =? user_id) (usages w1) = [u]
    /\ ((forall x, In x (usages w) -> usage_user_id x <> user_id) ->
        photos_used u = 0 /\ questions_used u = 0
        /\ last_reset u = utc_clock (ticks w)).
Proof.
  intros Hwf.
  destruct (get_or_create_usage_spec utc_clock user_id w Hwf)
    as (u & w1 & Hrun & Hwf1 & Hin1 & Hu & _).
  exists u, w1. split; [assumption|].
  split; [rewrite <- Hu; now apply get_or_create_usage_existing|].
  split; [assumption|]. split.
  - rewrite <- Hu.
    apply (filter_key_unique usage_user_id Z.eqb z_eqb_spec);
      [apply Hwf1 | assumption].
  - intros Hnone. rewrite get_or_create_usage_new in Hrun by assumption.
    inversion Hrun; subst u. now cbn.
Qed.

Lemma reset_usage_spec (user_id : Z) (w : World) :
  wf_usages (usages w) ->
  exists after w',
    reset_usage utc_clock user_id w = (Ok after, w')
    /\ lookup_usage user_id (usages w') = Some after
    /\ photos_used after = 0
    /\ questions_used after = 0
    /\ last_reset after = utc_clock (Nat.pred (ticks w'))
    /\ ((exists x, In x (usages w) /\ usage_user_id x = user_id) ->
        ticks w' = S (ticks w))
    /\ (forall other, other <> user_id ->
          lookup_usage other (usages w') = lookup_usage other (usages w))
    /\ subscriptions w' = subscriptions w
    /\ wf_usages (usages w').
Proof.
  intros Hwf.
  destruct (get_or_create_usage_spec utc_clock user_id w Hwf)
    as (u & w1 & Hrun & Hwf1 & Hin1 & Hu & Hsubs & _ & Hold & Hnew).
  unfold reset_usage. rewrite (bind_run _ _ _ _ _ Hrun).
  eexists; eexists. split; [reflexivity|].
  cbn [usages subscriptions ticks set_usages Nat.pred].
  split; [rewrite <- Hu; now apply lookup_replace_usage|].
  do 3 (split; [reflexivity|]).
  split.
  { intros [x [Hx Ex]]. destruct (Hold x Hx Ex) as [_ ->]. reflexivity. }
  split.
  { intros other Hne.
    rewrite lookup_replace_usage_other with (u := u); auto; [|congruence].
    destruct (user_row_or_none user_id (usages w)) as [[x [Hx Ex]] | Hnone].
    - destruct (Hold x Hx Ex) as [_ ->]. reflexivity.
    - destruct (Hnew Hnone) as (_ & _ & ->).
      unfold lookup_usage. rewrite find_snoc.
      destruct (find _ (usages w)); [reflexivity|].
      destruct (usage_user_id u =? other) eqn:E; [|reflexivity].
      apply Z.eqb_eq in E. congruence. }
  split; [assumption|].
  destruct Hwf1 as [Hid Huser]. split.
  - now rewrite map_usage_id_replace.
  - unfold replace_usage. rewrite map_map.
    erewrite map_ext_in; [exact Huser|].
    intros x Hx. cbn. destruct (usage_id x =? usage_id u) eqn:E; [|reflexivity].
    apply Z.eqb_eq in E. cbn. symmetry. f_equal.
    apply (key_injective_on usage_id) with (rows := usages w1); auto.
Qed.

(** X11.  [reset_usage] returns and stores the user's record with both
    counters at zero and [last_reset] set to the last clock reading made
    (the record is created first if the user has none, which takes one
    more reading); records of other users and the subscription table are
    not touched. *)
Theorem reset_usage_zeroes_counters (user_id : Z) (w : World) :
  wf_usages (usages w) ->
  exists after w',
    reset_usage utc_clock user_id w = (Ok after, w')
    /\ lookup_usage user_id (usages w') = Some after
    /\ photos_used after = 0
    /\ questions_used after = 0
    /\ last_reset after = utc_clock (Nat.pred (ticks w'))
    /\ ((exists x, In x (usages w) /\ usage_user_id x = user_id) ->
        ticks w' = S (ticks w))
    /\ (forall other, other <> user_id ->
          lookup_usage other (usages w') = lookup_usage other (usages w))
    /\ subscriptions w' = subscriptions w
    /\ wf_usages (usages w').
Proof. exact (reset_usage_spec user_id w). Qed.

End LedgerOperations.

(** ** The free quota *)

Section FreeQuota.

Variable config : Config.
Variable utc_clock : nat -> datetime.

(** A user none of whose rows has status succeeded has no active row,
    whatever the time. *)
Lemma no_succeeded_no_active (user_id : Z) (now : datetime)
  (rows : list UserSubscription) :
  (forall r, In r rows -> sub_user_id r = user_id ->
             sub_status r <> "succeeded") ->
  filter (is_active user_id now) rows = [].
Proof.
  intros H. apply filter_all_false. intros x Hx.
  destruct (is_active user_id now x) eqn:E; [|reflexivity].
  apply is_active_true in E. destruct E as (Eu & Es & _).
  exfalso. now apply (H x Hx Eu).
Qed.

Lemma increment_photos_counters (user_id : Z) (w : World) :
  wf_usages (usages w) ->
  exists after w',
    increment_photos utc_clock user_id w = (Ok after, w')
    /\ photos_of user_id w' = photos_of user_id w + 1
    /\ questions_of user_id w' = questions_of user_id w
    /\ subscriptions w' = subscriptions w
    /\ wf_usages (usages w').
Proof.
  intros Hwf.
  destruct (increment_photos_spec utc_clock user_id w Hwf)
    as (u & w1 & Hrun & Hinc & Hwf1 & Hin1 & Hu).
  destruct (get_or_create_usage_counters utc_clock user_id w w1 u Hwf Hrun)
    as (Hp & Hq & Hsubs & _ & _).
  eexists; eexists. split; [exact Hinc|].
  unfold photos_of, questions_of. cbn [usages subscriptions set_usages].
  rewrite <- Hu, lookup_replace_usage by auto. cbn.
  rewrite Hp, Hq. unfold photos_of, questions_of. rewrite Hu.
  repeat split; auto.
  - destruct Hwf1 as [Hid _]. now rewrite map_usage_id_replace.
  - destruct Hwf1 as [Hid Huser]. unfold replace_usage. rewrite map_map.
    erewrite map_ext_in; [exact Huser|].
    intros x Hx. cbn. destruct (usage_id x =? usage_id u) eqn:E; [|reflexivity].
    apply Z.eqb_eq in E. cbn. symmetry. f_equal.
    apply (key_injective_on usage_id) with (rows := usages w1); auto.
Qed.

Lemma increment_questions_counters (user_id : Z) (w : World) :
  wf_usages (usages w) ->
  exists after w',
    increment_questions utc_clock user_id w = (Ok after, w')
    /\ questions_of user_id w' = questions_of user_id w + 1
    /\ photos_of user_id w' = photos_of user_id w
    /\ subscriptions w' = subscriptions w
    /\ wf_usages (usages w').
Proof.
  intros Hwf.
  destruct (increment_questions_spec utc_clock user_id w Hwf)
    as (u & w1 & Hrun & Hinc & Hwf1 & Hin1 & Hu).
  destruct (get_or_create_usage_counters utc_clock user_id w w1 u Hwf Hrun)
    as (Hp & Hq & Hsubs & _ & _).
  eexists; eexists. split; [exact Hinc|].
  unfold photos_of, questions_of. cbn [usages subscriptions set_usages].
  rewrite <- Hu, lookup_replace_usage by auto. cbn.
  rewrite Hp, Hq. unfold photos_of, questions_of. rewrite Hu.
  repeat split; auto.
  - destruct Hwf1 as [Hid _]. now rewrite map_usage_id_replace.
  - destruct Hwf1 as [Hid Huser]. unfold replace_usage. rewrite map_map.
    erewrite map_ext_in; [exact Huser|].
    intros x Hx. cbn. destruct (usage_id x =? usage_id u) eqn:E; [|reflexivity].
    apply Z.eqb_eq in E. cbn. symmetry. f_equal.
    apply (key_injective_on usage_id) with (rows := usages w1); auto.
Qed.

Lemma times_increment_photos (user_id : Z) (k : nat) (w : World) :
  wf_usages (usages w) ->
  exists w',
    times k (increment_photos utc_clock user_id) w = (Ok tt, w')
    /\ photos_of user_id w' = photos_of user_id w + Z.of_nat k
    /\ questions_of user_id w' = questions_of user_id w
    /\ subscriptions w' = subscriptions w
    /\ wf_usages (usages w').
Proof.
  revert w. induction k as [|k IH]; intros w Hwf.
  - exists w. split; [reflexivity|]. split; [cbn; lia|]. auto.
  - destruct (increment_photos_counters user_id w Hwf)
      as (a & w1 & Hrun & Hp & Hq & Hs & Hwf1).
    destruct (IH w1 Hwf1) as (w' & Hrun' & Hp' & Hq' & Hs' & Hwf').
    exists w'. cbn [times]. rewrite (bind_run _ _ _ _ _ Hrun).
    split; [exact Hrun'|]. split; [lia|]. split; [congruence|].
    split; [congruence | assumption].
Qed.

Lemma times_increment_questions (user_id : Z) (k : nat) (w : World) :
  wf_usages (usages w) ->
  exists w',
    times k (increment_questions utc_clock user_id) w = (Ok tt, w')
    /\ questions_of user_id w' = questions_of user_id w + Z.of_nat k
    /\ photos_of user_id w' = photos_of user_id w
    /\ subscriptions w' = subscriptions w
    /\ wf_usages (usages w').
Proof.
  revert w. induction k as [|k IH]; intros w Hwf.
  - exists w. split; [reflexivity|]. split; [cbn; lia|]. auto.
  - destruct (increment_questions_counters user_id w Hwf)
      as (a & w1 & Hrun & Hp & Hq & Hs & Hwf1).
    destruct (IH w1 Hwf1) as (w' & Hrun' & Hp' & Hq' & Hs' & Hwf').
    exists w'. cbn [times]. rewrite (bind_run _ _ _ _ _ Hrun).
    split; [exact Hrun'|]. split; [lia|]. split; [congruence|].
    split; [congruence | assumption].
Qed.

(** The gate of a user without an active row reads the counters on record. *)
Lemma gate_without_subscription (user_id : Z) (w : World) :
  wf_usages (usages w) ->
  filter (is_active user_id (utc_clock (ticks w))) (subscriptions w) = [] ->
  fst (can_use_photo config utc_clock user_id w)
  = Ok (photos_of user_id w <? FREE_PHOTO_LIMIT config)
  /\ fst (can_ask_question config utc_clock user_id w)
     = Ok (questions_of user_id w <? FREE_QUESTION_LIMIT config).
Proof.
  intros Hwf Hnone.
  destruct (can_use_photo_free config utc_clock user_id w Hnone Hwf)
    as (u & w1 & Hrun & Hphoto & Hquestion).
  destruct (get_or_create_usage_counters utc_clock user_id (tick w) w1 u Hwf Hrun)
    as (Hp & Hq & _).
  rewrite Hphoto, Hquestion, Hp, Hq. now split.
Qed.

(** X12.  The free quota counts down.  For a user none of whose
    subscriptions has status succeeded, after [k] further calls of
    [increment_photos] the photo counter is [k] higher and
    [can_use_photo] answers whether it is still below
    [FREE_PHOTO_LIMIT]; the question counter and [can_ask_question] are
    not affected.  The same holds for [increment_questions] with the two
    exchanged. *)
Theorem free_quota_countdown (user_id : Z) (k : nat) (w : World) :
  wf_usages (usages w) ->
  (forall r, In r (subscriptions w) -> sub_user_id r = user_id ->
             sub_status r <> "succeeded") ->
  (exists w',
     times k (increment_photos utc_clock user_id) w = (Ok tt, w')
     /\ photos_of user_id w' = photos_of user_id w + Z.of_nat k
     /\ fst (can_use_photo config utc_clock user_id w')
        = Ok (photos_of user_id w + Z.of_nat k <? FREE_PHOTO_LIMIT config)
     /\ fst (can_ask_question config utc_clock user_id w')
        = Ok (questions_of user_id w <? FREE_QUESTION_LIMIT config))
  /\ (exists w',
        times k (increment_questions utc_clock user_id) w = (Ok tt, w')
        /\ questions_of user_id w' = questions_of user_id w + Z.of_nat k
        /\ fst (can_ask_question config utc_clock user_id w')
           = Ok (questions_of user_id w + Z.of_nat k
                 <? FREE_QUESTION_LIMIT config)
        /\ fst (can_use_photo config utc_clock user_id w')
           = Ok (photos_of user_id w <? FREE_PHOTO_LIMIT config)).
Proof.
  intros Hwf Hfree. split.
  - destruct (times_increment_photos user_id k w Hwf)
      as (w' & Hrun & Hp & Hq & Hs & Hwf').
    exists w'. split; [exact Hrun|]. split; [exact Hp|].
    destruct (gate_without_subscription user_id w' Hwf') as [Hg1 Hg2].
    { rewrite Hs. now apply no_succeeded_no_active. }
    rewrite Hg1, Hg2, Hp, Hq. now split.
  - destruct (times_increment_questions user_id k w Hwf)
      as (w' & Hrun & Hq & Hp & Hs & Hwf').
    exists w'. split; [exact Hrun|]. split; [exact Hq|].
    destruct (gate_without_subscription user_id w' Hwf') as [Hg1 Hg2].
    { rewrite Hs. now apply no_succeeded_no_active. }
    rewrite Hg1, Hg2, Hp, Hq. now split.
Qed.

End FreeQuota.

(** ** Callback data *)

Lemma split_on_free (c : ascii) (s : string) :
  free_of c s -> split_on c s = [s].
Proof.
  induction s as [|a s IH]; simpl; [reflexivity|].
  intros [Hne Hs]. apply Ascii.eqb_neq in Hne. rewrite Hne, IH by assumption.
  reflexivity.
Qed.

Lemma split_on_first (c : ascii) (a b : string) :
  free_of c a ->
  split_on c (String.append a (String c b)) = a :: split_on c b.
Proof.
  induction a as [|x a IH]; simpl.
  - intros _. now rewrite Ascii.eqb_refl.
  - intros [Hne Ha]. apply Ascii.eqb_neq in Hne.
    rewrite Hne, IH by assumption. reflexivity.
Qed.

(** X13.  The payment reference put on a button comes back from
    [callback.data.split("_")[2]] unchanged when it contains no
    underscore; a reference with an underscore comes back cut at its first
    underscore; and data with fewer than two underscores gives no
    reference at all (an [IndexError]). *)
Theorem callback_payment_id_round_trip (payment_id : string) :
  (free_of "_"%char payment_id ->
   callback_payment_id (check_payment_data payment_id) = Some payment_id
   /\ callback_payment_id (cancel_payment_data payment_id) = Some payment_id
   /\ callback_payment_id (cancel_renewal_data payment_id) = Some payment_id)
  /\ (forall head rest,
        free_of "_"%char head ->
        payment_id = String.append head (String "_"%char rest) ->
        callback_payment_id (check_payment_data payment_id) = Some head
        /\ callback_payment_id (cancel_payment_data payment_id) = Some head
        /\ callback_payment_id (cancel_renewal_data payment_id) = Some head)
  /\ (forall data head,
        free_of "_"%char data ->
        callback_payment_id data = None
        /\ (free_of "_"%char head ->
            callback_payment_id (String.append head (String "_"%char data))
            = None)).
Proof.
  unfold callback_payment_id, check_payment_data, cancel_payment_data,
    cancel_renewal_data.
  split; [|split].
  - intros Hfree. cbn. rewrite split_on_free by assumption.
    now repeat split.
  - intros head rest Hfree ->. cbn. rewrite split_on_first by assumption.
    now repeat split.
  - intros data head Hdata. rewrite split_on_free by assumption.
    split; [reflexivity|]. intros Hhead.
    rewrite split_on_first, split_on_free by assumption. reflexivity.
Qed.

(** ** The payment callbacks *)

Lemma try_run {A} (m : M A) (w : World) (r : Outcome A) (w' : World) :
  m w = (r, w') -> try_ m w = (Ok r, w').
Proof. intros H. unfold try_. now rewrite H. Qed.

Section PaymentCallbacks.

Variable config : Config.
Variable utc_clock : nat -> datetime.
Variable yookassa : Gateway.

Lemma check_payment_status_run (payment_id : string) (w : World) :
  check_payment_status yookassa payment_id w
  = (Ok match gw_find_one yookassa (trace w ++ [PaymentFindOne payment_id])
                payment_id with
        | Ok (Some payment) =>
            if String.eqb (po_status payment) "canceled" then None
            else Some (po_status payment)
        | _ => None
        end,
     logged w (PaymentFindOne payment_id)).
Proof.
  assert (Hfind : Payment_find_one yookassa payment_id w
                  = (gw_find_one yookassa (trace w ++ [PaymentFindOne payment_id])
                       payment_id,
                     logged w (PaymentFindOne payment_id))) by reflexivity.
  unfold check_payment_status. unfold bind at 1. unfold try_ at 1.
  unfold bind at 1. rewrite Hfind.
  destruct (gw_find_one yookassa _ payment_id) as [[p|]|e]; try reflexivity.
  destruct (String.eqb (po_status p) "canceled"); reflexivity.
Qed.

Lemma reset_usage_trace (user_id : Z) (w : World) :
  wf_usages (usages w) ->
  trace (snd (reset_usage utc_clock user_id w)) = trace w.
Proof.
  intros Hwf.
  destruct (get_or_create_usage_spec utc_clock user_id w Hwf)
    as (u & w1 & Hrun & _ & _ & _ & _ & Htrace & _).
  unfold reset_usage. rewrite (bind_run _ _ _ _ _ Hrun). exact Htrace.
Qed.

(** X14.  [handle_check_payment] when the gateway reports the payment as
    succeeded and a row carries the reference: whatever the row's current
    status, the row is stamped as by [activate_subscription], the usage
    counters of its user are reset to zero, and the user is told the new
    end date; the only gateway call is the status lookup and no other row
    changes. *)
Theorem handle_check_payment_activates_and_resets (r : UserSubscription)
  (payment : PaymentObject) (w : World) :
  wf_subscriptions (subscriptions w) ->
  wf_usages (usages w) ->
  In r (subscriptions w) ->
  gw_find_one yookassa (trace w ++ [PaymentFindOne (sub_payment_id r)])
    (sub_payment_id r) = Ok (Some payment) ->
  po_status payment = "succeeded" ->
  let r' := stamped config r (utc_clock (ticks w)) (utc_clock (S (ticks w))) in
  exists w',
    handle_check_payment config utc_clock yookassa (sub_payment_id r) w
    = (Ok tt, w')
    /\ row_of (sub_id r) (subscriptions w') = Some r'
    /\ sub_status r' = "succeeded"
    /\ (forall x, In x (subscriptions w) -> sub_id x <> sub_id r ->
          row_of (sub_id x) (subscriptions w') = Some x)
    /\ photos_of (sub_user_id r) w' = 0
    /\ questions_of (sub_user_id r) w' = 0
    /\ trace w'
       = trace w
         ++ [PaymentFindOne (sub_payment_id r);
             CallbackReply (SubscriptionActivated (sub_end_date r'))].
Proof.
  intros Hwf Hwfu Hin Hfound Hstatus. cbv zeta.
  set (w1 := logged w (PaymentFindOne (sub_payment_id r))).
  set (r' := stamped config r (utc_clock (ticks w)) (utc_clock (S (ticks w)))).
  set (w2 := {| subscriptions := replace_subscription r' (subscriptions w1);
                usages := usages w1; ticks := S (S (ticks w1));
                trace := trace w1 |}).
  assert (Hact : activate_subscription config utc_clock (sub_payment_id r) w1
                 = (Ok (Some r'), w2))
    by (now apply (activate_subscription_found config utc_clock r w1)).
  destruct (reset_usage_spec utc_clock (sub_user_id r) w2 Hwfu)
    as (after & w3 & Hreset & Hlook & Hp & Hq & _ & _ & _ & Hsubs3 & _).
  pose proof (reset_usage_trace (sub_user_id r) w2 Hwfu) as Htrace3.
  rewrite Hreset in Htrace3. cbn [snd] in Htrace3.
  exists (logged w3 (CallbackReply (SubscriptionActivated (sub_end_date r')))).
  split.
  - unfold handle_check_payment. unfold bind at 1. unfold try_ at 1.
    rewrite (bind_run _ _ _ _ _ (check_payment_status_run _ w)).
    rewrite Hfound, Hstatus.
    change ("succeeded" =? "canceled")%string with false. cbv iota.
    rewrite String.eqb_refl.
    change (sub_user_id r) with (sub_user_id r') in Hreset.
    rewrite (bind_run _ _ _ _ _ Hact). cbv beta iota.
    rewrite (bind_run _ _ _ _ _ Hreset). reflexivity.
  - cbn [subscriptions trace logged]. rewrite Hsubs3, Htrace3.
    cbn [subscriptions trace w2 w1 logged].
    split; [now apply row_of_replace_same|].
    split; [reflexivity|].
    split.
    { intros x Hx Hne. rewrite row_of_replace_other by (cbn; congruence).
      apply row_of_In; [apply Hwf | assumption]. }
    unfold photos_of, questions_of. cbn [usages logged].
    rewrite Hlook, Hp, Hq.
    repeat split. now rewrite <- app_assoc.
Qed.

(** X15.  [handle_check_payment] when the payment is not reported as
    succeeded changes neither table and answers once: "still processing"
    for the statuses pending and waiting_for_capture, "not passed" for any
    other status and when the lookup fails.  When the payment is reported
    as succeeded but no row carries the reference, nothing is written and
    nothing is answered. *)
Theorem handle_check_payment_without_activation (payment_id : string)
  (w : World) :
  let w1 := logged w (PaymentFindOne payment_id) in
  let found := gw_find_one yookassa (trace w1) payment_id in
  (forall payment, found = Ok (Some payment) ->
     po_status payment <> "succeeded" ->
     handle_check_payment config utc_clock yookassa payment_id w
     = (Ok tt,
        logged w1
          (CallbackReply
             (if String.eqb (po_status payment) "pending"
                 || String.eqb (po_status payment) "waiting_for_capture"
              then PaymentStillProcessing else PaymentNotPassed))))
  /\ ((found = Ok None \/ exists e, found = Raise e) ->
      handle_check_payment config utc_clock yookassa payment_id w
      = (Ok tt, logged w1 (CallbackReply PaymentNotPassed)))
  /\ (forall payment, found = Ok (Some payment) ->
        po_status payment = "succeeded" ->
        ~ In payment_id (map sub_payment_id (subscriptions w)) ->
        handle_check_payment config utc_clock yookassa payment_id w
        = (Ok tt, w1)).
Proof.
  cbv zeta. unfold handle_check_payment.
  change (trace (logged w (PaymentFindOne payment_id)))
    with (trace w ++ [PaymentFindOne payment_id]).
  split; [|split].
  - intros payment Hfound Hstatus.
    unfold bind at 1. unfold try_ at 1.
    rewrite (bind_run _ _ _ _ _ (check_payment_status_run _ w)).
    rewrite Hfound.
    destruct (String.eqb_spec (po_status payment) "canceled") as [Hc|Hc].
    + rewrite Hc. reflexivity.
    + apply String.eqb_neq in Hstatus. rewrite Hstatus.
      destruct (String.eqb (po_status payment) "pending"
                || String.eqb (po_status payment) "waiting_for_capture");
        reflexivity.
  - intros Hfail.
    unfold bind at 1. unfold try_ at 1.
    rewrite (bind_run _ _ _ _ _ (check_payment_status_run _ w)).
    destruct Hfail as [-> | [e ->]]; reflexivity.
  - intros payment Hfound Hstatus Hn.
    unfold bind at 1. unfold try_ at 1.
    rewrite (bind_run _ _ _ _ _ (check_payment_status_run _ w)).
    rewrite Hfound, Hstatus.
    change ("succeeded" =? "canceled")%string with false. cbv iota.
    rewrite String.eqb_refl.
    rewrite (bind_run _ _ _ _ _
               (activate_subscription_unknown_reference_gen config utc_clock
                  payment_id (logged w (PaymentFindOne payment_id)) Hn)).
    reflexivity.
Qed.

(** X16.  [handle_cancel_payment] cancels a payment only while it is
    pending: a pending row gets status canceled and keeps every other
    attribute; a row with any other status (a paid subscription in
    particular) and all other rows are left as they are; an unknown
    reference changes nothing.  It never raises. *)
Theorem handle_cancel_payment_only_pending (payment_id : string) (w : World) :
  wf_subscriptions (subscriptions w) ->
  (forall r, In r (subscriptions w) -> sub_payment_id r = payment_id ->
     sub_status r = "pending" ->
     handle_cancel_payment payment_id w
     = (Ok tt,
        set_subscriptions w
          (replace_subscription (set_status r "canceled") (subscriptions w)))
     /\ row_of (sub_id r)
          (replace_subscription (set_status r "canceled") (subscriptions w))
        = Some (set_status r "canceled")
     /\ (forall x, In x (subscriptions w) -> sub_id x <> sub_id r ->
           row_of (sub_id x)
             (replace_subscription (set_status r "canceled") (subscriptions w))
           = Some x))
  /\ (forall r, In r (subscriptions w) -> sub_payment_id r = payment_id ->
        sub_status r <> "pending" ->
        handle_cancel_payment payment_id w = (Ok tt, w))
  /\ (~ In payment_id (map sub_payment_id (subscriptions w)) ->
      handle_cancel_payment payment_id w = (Ok tt, w)).
Proof.
  intros Hwf. unfold handle_cancel_payment. split; [|split].
  - intros r Hin <- Hst. split; [|split].
    + unfold bind at 1. unfold try_ at 1.
      rewrite (bind_run _ _ _ _ _ (select_by_payment_id_found r w Hwf Hin)).
      rewrite Hst. reflexivity.
    + now apply row_of_replace_same.
    + intros x Hx Hne. rewrite row_of_replace_other by (cbn; congruence).
      apply row_of_In; [apply Hwf | assumption].
  - intros r Hin <- Hst.
    unfold bind at 1. unfold try_ at 1.
    rewrite (bind_run _ _ _ _ _ (select_by_payment_id_found r w Hwf Hin)).
    apply String.eqb_neq in Hst. rewrite Hst. reflexivity.
  - intros Hn.
    unfold bind at 1. unfold try_ at 1.
    unfold select_by_payment_id, bind, gets.
    rewrite (filter_key_absent sub_payment_id String.eqb string_eqb_spec)
      by assumption.
    reflexivity.
Qed.

End PaymentCallbacks.

(** ** The subscription callbacks *)

Lemma or_reply_ok {A} (error : A) (body : M A) (w : World) (a : A) (w' : World) :
  body w = (Ok a, w') -> or_reply error body w = (Ok a, w').
Proof. intros H. unfold or_reply, bind, try_. now rewrite H. Qed.

Lemma or_reply_raise {A} (error : A) (body : M A) (w : World) (e : exn)
  (w' : World) :
  body w = (Raise e, w') -> or_reply error body w = (Ok error, w').
Proof. intros H. unfold or_reply, bind, try_. now rewrite H. Qed.

Lemma active_row_facts (user_id : Z) (now : datetime) (s : UserSubscription)
  (rows : list UserSubscription) :
  filter (is_active user_id now) rows = [s] ->
  In s rows /\ sub_user_id s = user_id /\ sub_status s = "succeeded"
  /\ exists e, sub_end_date s = Some e /\ now < e.
Proof.
  intros F.
  assert (H : In s (filter (is_active user_id now) rows))
    by (rewrite F; now left).
  apply filter_In in H. destruct H as [Hin Hact].
  apply is_active_true in Hact. tauto.
Qed.

Section SubscriptionCallbacks.

Variable config : Config.
Variable utc_clock : nat -> datetime.
Variable yookassa : Gateway.
Variable users : list User.

Lemma get_by_telegram_id_one (from_user : Z) (u : User) (w : World) :
  filter (fun x => user_telegram_id x =? from_user) users = [u] ->
  get_by_telegram_id users from_user w = (Ok (Some u), w).
Proof. intros F. unfold get_by_telegram_id. now rewrite F. Qed.

(** X17.  [handle_cancel_renewal] never cancels anything: whatever the
    callback data and the tables, it answers with the error text and
    leaves both tables as they are, because the handler raises before its
    first query is sent.  A renewal row keeps its status and the row of
    its parent payment keeps its auto-renewal flag. *)
Theorem handle_cancel_renewal_never_cancels (data : string) (w : World) :
  handle_cancel_renewal data w = (Ok CancelRenewalError, w).
Proof.
  unfold handle_cancel_renewal.
  destruct (callback_payment_id data) as [payment_id|].
  - now apply or_reply_raise with (e := NameError).
  - now apply or_reply_raise with (e := IndexError).
Qed.

(** X18.  [handle_toggle_auto_renewal] for a user with exactly one active
    row: the row's auto-renewal flag is inverted, every other attribute
    and every other row is kept, and the user is told the new setting and
    the end date. *)
Theorem handle_toggle_auto_renewal_inverts_flag (from_user : Z) (u : User)
  (s : UserSubscription) (w : World) :
  wf_subscriptions (subscriptions w) ->
  filter (fun x => user_telegram_id x =? from_user) users = [u] ->
  filter (is_active (user_id u) (utc_clock (ticks w))) (subscriptions w) = [s] ->
  filter (is_active (user_id u) (utc_clock (S (ticks w)))) (subscriptions w)
  = [s] ->
  let s' := set_is_auto_renewal s (negb (sub_is_auto_renewal s)) in
  exists w' end_date,
    handle_toggle_auto_renewal utc_clock users from_user w
    = (Ok (AutoRenewalSwitched (negb (sub_is_auto_renewal s)) end_date), w')
    /\ sub_end_date s = Some end_date
    /\ row_of (sub_id s) (subscriptions w') = Some s'
    /\ (forall x, In x (subscriptions w) -> sub_id x <> sub_id s ->
          row_of (sub_id x) (subscriptions w') = Some x)
    /\ usages w' = usages w /\ trace w' = trace w.
Proof.
  intros Hwf Hu F0 F1. cbv zeta.
  destruct (active_row_facts _ _ _ _ F0) as (Hin & _ & _ & e & He & _).
  eexists. exists e. split.
  - unfold handle_toggle_auto_renewal. apply or_reply_ok.
    rewrite (bind_run _ _ _ _ _ (get_by_telegram_id_one from_user u w Hu)).
    unfold bind at 1. rewrite get_active_subscription_cases. cbv zeta.
    rewrite F0. cbv beta iota zeta.
    unfold toggle_auto_renewal. unfold bind at 1. unfold bind at 1.
    rewrite get_active_subscription_cases. cbv zeta.
    cbn [subscriptions ticks tick]. rewrite F1. cbv beta iota.
    unfold bind at 1. unfold commit_subscription, modify at 1.
    cbv beta iota. unfold ret at 1. cbv beta iota.
    change (sub_end_date (set_is_auto_renewal s (negb (sub_is_auto_renewal s))))
      with (sub_end_date s).
    rewrite He. reflexivity.
  - split; [assumption|].
    cbn [subscriptions usages trace set_subscriptions tick].
    split; [now apply row_of_replace_same|].
    split; [|now split].
    intros x Hx Hne. rewrite row_of_replace_other by (cbn; congruence).
    apply row_of_In; [apply Hwf | assumption].
Qed.

(** X19.  [handle_confirm_cancel_subscription] for a user with exactly one
    active row: the row gets status canceled, so it is active at no time
    from then on, although the text sent promises access until the end
    date; its auto-renewal flag and its dates are kept, and so is every
    other row. *)
Theorem confirm_cancel_subscription_ends_access (from_user : Z) (u : User)
  (s : UserSubscription) (w : World) :
  wf_subscriptions (subscriptions w) ->
  filter (fun x => user_telegram_id x =? from_user) users = [u] ->
  filter (is_active (user_id u) (utc_clock (ticks w))) (subscriptions w) = [s] ->
  let s' := set_status s "canceled" in
  exists w' end_date,
    confirm_cancel_subscription utc_clock users from_user w
    = (Ok (SubscriptionCanceled end_date), w')
    /\ sub_end_date s = Some end_date
    /\ utc_clock (ticks w) < end_date
    /\ row_of (sub_id s) (subscriptions w') = Some s'
    /\ (forall user now, is_active user now s' = false)
    /\ sub_is_auto_renewal s' = sub_is_auto_renewal s
    /\ sub_end_date s' = sub_end_date s
    /\ (forall x, In x (subscriptions w) -> sub_id x <> sub_id s ->
          row_of (sub_id x) (subscriptions w') = Some x)
    /\ usages w' = usages w /\ trace w' = trace w.
Proof.
  intros Hwf Hu F0. cbv zeta.
  destruct (active_row_facts _ _ _ _ F0) as (Hin & _ & _ & e & He & Hlt).
  eexists. exists e. split.
  - unfold confirm_cancel_subscription. apply or_reply_ok.
    rewrite (bind_run _ _ _ _ _ (get_by_telegram_id_one from_user u w Hu)).
    unfold bind at 1. rewrite get_active_subscription_cases. cbv zeta.
    rewrite F0. cbv beta iota zeta.
    unfold bind at 1. unfold commit_subscription, modify at 1.
    cbv beta iota.
    change (sub_end_date (set_status s "canceled")) with (sub_end_date s).
    rewrite He. reflexivity.
  - split; [assumption|]. split; [assumption|].
    cbn [subscriptions usages trace set_subscriptions tick].
    split; [now apply row_of_replace_same|].
    split; [intros; unfold is_active; cbn; now rewrite andb_false_r|].
    do 2 (split; [reflexivity|]).
    split; [|now split].
    intros x Hx Hne. rewrite row_of_replace_other by (cbn; congruence).
    apply row_of_In; [apply Hwf | assumption].
Qed.

End SubscriptionCallbacks.

(** ** Payment Gateway Adapter, beyond the claims *)

Section AdapterOperations.

Variable yookassa : Gateway.

Lemma create_payment_run (amount : Z) (description return_url : string)
  (metadata : option Metadata) (w : World) :
  let data := payment_request amount description return_url metadata in
  create_payment yookassa amount description return_url metadata w
  = (Ok (payment_info_of amount
           (gw_create yookassa (trace w ++ [PaymentCreate data]) data)),
     logged w (PaymentCreate data)).
Proof.
  cbv zeta. unfold create_payment, bind. cbv zeta.
  fold (payment_request amount description return_url metadata).
  rewrite try_Payment_create. unfold payment_info_of.
  destruct (gw_create yookassa _ _) as [p|e]; [|reflexivity].
  destruct (po_confirmation_url p); reflexivity.
Qed.

(** X20.  [create_payment] never raises, makes exactly one gateway call
    and writes to no table.  It returns a payment exactly when the gateway
    returned one that carries a confirmation address; the payment returned
    has the gateway's id, status and address and the amount that was
    asked for.  A gateway error and a payment without confirmation address
    both give [None]. *)
Theorem create_payment_outcome (amount : Z) (description return_url : string)
  (metadata : option Metadata) (w : World) :
  let data := payment_request amount description return_url metadata in
  let answer := gw_create yookassa (trace w ++ [PaymentCreate data]) data in
  exists result,
    create_payment yookassa amount description return_url metadata w
    = (Ok result, logged w (PaymentCreate data))
    /\ (forall info, result = Some info <->
          exists payment url,
            answer = Ok payment
            /\ po_confirmation_url payment = Some url
            /\ info = {| pi_id := po_id payment;
                         pi_status := po_status payment;
                         pi_confirmation_url := Some url;
                         pi_amount := amount |})
    /\ (result = None <->
        (exists e, answer = Raise e)
        \/ exists payment, answer = Ok payment
                           /\ po_confirmation_url payment = None).
Proof.
  cbv zeta. rewrite create_payment_run. cbv zeta.
  eexists. split; [reflexivity|]. unfold payment_info_of.
  destruct (gw_create yookassa _ _) as [p|e].
  - destruct (po_confirmation_url p) as [url|] eqn:E.
    + split.
      * intros info. split.
        -- intros H. inversion H. exists p, url. auto.
        -- intros (p' & url' & Hp & Hu & ->). inversion Hp; subst p'.
           rewrite E in Hu. inversion Hu. reflexivity.
      * split; [discriminate|].
        intros [[e He] | (p' & Hp & Hu)]; [discriminate|].
        inversion Hp; subst p'. congruence.
    + split.
      * intros info. split; [discriminate|].
        intros (p' & url' & Hp & Hu & _). inversion Hp; subst p'. congruence.
      * split; [|reflexivity]. intros _. right. exists p. auto.
  - split.
    + intros info. split; [discriminate|].
      intros (p' & url' & Hp & _). discriminate.
    + split; [|reflexivity]. intros _. left. now exists e.
Qed.

Lemma create_recurrent_payment_charged (amount : Z)
  (description return_url parent_payment_id : string)
  (metadata : option Metadata) (parent payment : PaymentObject)
  (method_id : string) (w : World) :
  gw_find_one yookassa (trace w ++ [PaymentFindOne parent_payment_id])
    parent_payment_id = Ok (Some parent) ->
  po_payment_method parent = Some method_id ->
  gw_create yookassa
    (trace w ++ [PaymentFindOne parent_payment_id;
                 PaymentCreate (recurrent_request amount description method_id
                                  metadata)])
    (recurrent_request amount description method_id metadata) = Ok payment ->
  create_recurrent_payment yookassa amount description return_url
    parent_payment_id metadata w
  = (Ok (Some {| pi_id := po_id payment; pi_status := po_status payment;
                 pi_confirmation_url := po_confirmation_url payment;
                 pi_amount := amount |}),
     logged (logged w (PaymentFindOne parent_payment_id))
       (PaymentCreate (recurrent_request amount description method_id
                         metadata))).
Proof.
  intros Hfound Hmethod Hcreate.
  unfold create_recurrent_payment, bind.
  rewrite try_Payment_find_one, Hfound, Hmethod. cbv zeta.
  fold (recurrent_request amount description method_id metadata).
  rewrite try_Payment_create. cbn [trace logged].
  rewrite <- app_assoc. cbn [app]. now rewrite Hcreate.
Qed.

(** X21.  [create_recurrent_payment] when the parent payment has a stored
    method and the gateway accepts the charge: the request names that
    method, asks to keep it for later and carries no return address; the
    result has the gateway's id and status and the amount asked for, and
    its confirmation address is the gateway's, possibly none.  Two gateway
    calls are made, the lookup and the charge, and no table is written. *)
Theorem create_recurrent_payment_charges_stored_method (amount : Z)
  (description return_url parent_payment_id : string)
  (metadata : option Metadata) (parent payment : PaymentObject)
  (method_id : string) (w : World) :
  let w1 := logged w (PaymentFindOne parent_payment_id) in
  let data := recurrent_request amount description method_id metadata in
  let w2 := logged w1 (PaymentCreate data) in
  gw_find_one yookassa (trace w1) parent_payment_id = Ok (Some parent) ->
  po_payment_method parent = Some method_id ->
  gw_create yookassa (trace w2) data = Ok payment ->
  create_recurrent_payment yookassa amount description return_url
    parent_payment_id metadata w
  = (Ok (Some {| pi_id := po_id payment; pi_status := po_status payment;
                 pi_confirmation_url := po_confirmation_url payment;
                 pi_amount := amount |}),
     w2)
  /\ pd_payment_method_id data = Some method_id
  /\ pd_save_payment_method data = true
  /\ pd_return_url data = None
  /\ pd_amount data = amount
  /\ gateway_calls (trace w2)
     = gateway_calls (trace w)
       ++ [PaymentFindOne parent_payment_id; PaymentCreate data].
Proof.
  cbv zeta. intros Hfound Hmethod Hcreate.
  split; [|repeat split].
  - apply create_recurrent_payment_charged with (parent := parent);
      [exact Hfound | exact Hmethod |].
    cbn [trace logged] in Hcreate. rewrite <- app_assoc in Hcreate.
    exact Hcreate.
  - cbn [trace logged]. rewrite !gateway_calls_app. cbn.
    now rewrite <- app_assoc.
Qed.

(** X22.  [create_recurrent_payment] never raises and writes to no table.
    Its first gateway call is the lookup of the parent payment, and it
    makes at most three gateway calls in all (lookup, charge, and an
    ordinary payment when the charge raises). *)
Theorem create_recurrent_payment_never_raises (amount : Z)
  (description return_url parent_payment_id : string)
  (metadata : option Metadata) (w : World) :
  exists result calls,
    create_recurrent_payment yookassa amount description return_url
      parent_payment_id metadata w
    = (Ok result, with_trace w (trace w ++ calls))
    /\ hd_error calls = Some (PaymentFindOne parent_payment_id)
    /\ gateway_calls calls = calls
    /\ (List.length calls <= 3)%nat
    /\ (forall info, result = Some info -> pi_amount info = amount).
Proof.
  unfold create_recurrent_payment, bind. rewrite try_Payment_find_one.
  destruct (gw_find_one yookassa _ parent_payment_id) as [[parent|]|e].
  - destruct (po_payment_method parent) as [method_id|].
    + cbv zeta. rewrite try_Payment_create.
      destruct (gw_create yookassa _ _) as [payment|e].
      * eexists. eexists (_ :: _ :: nil). split.
        { unfold ret, logged, with_trace. cbn [trace subscriptions usages ticks].
          rewrite <- app_assoc. reflexivity. }
        cbn. repeat split; auto. intros info H. now inversion H.
      * rewrite create_payment_run. cbv zeta.
        eexists. eexists (_ :: _ :: _ :: nil). split.
        { unfold logged, with_trace. cbn [trace subscriptions usages ticks].
          rewrite <- !app_assoc. reflexivity. }
        cbn. repeat split; auto. intros info H.
        unfold payment_info_of in H.
        destruct (gw_create yookassa _ _) as [p|]; [|discriminate].
        destruct (po_confirmation_url p); [|discriminate]. now inversion H.
    + eexists. eexists (_ :: nil). split; [reflexivity|].
      cbn. repeat split; auto. discriminate.
  - eexists. eexists (_ :: nil). split; [reflexivity|].
    cbn. repeat split; auto. discriminate.
  - rewrite create_payment_run. cbv zeta.
    eexists. eexists (_ :: _ :: nil). split.
    { unfold logged, with_trace. cbn [trace subscriptions usages ticks].
      rewrite <- !app_assoc. reflexivity. }
    cbn. repeat split; auto. intros info H.
    unfold payment_info_of in H.
    destruct (gw_create yookassa _ _) as [p|]; [|discriminate].
    destruct (po_confirmation_url p); [|discriminate]. now inversion H.
Qed.

End AdapterOperations.

(** ** Subscribing *)

Lemma get_last_subscription_some (user_id : Z) (s : UserSubscription)
  (w : World) :
  In s (subscriptions w) -> sub_user_id s = user_id ->
  exists last, get_last_subscription user_id w = (Ok (Some last), w).
Proof.
  intros Hin Hu. unfold get_last_subscription, bind, gets, ret.
  assert (H : In s (order_by_desc sub_created_at
                      (filter (fun r => sub_user_id r =? user_id)
                         (subscriptions w)))).
  { apply In_order_by_desc. apply filter_In. split; [assumption|].
    now apply Z.eqb_eq. }
  destruct (order_by_desc sub_created_at _) as [|h t]; [contradiction|].
  now exists h.
Qed.

Section Subscribing.

Variable config : Config.
Variable utc_clock : nat -> datetime.
Variable yookassa : Gateway.
Variable users : list User.

(** X23.  [handle_subscribe] for a known user.  With an active row the
    user is told the end date and nothing else happens: no gateway call,
    no write.  Without one, the bot's name is asked and one payment
    request for [SUBSCRIPTION_PRICE] is sent.  If the gateway returns a
    payment with a new reference and a confirmation address, one pending
    row for the user with that reference and that price is appended, and
    the offer shows the remaining free quota (never below zero), the
    address and the two buttons carrying the reference; the first button
    is always labelled as a renewal, because the latest subscription is
    looked up after the new row is stored.  If the gateway gives no such
    payment, the user is told so and no row is added. *)
Theorem handle_subscribe_outcome (callback_bot : Bot) (from_user : Z)
  (u : User) (username : string) (w : World) :
  wf_subscriptions (subscriptions w) ->
  wf_usages (usages w) ->
  filter (fun x => user_telegram_id x =? from_user) users = [u] ->
  bot_get_me callback_bot = Ok username ->
  let active :=
    filter (is_active (user_id u) (utc_clock (ticks w))) (subscriptions w) in
  let data := subscribe_request config u username in
  let answer :=
    gw_create yookassa (trace w ++ [BotGetMe; PaymentCreate data]) data in
  (forall s end_date, active = [s] -> sub_end_date s = Some end_date ->
     handle_subscribe config utc_clock yookassa users callback_bot from_user w
     = (Ok (AlreadySubscribed end_date), tick w))
  /\ (forall payment url,
        active = [] ->
        answer = Ok payment ->
        po_confirmation_url payment = Some url ->
        ~ In (po_id payment) (map sub_payment_id (subscriptions w)) ->
        exists s w',
          handle_subscribe config utc_clock yookassa users callback_bot
            from_user w
          = (Ok (PaymentOffer
                   (Z.max 0 (FREE_PHOTO_LIMIT config - photos_of (user_id u) w))
                   (Z.max 0 (FREE_QUESTION_LIMIT config
                             - questions_of (user_id u) w))
                   true (Some url)
                   (check_payment_data (po_id payment))
                   (cancel_payment_data (po_id payment))), w')
          /\ subscriptions w' = subscriptions w ++ [s]
          /\ sub_user_id s = user_id u
          /\ sub_payment_id s = po_id payment
          /\ sub_amount s = SUBSCRIPTION_PRICE config
          /\ sub_status s = "pending"
          /\ trace w' = trace w ++ [BotGetMe; PaymentCreate data])
  /\ (active = [] ->
      payment_info_of (SUBSCRIPTION_PRICE config) answer = None ->
      exists w',
        handle_subscribe config utc_clock yookassa users callback_bot
          from_user w
        = (Ok PaymentNotCreated, w')
        /\ subscriptions w' = subscriptions w
        /\ trace w' = trace w ++ [BotGetMe; PaymentCreate data]).
Proof.
  intros Hwf Hwfu Hu Hme. cbv zeta.
  split; [|split].
  - intros s e F He. unfold handle_subscribe. apply or_reply_ok.
    rewrite (bind_run _ _ _ _ _ (get_by_telegram_id_one users from_user u w Hu)).
    unfold bind at 1. rewrite get_active_subscription_cases. cbv zeta.
    rewrite F. cbv beta iota. now rewrite He.
  - intros payment url F Hanswer Hurl Hfresh.
    destruct (get_or_create_usage_spec utc_clock (user_id u) (tick w) Hwfu)
      as (usage & w2 & Husage & _ & _ & _ & Hsubs2 & Htrace2 & _).
    destruct (get_or_create_usage_counters utc_clock (user_id u) (tick w) w2
                usage Hwfu Husage) as (Hp & Hq & _).
    set (w3 := logged w2 BotGetMe).
    set (data := subscribe_request config u username) in *.
    set (w4 := logged w3 (PaymentCreate data)).
    assert (Htrace4 : trace w4 = trace w ++ [BotGetMe; PaymentCreate data]).
    { unfold w4, w3. cbn [trace logged]. rewrite Htrace2. cbn [trace tick].
      now rewrite <- app_assoc. }
    assert (Hsubs4 : subscriptions w4 = subscriptions w)
      by (unfold w4, w3; cbn [subscriptions logged]; now rewrite Hsubs2).
    assert (Hwf4 : wf_subscriptions (subscriptions w4)) by now rewrite Hsubs4.
    assert (Hfresh4 : ~ In (po_id payment)
                          (map sub_payment_id (subscriptions w4)))
      by now rewrite Hsubs4.
    destruct (create_subscription_fresh utc_clock (user_id u) (po_id payment)
                (SUBSCRIPTION_PRICE config) w4 Hwf4 Hfresh4)
      as (s & Hcreate & _ & _ & Hsu & Hsp & Hsa & Hss).
    set (w5 := set_subscriptions (tick w4) (subscriptions w4 ++ [s])) in *.
    destruct (get_last_subscription_some (user_id u) s w5) as [last Hlast].
    { unfold w5. cbn [subscriptions set_subscriptions].
      apply in_or_app. right. now left. }
    { exact Hsu. }
    exists s, w5. split.
    + unfold handle_subscribe. apply or_reply_ok.
      rewrite (bind_run _ _ _ _ _
                 (get_by_telegram_id_one users from_user u w Hu)).
      unfold bind at 1. rewrite get_active_subscription_cases. cbv zeta.
      rewrite F. cbv beta iota.
      rewrite (bind_run _ _ _ _ _ Husage). cbv zeta.
      assert (Hget : get_me callback_bot w2 = (Ok username, w3))
        by (unfold get_me, bind, emit, modify; cbv beta iota; now rewrite Hme).
      rewrite (bind_run _ _ _ _ _ Hget).
      assert (Hpay : create_payment yookassa (SUBSCRIPTION_PRICE config)
                       (subscription_description config)
                       (String.append "https://t.me/" username)
                       (Some [("user_id", MInt (user_id u));
                              ("telegram_id", MInt (user_telegram_id u))]) w3
                     = (Ok (Some {| pi_id := po_id payment;
                                    pi_status := po_status payment;
                                    pi_confirmation_url := Some url;
                                    pi_amount := SUBSCRIPTION_PRICE config |}),
                        w4)).
      { rewrite create_payment_run. cbv zeta.
        fold (subscribe_request config u username). fold data. fold w4.
        change (trace w3 ++ [PaymentCreate data]) with (trace w4).
        rewrite Htrace4, Hanswer. unfold payment_info_of. now rewrite Hurl. }
      rewrite (bind_run _ _ _ _ _ Hpay). cbv beta iota.
      cbn [pi_id pi_amount pi_confirmation_url].
      rewrite (bind_run _ _ _ _ _ Hcreate).
      rewrite (bind_run _ _ _ _ _ Hlast). cbv zeta.
      rewrite Hp, Hq. unfold photos_of, questions_of. reflexivity.
    + unfold w5. cbn [subscriptions trace set_subscriptions tick].
      rewrite Hsubs4, Htrace4. repeat split; assumption.
  - intros F Hnone.
    destruct (get_or_create_usage_spec utc_clock (user_id u) (tick w) Hwfu)
      as (usage & w2 & Husage & _ & _ & _ & Hsubs2 & Htrace2 & _).
    set (w3 := logged w2 BotGetMe).
    set (data := subscribe_request config u username) in *.
    set (w4 := logged w3 (PaymentCreate data)).
    assert (Htrace4 : trace w4 = trace w ++ [BotGetMe; PaymentCreate data]).
    { unfold w4, w3. cbn [trace logged]. rewrite Htrace2. cbn [trace tick].
      now rewrite <- app_assoc. }
    exists w4. split.
    + unfold handle_subscribe. apply or_reply_ok.
      rewrite (bind_run _ _ _ _ _
                 (get_by_telegram_id_one users from_user u w Hu)).
      unfold bind at 1. rewrite get_active_subscription_cases. cbv zeta.
      rewrite F. cbv beta iota.
      rewrite (bind_run _ _ _ _ _ Husage). cbv zeta.
      assert (Hget : get_me callback_bot w2 = (Ok username, w3))
        by (unfold get_me, bind, emit, modify; cbv beta iota; now rewrite Hme).
      rewrite (bind_run _ _ _ _ _ Hget).
      assert (Hpay : create_payment yookassa (SUBSCRIPTION_PRICE config)
                       (subscription_description config)
                       (String.append "https://t.me/" username)
                       (Some [("user_id", MInt (user_id u));
                              ("telegram_id", MInt (user_telegram_id u))]) w3
                     = (Ok None, w4)).
      { rewrite create_payment_run. cbv zeta.
        fold (subscribe_request config u username). fold data. fold w4.
        change (trace w3 ++ [PaymentCreate data]) with (trace w4).
        rewrite Htrace4. now rewrite Hnone. }
      rewrite (bind_run _ _ _ _ _ Hpay). reflexivity.
    + split; [|exact Htrace4].
      unfold w4, w3. cbn [subscriptions logged]. now rewrite Hsubs2.
Qed.

End Subscribing.

(** ** Renewal Scheduler, beyond the claims *)

Section RenewalPaths.

Variable config : Config.
Variable utc_clock : nat -> datetime.
Variable yookassa : Gateway.

Lemma update_renewal_attempt_found (r : UserSubscription) (w : World) :
  wf_subscriptions (subscriptions w) -> In r (subscriptions w) ->
  update_renewal_attempt utc_clock (sub_id r) w
  = (Ok tt,
     set_subscriptions (tick w)
       (replace_subscription (attempt_recorded r (utc_clock (ticks w)))
          (subscriptions w))).
Proof.
  intros Hwf Hin. unfold update_renewal_attempt, bind.
  rewrite select_by_id_found by assumption. reflexivity.
Qed.

(** X24.  [process_renewal] for a row that has passed both gates, when no
    bot handle has been set: it returns without any external call and
    without writing; the renewal is not attempted and no attempt is
    recorded. *)
Theorem process_renewal_without_bot (self : RenewalService)
  (s : UserSubscription) (w w1 : World) :
  past_gates utc_clock s w w1 ->
  bot self = None ->
  process_renewal config utc_clock yookassa self s w = (Ok tt, w1)
  /\ subscriptions w1 = subscriptions w
  /\ usages w1 = usages w
  /\ trace w1 = trace w.
Proof.
  intros Hgates Hbot. split.
  - unfold process_renewal.
    assert (E3 : (3 <=? sub_renewal_attempts s) = false)
      by (apply Z.leb_gt; apply Hgates).
    rewrite E3, (cooldown_check_passed utc_clock s w w1) by assumption.
    now rewrite Hbot.
  - destruct Hgates as [_ Hgate].
    destruct (sub_last_renewal_attempt s); [destruct Hgate as [_ ->]|subst w1];
      now repeat split.
Qed.

(** X25.  [process_renewal] for a stored row that has passed both gates,
    when a bot handle is set: the bot is asked its name and the call then
    raises, the bot's own exception or, when the bot has answered,
    [MissingGreenlet] from reading [subscription.user] for the payment's
    metadata.  No gateway call is made and nothing is written by the call
    itself; the scan catches the exception and records an attempt on the
    row (counter plus one, last attempt stamped), leaving every other row
    as it is. *)
Theorem process_renewal_aborts_before_gateway (self : RenewalService)
  (s : UserSubscription) (b : Bot) (w w1 : World) :
  wf_subscriptions (subscriptions w) ->
  In s (subscriptions w) ->
  past_gates utc_clock s w w1 ->
  bot self = Some b ->
  process_renewal config utc_clock yookassa self s w
  = (Raise match bot_get_me b with
           | Ok _ => MissingGreenlet
           | Raise e => e
           end,
     logged w1 BotGetMe)
  /\ exists w',
       (r <- try_ (process_renewal config utc_clock yookassa self s) ;;
        match r with
        | Ok _ => ret tt
        | Raise _ => update_renewal_attempt utc_clock (sub_id s)
        end) w = (Ok tt, w')
       /\ row_of (sub_id s) (subscriptions w')
          = Some (attempt_recorded s (utc_clock (ticks w1)))
       /\ (forall x, In x (subscriptions w) -> sub_id x <> sub_id s ->
             row_of (sub_id x) (subscriptions w') = Some x)
       /\ List.length (subscriptions w') = List.length (subscriptions w)
       /\ usages w' = usages w
       /\ trace w' = trace w ++ [BotGetMe].
Proof.
  intros Hwf Hin Hgates Hbot.
  assert (Hrun : process_renewal config utc_clock yookassa self s w
                 = (Raise match bot_get_me b with
                          | Ok _ => MissingGreenlet
                          | Raise e => e
                          end,
                    logged w1 BotGetMe)).
  { rewrite (process_renewal_past_gates config utc_clock yookassa self s w w1)
      by assumption.
    now rewrite Hbot. }
  split; [exact Hrun|].
  assert (Hw1 : subscriptions w1 = subscriptions w /\ usages w1 = usages w
                /\ trace w1 = trace w).
  { destruct Hgates as [_ Hgate].
    destruct (sub_last_renewal_attempt s); [destruct Hgate as [_ ->]|subst w1];
      now repeat split. }
  destruct Hw1 as (Hs1 & Hu1 & Ht1).
  set (w2 := logged w1 BotGetMe).
  assert (Hwf2 : wf_subscriptions (subscriptions w2))
    by (unfold w2; cbn [subscriptions logged]; now rewrite Hs1).
  assert (Hin2 : In s (subscriptions w2))
    by (unfold w2; cbn [subscriptions logged]; now rewrite Hs1).
  eexists. split.
  - unfold bind at 1. unfold try_ at 1. rewrite Hrun. fold w2.
    apply (update_renewal_attempt_found s w2 Hwf2 Hin2).
  - cbn [subscriptions usages trace set_subscriptions tick].
    unfold w2. cbn [subscriptions usages trace ticks logged].
    rewrite Hs1, Hu1, Ht1.
    split; [now apply row_of_replace_same|].
    split.
    { intros x Hx Hne. rewrite row_of_replace_other by (cbn; congruence).
      apply row_of_In; [apply Hwf | assumption]. }
    split; [apply length_replace_subscription|].
    now split.
Qed.

(** X26.  The renewal service renews nothing.  Whatever the tables, the
    gateway and the bot, one scan adds no row and removes none, changes no
    attribute of a row other than its attempt counter and its last
    attempt, leaves the usage table as it is, makes no gateway call and
    sends no message: all it logs are questions to the bot for its name.
    The same holds for any number of turns of the polling loop. *)
Theorem check_and_renew_subscriptions_renews_nothing (self : RenewalService)
  (w : World) :
  let w' :=
    snd (check_and_renew_subscriptions config utc_clock yookassa self w) in
  Forall2 attempts_only (subscriptions w) (subscriptions w')
  /\ map sub_id (subscriptions w') = map sub_id (subscriptions w)
  /\ usages w' = usages w
  /\ (exists n, trace w' = trace w ++ repeat BotGetMe n)
  /\ gateway_calls (trace w') = gateway_calls (trace w)
  /\ messages (trace w') = messages (trace w)
  /\ forall n,
       attempts_and_names w (snd (start config utc_clock yookassa n self w)).
Proof.
  cbv zeta.
  pose proof (check_and_renew_subscriptions_frame config utc_clock yookassa
                self w) as H.
  destruct (attempts_and_names_quiet _ _ H) as (Hgw & Hmsg & _).
  destruct H as (Hrows & Husage & Htrace).
  split; [exact Hrows|].
  split.
  { clear - Hrows. induction Hrows as [|x y l l' Hxy _ IH]; [reflexivity|].
    cbn. rewrite IH. f_equal. rewrite <- Hxy. now destruct x. }
  split; [exact Husage|]. split; [exact Htrace|].
  split; [exact Hgw|]. split; [exact Hmsg|].
  intros n. apply start_frame.
Qed.

End RenewalPaths.

(** ** The scan never raises *)

Create HintDb keeps.

Section KeepsUniqueIds.

Lemma keeps_ret {A} (P : World -> Prop) (a : A) : keeps P (ret a).
Proof. intros w H. exact H. Qed.

Lemma keeps_raise {A} (P : World -> Prop) (e : exn) : keeps P (@raise A e).
Proof. intros w H. exact H. Qed.

Lemma keeps_gets {A} (P : World -> Prop) (f : World -> A) : keeps P (gets f).
Proof. intros w H. exact H. Qed.

Lemma keeps_bind {A B} (P : World -> Prop) (m : M A) (k : A -> M B) :
  keeps P m -> (forall a, keeps P (k a)) -> keeps P (bind m k).
Proof.
  intros Hm Hk w H. unfold bind. specialize (Hm w H).
  destruct (m w) as [[a|e] w1]; cbn [snd] in *.
  - now apply Hk.
  - assumption.
Qed.

Lemma keeps_try {A} (P : World -> Prop) (m : M A) :
  keeps P m -> keeps P (try_ m).
Proof.
  intros Hm w H. unfold try_. specialize (Hm w H).
  now destruct (m w) as [r w1].
Qed.

Lemma keeps_scalar_one_or_none {A} (P : World -> Prop) (rows : list A) :
  keeps P (scalar_one_or_none rows).
Proof.
  destruct rows as [|a [|b rest]]; cbn;
    auto using keeps_ret, keeps_raise.
Qed.

Lemma keeps_for_each {A} (P : World -> Prop) (l : list A)
  (body : A -> M unit) :
  (forall x, keeps P (body x)) -> keeps P (for_each l body).
Proof.
  intros Hb. induction l as [|x l IH]; cbn [for_each].
  - apply keeps_ret.
  - apply keeps_bind; auto.
Qed.

Variable config : Config.
Variable utc_clock : nat -> datetime.
Variable yookassa : Gateway.

Lemma keeps_ids_utcnow : keeps unique_ids (utcnow utc_clock).
Proof. intros w H. exact H. Qed.

Lemma keeps_ids_emit (e : Event) : keeps unique_ids (emit e).
Proof. intros w H. exact H. Qed.

Lemma keeps_ids_external {A} (e : Event) (answer : list Event -> Outcome A) :
  keeps unique_ids (external e answer).
Proof. intros w H. exact H. Qed.

Lemma keeps_ids_get_me (b : Bot) : keeps unique_ids (get_me b).
Proof. intros w H. exact H. Qed.

Lemma keeps_ids_commit (s : UserSubscription) :
  keeps unique_ids (commit_subscription s).
Proof.
  intros w H. unfold unique_ids in *. cbn.
  now rewrite map_sub_id_replace.
Qed.

Lemma keeps_ids_insert (row : Z -> datetime -> UserSubscription) :
  (forall new_id created, sub_id (row new_id created) = new_id) ->
  keeps unique_ids (insert_subscription utc_clock row).
Proof.
  intros Hrow w H. rewrite insert_subscription_run. cbv zeta.
  destruct (existsb _ (subscriptions w)); cbn [snd]; [exact H|].
  unfold unique_ids in *. cbn [subscriptions set_subscriptions].
  rewrite map_app. cbn [map]. rewrite Hrow.
  apply NoDup_snoc; [assumption | apply next_id_fresh].
Qed.

#[local] Hint Resolve keeps_ret keeps_raise keeps_gets keeps_try
  keeps_scalar_one_or_none keeps_ids_utcnow keeps_ids_emit keeps_ids_external
  keeps_ids_get_me keeps_ids_commit : keeps.

Ltac keeps_step :=
  match goal with
  | |- keeps _ (bind _ _) => apply keeps_bind; [|intros ?]
  | |- keeps _ (try_ _) => apply keeps_try
  | |- keeps _ (match ?x with _ => _ end) => destruct x
  | |- keeps _ _ => solve [auto with keeps]
  end.

Ltac keeps_auto := repeat keeps_step.

Lemma keeps_ids_select_by_payment_id (payment_id : string) :
  keeps unique_ids (select_by_payment_id payment_id).
Proof. unfold select_by_payment_id. keeps_auto. Qed.

Lemma keeps_ids_select_by_id (subscription_id : Z) :
  keeps unique_ids (select_by_id subscription_id).
Proof. unfold select_by_id. keeps_auto. Qed.

#[local] Hint Resolve keeps_ids_select_by_payment_id keeps_ids_select_by_id
  : keeps.

Lemma keeps_ids_activate_subscription (payment_id : string) :
  keeps unique_ids (activate_subscription config utc_clock payment_id).
Proof. unfold activate_subscription. keeps_auto. Qed.

Lemma keeps_ids_create_renewal_subscription (old : UserSubscription)
  (payment_id : string) :
  keeps unique_ids (create_renewal_subscription utc_clock old payment_id).
Proof.
  unfold create_renewal_subscription. apply keeps_ids_insert. reflexivity.
Qed.

Lemma keeps_ids_update_renewal_attempt (subscription_id : Z) :
  keeps unique_ids (update_renewal_attempt utc_clock subscription_id).
Proof. unfold update_renewal_attempt. keeps_auto. Qed.

Lemma keeps_ids_create_payment (amount : Z) (description return_url : string)
  (metadata : option Metadata) :
  keeps unique_ids
    (create_payment yookassa amount description return_url metadata).
Proof. unfold create_payment, Payment_create. cbv zeta. keeps_auto. Qed.

#[local] Hint Resolve keeps_ids_activate_subscription
  keeps_ids_create_renewal_subscription keeps_ids_update_renewal_attempt
  keeps_ids_create_payment : keeps.

Lemma keeps_ids_create_recurrent_payment (amount : Z)
  (description return_url parent_payment_id : string)
  (metadata : option Metadata) :
  keeps unique_ids
    (create_recurrent_payment yookassa amount description return_url
       parent_payment_id metadata).
Proof.
  unfold create_recurrent_payment, Payment_find_one, Payment_create.
  cbv zeta. keeps_auto.
Qed.

Lemma keeps_ids_subscription_user (s : UserSubscription) :
  keeps unique_ids (subscription_user s).
Proof. apply keeps_raise. Qed.

Lemma keeps_ids_send_message (chat_id : Z) (text : Notice) :
  keeps unique_ids (send_message chat_id text).
Proof. apply keeps_ids_emit. Qed.

#[local] Hint Resolve keeps_ids_subscription_user keeps_ids_send_message
  : keeps.

Lemma keeps_ids_log_notification_error (s : UserSubscription) :
  keeps unique_ids (log_notification_error s).
Proof. unfold log_notification_error. keeps_auto. Qed.

#[local] Hint Resolve keeps_ids_log_notification_error : keeps.

Lemma keeps_ids_notify_success (self : RenewalService) (s : UserSubscription) :
  keeps unique_ids (notify_user_renewal_success config self s).
Proof. unfold notify_user_renewal_success. cbv zeta. keeps_auto. Qed.

Lemma keeps_ids_notify_pending (self : RenewalService) (s : UserSubscription)
  (info : PaymentInfo) :
  keeps unique_ids (notify_user_renewal_pending self s info).
Proof. unfold notify_user_renewal_pending. keeps_auto. Qed.

Lemma keeps_ids_notify_failed (self : RenewalService) (s : UserSubscription) :
  keeps unique_ids (notify_user_renewal_failed self s).
Proof. unfold notify_user_renewal_failed. keeps_auto. Qed.

#[local] Hint Resolve keeps_ids_create_recurrent_payment
  keeps_ids_notify_success keeps_ids_notify_pending keeps_ids_notify_failed
  : keeps.

Lemma keeps_ids_process_renewal (self : RenewalService) (s : UserSubscription) :
  keeps unique_ids
    (process_renewal config utc_clock yookassa self s).
Proof. unfold process_renewal. keeps_auto. Qed.

(** With unique primary keys [update_renewal_attempt] returns. *)
Lemma update_renewal_attempt_returns (subscription_id : Z) (w : World) :
  unique_ids w ->
  fst (update_renewal_attempt utc_clock subscription_id w) = Ok tt.
Proof.
  intros H. unfold update_renewal_attempt, select_by_id, bind, gets.
  destruct (filter_key_cases sub_id Z.eqb z_eqb_spec subscription_id
              (subscriptions w) H) as [[E _] | [r [_ [_ E]]]];
    rewrite E; reflexivity.
Qed.

Lemma for_each_returns {A} (P : World -> Prop) (l : list A)
  (body : A -> M unit) :
  (forall x w, P w -> fst (body x w) = Ok tt /\ P (snd (body x w))) ->
  forall w, P w ->
    fst (for_each l body w) = Ok tt /\ P (snd (for_each l body w)).
Proof.
  intros Hb. induction l as [|x l IH]; intros w H; cbn [for_each].
  - now split.
  - unfold bind. destruct (Hb x w H) as [Hok HP].
    destruct (body x w) as [r w1]. cbn [fst snd] in Hok, HP. subst r.
    now apply IH.
Qed.

Lemma renew_one_returns (self : RenewalService) (s : UserSubscription)
  (w : World) :
  unique_ids w ->
  fst ((r <- try_ (process_renewal config utc_clock yookassa self
                     s) ;;
        match r with
        | Ok _ => ret tt
        | Raise _ => update_renewal_attempt utc_clock (sub_id s)
        end) w) = Ok tt
  /\ unique_ids
       (snd ((r <- try_ (process_renewal config utc_clock yookassa self s) ;;
              match r with
              | Ok _ => ret tt
              | Raise _ => update_renewal_attempt utc_clock (sub_id s)
              end) w)).
Proof.
  intros H. unfold bind, try_.
  pose proof (keeps_ids_process_renewal self s w H) as Hp.
  destruct (process_renewal config utc_clock yookassa self s w)
    as [[[]|e] w1]; cbn [snd] in Hp; cbv beta iota.
  - now split.
  - split.
    + now apply update_renewal_attempt_returns.
    + now apply keeps_ids_update_renewal_attempt.
Qed.

(** X27.  On a subscription table with unique primary keys one scan of
    the scheduler always returns: whatever the gateway and the bot answer
    or raise while a candidate is processed, the exception is caught and
    the recording of the attempt that follows cannot raise in turn.  The
    keys stay unique and the usage table is not written; hence every turn
    of the polling loop of [start] returns as well. *)
Theorem check_and_renew_subscriptions_always_returns (self : RenewalService)
  (w : World) :
  unique_ids w ->
  fst (check_and_renew_subscriptions config utc_clock yookassa self w) = Ok tt
  /\ unique_ids
       (snd (check_and_renew_subscriptions config utc_clock yookassa self w))
  /\ usages (snd (check_and_renew_subscriptions config utc_clock yookassa self w)) = usages w
  /\ forall n,
       fst (start config utc_clock yookassa n self w) = Ok tt.
Proof.
  intros H.
  assert (Hscan : forall w0, unique_ids w0 ->
            fst (check_and_renew_subscriptions config utc_clock yookassa self w0) = Ok tt
            /\ unique_ids
                 (snd (check_and_renew_subscriptions config utc_clock yookassa self w0))).
  { intros w0 H0. unfold check_and_renew_subscriptions. unfold bind at 1 3.
    rewrite get_expiring_subscriptions_window.
    apply (for_each_returns unique_ids); [|exact H0].
    intros x w2 H2. now apply renew_one_returns. }
  destruct (Hscan w H) as [Hok Hids].
  split; [exact Hok|]. split; [exact Hids|].
  split; [apply check_and_renew_subscriptions_same_usages|].
  intros n. revert w H Hok Hids. induction n as [|n IH]; intros w H Hok Hids;
    cbn [start]; [reflexivity|].
  unfold bind at 1. unfold try_ at 1.
  destruct (check_and_renew_subscriptions config utc_clock yookassa self w) as [r w1] eqn:E.
  cbn [fst snd] in *. destruct (Hscan w1 Hids) as [Hok1 Hids1].
  now apply IH.
Qed.

End KeepsUniqueIds.

(** ** The properties at concrete worlds *)

Lemma wf_w_active : wf_subscriptions (subscriptions w_active).
Proof.
  split; simpl; (constructor; [intros [] | constructor]).
Defined.

Lemma wf_w_empty : wf_subscriptions (subscriptions w_empty).
Proof. split; constructor. Defined.

(** X1 after the first payment of user 1: a second user's payment is
    stored, a second row for ["pay-1"] is refused. *)
Lemma create_subscription_unique_reference_witness :
  wf_subscriptions (subscriptions w_pending)
  /\ (exists s w',
        create_subscription clock_10min 2 "pay-9" 39900 w_pending = (Ok s, w')
        /\ subscriptions w' = subscriptions w_pending ++ [s]
        /\ sub_status s = "pending")
  /\ (exists w',
        create_subscription clock_10min 2 "pay-1" 39900 w_pending
        = (Raise IntegrityError, w')
        /\ subscriptions w' = subscriptions w_pending).
Proof.
  split; [exact wf_w_pending|]. split.
  - destruct (create_subscription_unique_reference clock_10min 2 "pay-9"
                39900 w_pending wf_w_pending) as [Hnew _].
    destruct Hnew as (s & w' & Hrun & Hrows & _ & _ & _ & _ & _ & _ & _ & Hst & _).
    + simpl. intros [H|[]]. discriminate H.
    + exists s, w'. repeat split; assumption.
  - destruct (create_subscription_unique_reference clock_10min 2 "pay-1"
                39900 w_pending wf_w_pending) as [_ Hdup].
    destruct Hdup as (w' & Hrun & Hrows & _).
    + left. reflexivity.
    + exists w'. split; assumption.
Defined.

(** X2 for the paid row of user 1 and a new payment ["pay-2"]. *)
Lemma create_renewal_subscription_links_parent_witness :
  wf_subscriptions (subscriptions w_active)
  /\ ~ In "pay-2" (map sub_payment_id (subscriptions w_active))
  /\ exists s w',
       create_renewal_subscription scan_clock active_row "pay-2" w_active
       = (Ok s, w')
       /\ subscriptions w' = [active_row; s]
       /\ sub_parent_payment_id s = Some "pay-1"
       /\ sub_status s = "pending".
Proof.
  assert (Hnew : ~ In "pay-2" (map sub_payment_id (subscriptions w_active))).
  { simpl. intros [H|[]]. discriminate H. }
  split; [exact wf_w_active|]. split; [exact Hnew|].
  destruct (create_renewal_subscription_links_parent scan_clock active_row
              "pay-2" w_active wf_w_active Hnew)
    as (s & w' & Hrun & Hrows & _ & _ & _ & _ & _ & _ & _ & _ & Hpar & Hst & _).
  exists s, w'. repeat split; assumption.
Defined.

(** X3 for a reference that was never stored. *)
Lemma activate_subscription_unknown_reference_witness :
  ~ In "pay-9" (map sub_payment_id (subscriptions w_pending))
  /\ activate_subscription default_config clock_10min "pay-9" w_pending
     = (Ok None, w_pending).
Proof.
  assert (Hnew : ~ In "pay-9" (map sub_payment_id (subscriptions w_pending))).
  { simpl. intros [H|[]]. discriminate H. }
  split; [exact Hnew|].
  exact (activate_subscription_unknown_reference default_config clock_10min
           "pay-9" w_pending Hnew).
Defined.

(** X5 for the paid row of user 1, twenty hours before its end date. *)
Lemma cancel_subscription_ends_access_witness :
  wf_subscriptions (subscriptions w_active)
  /\ cancel_subscription 7 w_active = (Ok false, w_active)
  /\ exists w',
       cancel_subscription 1 w_active = (Ok true, w')
       /\ fst (get_active_subscription scan_clock 1 w') = Ok None.
Proof.
  split; [exact wf_w_active|].
  destruct (cancel_subscription_ends_access scan_clock active_row w_active
              wf_w_active) as [Hmiss Hhit].
  split.
  - apply Hmiss. simpl. intros [H|[]]. discriminate H.
  - destruct Hhit as (r' & w' & Hrun & _ & _ & _ & _ & _ & _ & Hnone).
    + left. reflexivity.
    + exists w'. split; [exact Hrun|]. apply Hnone.
      intros x [<-|[]] Hne. now elim Hne.
Defined.

(** X6: user 1 switches auto-renewal off during the paid month. *)
Lemma toggle_auto_renewal_sets_flag_witness :
  wf_subscriptions (subscriptions w_active)
  /\ (exists w',
        toggle_auto_renewal scan_clock 1 false w_active
        = (Ok (Some (set_is_auto_renewal active_row false)), w')
        /\ row_of 1 (subscriptions w')
           = Some (set_is_auto_renewal active_row false))
  /\ toggle_auto_renewal scan_clock 2 false w_active = (Ok None, tick w_active).
Proof.
  split; [exact wf_w_active|]. split.
  - destruct (toggle_auto_renewal_sets_flag scan_clock 1 false w_active
                wf_w_active) as [Hone _].
    destruct (Hone active_row eq_refl) as (w' & Hrun & Hrow & _).
    exists w'. split; assumption.
  - destruct (toggle_auto_renewal_sets_flag scan_clock 2 false w_active
                wf_w_active) as [_ Hnone].
    apply Hnone. reflexivity.
Defined.

(** X7 for the pending row of user 1. *)
Lemma update_renewal_attempt_records_witness :
  wf_subscriptions (subscriptions w_pending)
  /\ update_renewal_attempt clock_10min 7 w_pending = (Ok tt, w_pending)
  /\ exists r' w',
       update_renewal_attempt clock_10min 1 w_pending = (Ok tt, w')
       /\ row_of 1 (subscriptions w') = Some r'
       /\ sub_renewal_attempts r' = 1
       /\ sub_last_renewal_attempt r' = Some 600000000.
Proof.
  split; [exact wf_w_pending|].
  destruct (update_renewal_attempt_records clock_10min pending_row w_pending
              wf_w_pending) as [Hmiss Hhit].
  split.
  - apply Hmiss. simpl. intros [H|[]]. discriminate H.
  - destruct Hhit as (r' & w' & Hrun & Hrow & Hn & Hlast & _).
    + left. reflexivity.
    + exists r', w'. repeat split; assumption.
Defined.

(** X8 for the first payment of user 1, every reading ten minutes after
    the one before. *)
Lemma create_activate_get_active_witness :
  wf_subscriptions (subscriptions w_empty)
  /\ ~ In "pay-1" (map sub_payment_id (subscriptions w_empty))
  /\ clock_10min 3 < clock_10min 2 + timedelta_days 30
  /\ exists s w',
       (create_subscription clock_10min 1 "pay-1" 39900 ;;
        activate_subscription default_config clock_10min "pay-1" ;;
        get_active_subscription clock_10min 1) w_empty = (Ok (Some s), w')
       /\ sub_status s = "succeeded"
       /\ sub_start_date s = Some (clock_10min 1)
       /\ sub_end_date s = Some (clock_10min 2 + timedelta_days 30).
Proof.
  assert (Hnew : ~ In "pay-1" (map sub_payment_id (subscriptions w_empty)))
    by (intros []).
  assert (Hclock : clock_10min 3 < clock_10min 2 + timedelta_days 30)
    by reflexivity.
  split; [exact wf_w_empty|]. split; [exact Hnew|]. split; [exact Hclock|].
  destruct (create_activate_get_active default_config clock_10min 1 "pay-1"
              39900 w_empty wf_w_empty Hnew)
    as (s & w' & Hrun & _ & _ & _ & Hst & Hstart & Hend & _).
  - intros x [].
  - exact Hclock.
  - exists s, w'. repeat split; assumption.
Defined.

Lemma wf_usages_w_usage : wf_usages (usages w_usage).
Proof.
  split; simpl; (constructor; [intros [] | constructor]).
Defined.

Lemma wf_usages_nil : wf_usages [].
Proof. split; constructor. Defined.

(** X10 for the user on record and for a user seen for the first time. *)
Lemma get_or_create_usage_idempotent_witness :
  wf_usages (usages w_usage)
  /\ (exists w1,
        get_or_create_usage clock_10min 7 w_usage = (Ok usage_row, w1)
        /\ get_or_create_usage clock_10min 7 w1 = (Ok usage_row, w1))
  /\ (exists u w1,
        get_or_create_usage clock_10min 8 w_usage = (Ok u, w1)
        /\ get_or_create_usage clock_10min 8 w1 = (Ok u, w1)
        /\ photos_used u = 0 /\ questions_used u = 0).
Proof.
  split; [exact wf_usages_w_usage|]. split.
  - destruct (get_or_create_usage_idempotent clock_10min 7 w_usage
                wf_usages_w_usage) as (u & w1 & H1 & H2 & _).
    assert (E : fst (get_or_create_usage clock_10min 7 w_usage) = Ok usage_row)
      by reflexivity.
    rewrite H1 in E. injection E as ->. exists w1. split; assumption.
  - destruct (get_or_create_usage_idempotent clock_10min 8 w_usage
                wf_usages_w_usage) as (u & w1 & H1 & H2 & _ & _ & Hnew).
    destruct Hnew as (Hp & Hq & _).
    + intros x [<-|[]]. discriminate.
    + exists u, w1. repeat split; assumption.
Defined.

(** X11 for the user with 3 photos and 4 questions on record. *)
Lemma reset_usage_zeroes_counters_witness :
  wf_usages (usages w_usage)
  /\ exists after w',
       reset_usage clock_10min 7 w_usage = (Ok after, w')
       /\ lookup_usage 7 (usages w') = Some after
       /\ photos_used after = 0
       /\ questions_used after = 0.
Proof.
  split; [exact wf_usages_w_usage|].
  destruct (reset_usage_zeroes_counters clock_10min 7 w_usage
              wf_usages_w_usage) as (after & w' & Hrun & Hrow & Hp & Hq & _).
  exists after, w'. repeat split; assumption.
Defined.

(** X12 for the same user: two more photos use up the free photos and
    leave the free questions. *)
Lemma free_quota_countdown_witness :
  wf_usages (usages w_usage)
  /\ exists w',
       times 2 (increment_photos clock_10min 7) w_usage = (Ok tt, w')
       /\ photos_of 7 w' = 5
       /\ fst (can_use_photo default_config clock_10min 7 w') = Ok false
       /\ fst (can_ask_question default_config clock_10min 7 w') = Ok true.
Proof.
  split; [exact wf_usages_w_usage|].
  destruct (free_quota_countdown default_config clock_10min 7 2 w_usage
              wf_usages_w_usage) as [(w' & Hrun & Hp & Hphoto & Hquestion) _].
  - intros r [].
  - exists w'. repeat split; assumption.
Defined.

(** X13 for the reference ["pay-1"] and for a reference with an
    underscore in it. *)
Lemma callback_payment_id_round_trip_witness :
  callback_payment_id (check_payment_data "pay-1") = Some "pay-1"
  /\ callback_payment_id (cancel_renewal_data "pay_1") = Some "pay"
  /\ callback_payment_id "subscribe" = None.
Proof.
  split; [|split].
  - destruct (callback_payment_id_round_trip "pay-1") as [Hfree _].
    apply Hfree. simpl. repeat split; discriminate.
  - destruct (callback_payment_id_round_trip "pay_1") as [_ [Hcut _]].
    apply (Hcut "pay" "1"); [simpl; repeat split; discriminate | reflexivity].
  - destruct (callback_payment_id_round_trip "") as [_ [_ Hshort]].
    assert (Hf : free_of "_"%char "subscribe")
      by (simpl; repeat split; discriminate).
    destruct (Hshort "subscribe" "" Hf) as [Hnone _]. exact Hnone.
Defined.

(** X14: user 1 has used the free photos, pays and presses the button. *)
Lemma handle_check_payment_activates_and_resets_witness :
  wf_subscriptions (subscriptions w_pending)
  /\ wf_usages (usages w_pending)
  /\ In pending_row (subscriptions w_pending)
  /\ exists w',
       handle_check_payment default_config clock_10min gw_charges "pay-1"
         w_pending = (Ok tt, w')
       /\ row_of 1 (subscriptions w')
          = Some (stamped default_config pending_row (clock_10min 1)
                    (clock_10min 2))
       /\ photos_of 1 w' = 0
       /\ questions_of 1 w' = 0.
Proof.
  split; [exact wf_w_pending|]. split; [exact wf_usages_nil|].
  split; [left; reflexivity|].
  destruct (handle_check_payment_activates_and_resets default_config
              clock_10min gw_charges pending_row
              {| po_id := "pay-1"; po_status := "succeeded";
                 po_confirmation_url := None;
                 po_payment_method := Some "pm-1" |}
              w_pending wf_w_pending wf_usages_nil (or_introl eq_refl)
              eq_refl eq_refl)
    as (w' & Hrun & Hrow & _ & _ & Hp & Hq & _).
  exists w'. repeat split; assumption.
Defined.

(** X15 when the gateway cannot be reached. *)
Lemma handle_check_payment_without_activation_witness :
  handle_check_payment default_config clock_10min gw_lookup_raises "pay-1"
    w_pending
  = (Ok tt,
     logged (logged w_pending (PaymentFindOne "pay-1"))
       (CallbackReply PaymentNotPassed)).
Proof.
  destruct (handle_check_payment_without_activation default_config
              clock_10min gw_lookup_raises "pay-1" w_pending)
    as [_ [Hnone _]].
  apply Hnone. right. exists GatewayError. reflexivity.
Defined.

(** X16: user 1 backs out of the pending payment; pressing the button
    again changes nothing. *)
Lemma handle_cancel_payment_only_pending_witness :
  wf_subscriptions (subscriptions w_pending)
  /\ wf_subscriptions (subscriptions w_canceled)
  /\ handle_cancel_payment "pay-1" w_pending
     = (Ok tt, set_subscriptions w_pending [canceled_row])
  /\ handle_cancel_payment "pay-1" w_canceled = (Ok tt, w_canceled).
Proof.
  assert (Hwf : wf_subscriptions (subscriptions w_canceled)).
  { split; simpl; (constructor; [intros [] | constructor]). }
  split; [exact wf_w_pending|]. split; [exact Hwf|]. split.
  - destruct (handle_cancel_payment_only_pending "pay-1" w_pending
                wf_w_pending) as [Hpending _].
    destruct (Hpending pending_row (or_introl eq_refl) eq_refl eq_refl)
      as [Hrun _].
    exact Hrun.
  - destruct (handle_cancel_payment_only_pending "pay-1" w_canceled Hwf)
      as [_ [Hother _]].
    apply (Hother canceled_row); [left; reflexivity | reflexivity |].
    intros H. discriminate H.
Defined.

(** X18: user 1 switches auto-renewal off from chat 1001. *)
Lemma handle_toggle_auto_renewal_inverts_flag_witness :
  wf_subscriptions (subscriptions w_active)
  /\ exists w',
       handle_toggle_auto_renewal scan_clock registered_users 1001 w_active
       = (Ok (AutoRenewalSwitched false (timedelta_days 30)), w')
       /\ row_of 1 (subscriptions w')
          = Some (set_is_auto_renewal active_row false).
Proof.
  split; [exact wf_w_active|].
  destruct (handle_toggle_auto_renewal_inverts_flag scan_clock
              registered_users 1001
              {| user_id := 1; user_telegram_id := 1001 |} active_row
              w_active wf_w_active eq_refl eq_refl eq_refl)
    as (w' & end_date & Hrun & Hend & Hrow & _).
  injection Hend as <-. exists w'. split; assumption.
Defined.

(** X19: user 1 cancels the subscription from chat 1001, twenty hours
    before its end date. *)
Lemma confirm_cancel_subscription_ends_access_witness :
  wf_subscriptions (subscriptions w_active)
  /\ exists w',
       confirm_cancel_subscription scan_clock registered_users 1001 w_active
       = (Ok (SubscriptionCanceled (timedelta_days 30)), w')
       /\ row_of 1 (subscriptions w') = Some (set_status active_row "canceled")
       /\ scan_clock 0 < timedelta_days 30.
Proof.
  split; [exact wf_w_active|].
  destruct (confirm_cancel_subscription_ends_access scan_clock
              registered_users 1001
              {| user_id := 1; user_telegram_id := 1001 |} active_row
              w_active wf_w_active eq_refl eq_refl)
    as (w' & end_date & Hrun & Hend & Hlt & Hrow & _).
  injection Hend as <-. exists w'. repeat split; assumption.
Defined.

(** X21 at a gateway that charges the stored method at once. *)
Lemma create_recurrent_payment_charges_stored_method_witness :
  create_recurrent_payment gw_charges 39900 "renewal" "https://t.me/nutribot"
    "pay-1" None w_empty
  = (Ok (Some {| pi_id := "pay-2"; pi_status := "succeeded";
                 pi_confirmation_url := None; pi_amount := 39900 |}),
     logged (logged w_empty (PaymentFindOne "pay-1"))
       (PaymentCreate (recurrent_request 39900 "renewal" "pm-1" None))).
Proof.
  destruct (create_recurrent_payment_charges_stored_method gw_charges 39900
              "renewal" "https://t.me/nutribot" "pay-1" None
              {| po_id := "pay-1"; po_status := "succeeded";
                 po_confirmation_url := None;
                 po_payment_method := Some "pm-1" |}
              {| po_id := "pay-2"; po_status := "succeeded";
                 po_confirmation_url := None;
                 po_payment_method := Some "pm-1" |}
              "pm-1" w_empty eq_refl eq_refl eq_refl) as [Hrun _].
  exact Hrun.
Defined.

(** X23: user 1 asks to subscribe for the first time; a second request
    during the paid month is answered with the end date. *)
Lemma handle_subscribe_outcome_witness :
  wf_subscriptions (subscriptions w_empty)
  /\ wf_usages (usages w_empty)
  /\ (exists s w',
        handle_subscribe default_config clock_10min gw_no_method
          registered_users nutribot 1001 w_empty
        = (Ok (PaymentOffer 5 10 true (Some "https://pay.example/3")
                 "check_payment_pay-3" "cancel_payment_pay-3"), w')
        /\ subscriptions w' = [s]
        /\ sub_payment_id s = "pay-3"
        /\ sub_status s = "pending")
  /\ handle_subscribe default_config scan_clock gw_no_method
       registered_users nutribot 1001 w_active
     = (Ok (AlreadySubscribed (timedelta_days 30)), tick w_active).
Proof.
  split; [exact wf_w_empty|]. split; [exact wf_usages_nil|]. split.
  - destruct (handle_subscribe_outcome default_config clock_10min
                gw_no_method registered_users nutribot 1001
                {| user_id := 1; user_telegram_id := 1001 |} "nutribot"
                w_empty wf_w_empty wf_usages_nil eq_refl eq_refl)
      as [_ [Hnew _]].
    destruct (Hnew {| po_id := "pay-3"; po_status := "pending";
                      po_confirmation_url := Some "https://pay.example/3";
                      po_payment_method := None |}
                   "https://pay.example/3" eq_refl eq_refl eq_refl)
      as (s & w' & Hrun & Hrows & _ & Hpay & _ & Hst & _).
    + intros [].
    + exists s, w'. repeat split; assumption.
  - destruct (handle_subscribe_outcome default_config scan_clock
                gw_no_method registered_users nutribot 1001
                {| user_id := 1; user_telegram_id := 1001 |} "nutribot"
                w_active wf_w_active wf_usages_nil eq_refl eq_refl)
      as [Hactive _].
    exact (Hactive active_row (timedelta_days 30) eq_refl eq_refl).
Defined.

Lemma active_row_past_gates : past_gates scan_clock active_row w_active w_active.
Proof. split; reflexivity. Defined.

(** X24: the scheduler runs before [set_bot] was called. *)
Lemma process_renewal_without_bot_witness :
  past_gates scan_clock active_row w_active w_active
  /\ bot new_service = None
  /\ process_renewal default_config scan_clock gw_charges new_service
       active_row w_active = (Ok tt, w_active).
Proof.
  split; [exact active_row_past_gates|]. split; [reflexivity|].
  destruct (process_renewal_without_bot default_config scan_clock gw_charges
              new_service active_row w_active w_active
              active_row_past_gates eq_refl) as [Hrun _].
  exact Hrun.
Defined.

(** X25 for the paid row of user 1, the bot answering. *)
Lemma process_renewal_aborts_before_gateway_witness :
  wf_subscriptions (subscriptions w_active)
  /\ In active_row (subscriptions w_active)
  /\ past_gates scan_clock active_row w_active w_active
  /\ process_renewal default_config scan_clock gw_charges service_with_bot
       active_row w_active
     = (Raise MissingGreenlet, logged w_active BotGetMe)
  /\ exists w',
       (r <- try_ (process_renewal default_config scan_clock gw_charges
                     service_with_bot active_row) ;;
        match r with
        | Ok _ => ret tt
        | Raise _ => update_renewal_attempt scan_clock 1
        end) w_active = (Ok tt, w')
       /\ row_of 1 (subscriptions w')
          = Some (expiring_row 1 (Some (scan_clock 0)))
       /\ trace w' = [BotGetMe].
Proof.
  split; [exact wf_w_active|]. split; [left; reflexivity|].
  split; [exact active_row_past_gates|].
  destruct (process_renewal_aborts_before_gateway default_config scan_clock
              gw_charges service_with_bot active_row nutribot w_active
              w_active wf_w_active (or_introl eq_refl) active_row_past_gates
              eq_refl)
    as (Hrun & w' & Hbody & Hrow & _ & _ & _ & Htrace).
  split; [exact Hrun|].
  exists w'. split; [exact Hbody|]. split; [exact Hrow | exact Htrace].
Defined.

Lemma unique_ids_w_mixed : unique_ids w_mixed.
Proof.
  unfold unique_ids. simpl.
  repeat (constructor; [simpl; intuition discriminate|]). constructor.
Defined.

(** X27 for a scan among rows of every kind, at a gateway whose lookup
    raises. *)
Lemma check_and_renew_subscriptions_always_returns_witness :
  unique_ids w_mixed
  /\ fst (check_and_renew_subscriptions default_config scan_clock
            gw_lookup_raises service_with_bot w_mixed) = Ok tt
  /\ fst (start default_config scan_clock gw_lookup_raises 3
            service_with_bot w_mixed) = Ok tt.
Proof.
  split; [exact unique_ids_w_mixed|].
  destruct (check_and_renew_subscriptions_always_returns default_config
              scan_clock gw_lookup_raises service_with_bot w_mixed
              unique_ids_w_mixed) as (Hscan & _ & _ & Hloop).
  split; [exact Hscan | exact (Hloop 3%nat)].
Defined.
